(** * View synchronisation and edit-history overlay of the dataset page

    Shallow embedding of [frontend-next/app/page.tsx]: the React state of
    [Page], its event handlers ([loadDataset], [openDataset], [runNLQ],
    [fetchPage], [handleUndo], [handleShowAllInTable], ...) and the parts of
    the render function that decide which controls are enabled.

    Modelling conventions.
    - Every [useState] cell is a field of [State]; [setX v] is a functional
      record update.  A handler is a command over a [World]: the pending React
      state, the log of requests sent with [fetchJson], and the one
      [localStorage] slot.
    - A handler is a closure created by one render.  Plain reads of state
      variables inside it ([session], [limit], [rowCount], [highlightStack],
      ...) therefore see the state of that render, the argument [snap], while
      updater callbacks ([setMessages((m) => ...)]) see the pending state.
    - The answer of the server to each request is an argument of the handler:
      [Ok data] when [fetchJson] returns, [Failed msg] when it throws.
    - Counts are integers (Z); JavaScript truthiness ([x || d]) is written
      out: 0, the empty string, null and undefined are falsy.  Fields that
      the code defends with [||] may be absent and are options. *)

From Stdlib Require Import Ascii.
From stdpp Require Import gmap strings list fin_maps pretty.

Open Scope Z_scope.

(** ** JavaScript values and objects *)

Local Set Warnings "-register-all".

Inductive Json :=
| JNull
| JBool (b : bool)
| JNum (n : Z)
| JStr (s : string)
| JArr (items : list Json)
| JObj (props : list (string * Json)).

(** A plain object: its own enumerable string keys in property order, each
    key at most once. *)
Abbreviation Obj V := (list (string * V)).

Abbreviation Row := (Obj Json).
Abbreviation Cols := (Obj string).

Definition ROW_ID : string := "__row_id".

(** [const { k, ...rest } = o]: [rest] receives every own property of [o]
    but [k], in the order of [o]. *)
Definition rest_without {V} (k : string) (o : Obj V) : Obj V :=
  filter (λ kv, negb (String.eqb kv.1 k)) o.

(** [o[k]] on a plain object. *)
Fixpoint get {V} (k : string) (o : Obj V) : option V :=
  match o with
  | [] => None
  | (k', v) :: o' => if String.eqb k' k then Some v else get k o'
  end.

Definition keys {V} (o : Obj V) : list string := o.*1.

Definition stripRowId (rows : list Row) : list Row :=
  map (λ r, rest_without ROW_ID r) rows.

Definition stripColumns (cols : Cols) : Cols := rest_without ROW_ID cols.

(** ** Truthiness *)

Definition truthy_str (s : string) : bool := negb (String.eqb s "").

Definition truthy_ostr (o : option string) : bool :=
  match o with Some s => truthy_str s | None => false end.

Definition truthy_num (n : Z) : bool := negb (n =? 0).

(** [o || null] on an optional string. *)
Definition str_or_null (o : option string) : option string :=
  if truthy_ostr o then o else None.

(** [o || d] on an optional string. *)
Definition str_or (o : option string) (d : string) : string :=
  match o with Some s => if truthy_str s then s else d | None => d end.

(** [o || d] on an optional number. *)
Definition num_or (o : option Z) (d : Z) : Z :=
  match o with Some n => if truthy_num n then n else d | None => d end.

(** [o || []] and [o || {}]: arrays and objects are always truthy. *)
Definition list_or_empty {A} (o : option (list A)) : list A := default [] o.

(** ** Responses of the backend *)

Module LoadResponse.
Record t := mk {
  dataset_id : option string;
  session : option string;
  columns : option Cols;
  row_count : option Z;
  preview : option (list Row)
}.
End LoadResponse.

Module UpdatedCell.
Record t := mk {
  row_id : Z;
  column : string;
  old_value : option string;
  new_value : option string
}.
End UpdatedCell.

Module NLExprResponse.
Record t := mk {
  code : option string;
  preview : option (list Row);
  total_count : option Z;
  updated_cells : option (list UpdatedCell.t);
  undo_count : option Z;
  error : option string
}.
End NLExprResponse.

Module UndoResponse.
Record t := mk {
  success : bool;
  dataset_id : option string;
  session : option string;
  columns : option Cols;
  row_count : option Z;
  preview : option (list Row);
  message : option string;
  undo_count : option Z
}.
End UndoResponse.

Module PageResponse.
Record t := mk {
  rows : option (list Row);
  total : option Z
}.
End PageResponse.

(** What [await fetchJson(...)] gives: the parsed body, or a thrown [Error]
    with its message. *)
Inductive Fetch (A : Type) :=
| Ok (data : A)
| Failed (message : string).
Arguments Ok {A} data.
Arguments Failed {A} message.

(** The requests the page sends, by endpoint. *)
Inductive Request :=
| ReqLoad (path : string)
| ReqOpen (dataset_id : string)
| ReqNLQ (session : option string) (question : string)
| ReqPage (session : string) (offset limit : Z) (code : option string)
| ReqUndo (dataset_id session : string).

(** ** Chat transcript *)

Inductive Role := user | assistant.
Inductive Kind := KCode | KText | KError | KPreview | KUpdate.

Module ChatTurn.
Record t := mk {
  role : Role;
  text : string;
  kind : option Kind;
  previewData : option (list Row);
  totalCount : option Z;
  activeCode : option string;
  updatedCount : option Z
}.
Definition plain (r : Role) (txt : string) (k : Kind) : t :=
  mk r txt (Some k) None None None None.
End ChatTurn.

(** ** Client state *)

Definition DEFAULT_PAGE_SIZE : Z := 500.

Record State := mkState {
  s3Path : string;
  datasetId : option string;
  session : option string;
  columns : Cols;
  rowCount : Z;
  question : string;
  code : string;
  preview : list Row;
  offset : Z;
  limit : Z;
  activeCode : option string;
  loading : bool;
  paging : bool;
  error : option string;
  messages : list ChatTurn.t;
  showLoadModal : bool;
  highlightedCells : gmap string string;
  highlightStack : list (list string);
  filteredTotalCount : Z;
  rawPreview : list Row;
  updatedRowIds : gset Z;
  lastUpdatedColumn : option string;
  undoCount : Z
}.

(** Functional record update, one per [useState] cell. *)
Definition with_s3Path (v : string) (s : State) : State :=
  mkState v (datasetId s) (session s) (columns s) (rowCount s) (question s)
    (code s) (preview s) (offset s) (limit s) (activeCode s) (loading s)
    (paging s) (error s) (messages s) (showLoadModal s) (highlightedCells s)
    (highlightStack s) (filteredTotalCount s) (rawPreview s) (updatedRowIds s)
    (lastUpdatedColumn s) (undoCount s).
Definition with_datasetId (v : option string) (s : State) : State :=
  mkState (s3Path s) v (session s) (columns s) (rowCount s) (question s)
    (code s) (preview s) (offset s) (limit s) (activeCode s) (loading s)
    (paging s) (error s) (messages s) (showLoadModal s) (highlightedCells s)
    (highlightStack s) (filteredTotalCount s) (rawPreview s) (updatedRowIds s)
    (lastUpdatedColumn s) (undoCount s).
Definition with_session (v : option string) (s : State) : State :=
  mkState (s3Path s) (datasetId s) v (columns s) (rowCount s) (question s)
    (code s) (preview s) (offset s) (limit s) (activeCode s) (loading s)
    (paging s) (error s) (messages s) (showLoadModal s) (highlightedCells s)
    (highlightStack s) (filteredTotalCount s) (rawPreview s) (updatedRowIds s)
    (lastUpdatedColumn s) (undoCount s).
Definition with_columns (v : Cols) (s : State) : State :=
  mkState (s3Path s) (datasetId s) (session s) v (rowCount s) (question s)
    (code s) (preview s) (offset s) (limit s) (activeCode s) (loading s)
    (paging s) (error s) (messages s) (showLoadModal s) (highlightedCells s)
    (highlightStack s) (filteredTotalCount s) (rawPreview s) (updatedRowIds s)
    (lastUpdatedColumn s) (undoCount s).
Definition with_rowCount (v : Z) (s : State) : State :=
  mkState (s3Path s) (datasetId s) (session s) (columns s) v (question s)
    (code s) (preview s) (offset s) (limit s) (activeCode s) (loading s)
    (paging s) (error s) (messages s) (showLoadModal s) (highlightedCells s)
    (highlightStack s) (filteredTotalCount s) (rawPreview s) (updatedRowIds s)
    (lastUpdatedColumn s) (undoCount s).
Definition with_question (v : string) (s : State) : State :=
  mkState (s3Path s) (datasetId s) (session s) (columns s) (rowCount s) v
    (code s) (preview s) (offset s) (limit s) (activeCode s) (loading s)
    (paging s) (error s) (messages s) (showLoadModal s) (highlightedCells s)
    (highlightStack s) (filteredTotalCount s) (rawPreview s) (updatedRowIds s)
    (lastUpdatedColumn s) (undoCount s).
Definition with_code (v : string) (s : State) : State :=
  mkState (s3Path s) (datasetId s) (session s) (columns s) (rowCount s)
    (question s) v (preview s) (offset s) (limit s) (activeCode s) (loading s)
    (paging s) (error s) (messages s) (showLoadModal s) (highlightedCells s)
    (highlightStack s) (filteredTotalCount s) (rawPreview s) (updatedRowIds s)
    (lastUpdatedColumn s) (undoCount s).
Definition with_preview (v : list Row) (s : State) : State :=
  mkState (s3Path s) (datasetId s) (session s) (columns s) (rowCount s)
    (question s) (code s) v (offset s) (limit s) (activeCode s) (loading s)
    (paging s) (error s) (messages s) (showLoadModal s) (highlightedCells s)
    (highlightStack s) (filteredTotalCount s) (rawPreview s) (updatedRowIds s)
    (lastUpdatedColumn s) (undoCount s).
Definition with_offset (v : Z) (s : State) : State :=
  mkState (s3Path s) (datasetId s) (session s) (columns s) (rowCount s)
    (question s) (code s) (preview s) v (limit s) (activeCode s) (loading s)
    (paging s) (error s) (messages s) (showLoadModal s) (highlightedCells s)
    (highlightStack s) (filteredTotalCount s) (rawPreview s) (updatedRowIds s)
    (lastUpdatedColumn s) (undoCount s).
Definition with_limit (v : Z) (s : State) : State :=
  mkState (s3Path s) (datasetId s) (session s) (columns s) (rowCount s)
    (question s) (code s) (preview s) (offset s) v (activeCode s) (loading s)
    (paging s) (error s) (messages s) (showLoadModal s) (highlightedCells s)
    (highlightStack s) (filteredTotalCount s) (rawPreview s) (updatedRowIds s)
    (lastUpdatedColumn s) (undoCount s).
Definition with_activeCode (v : option string) (s : State) : State :=
  mkState (s3Path s) (datasetId s) (session s) (columns s) (rowCount s)
    (question s) (code s) (preview s) (offset s) (limit s) v (loading s)
    (paging s) (error s) (messages s) (showLoadModal s) (highlightedCells s)
    (highlightStack s) (filteredTotalCount s) (rawPreview s) (updatedRowIds s)
    (lastUpdatedColumn s) (undoCount s).
Definition with_loading (v : bool) (s : State) : State :=
  mkState (s3Path s) (datasetId s) (session s) (columns s) (rowCount s)
    (question s) (code s) (preview s) (offset s) (limit s) (activeCode s) v
    (paging s) (error s) (messages s) (showLoadModal s) (highlightedCells s)
    (highlightStack s) (filteredTotalCount s) (rawPreview s) (updatedRowIds s)
    (lastUpdatedColumn s) (undoCount s).
Definition with_paging (v : bool) (s : State) : State :=
  mkState (s3Path s) (datasetId s) (session s) (columns s) (rowCount s)
    (question s) (code s) (preview s) (offset s) (limit s) (activeCode s)
    (loading s) v (error s) (messages s) (showLoadModal s)
    (highlightedCells s) (highlightStack s) (filteredTotalCount s)
    (rawPreview s) (updatedRowIds s) (lastUpdatedColumn s) (undoCount s).
Definition with_error (v : option string) (s : State) : State :=
  mkState (s3Path s) (datasetId s) (session s) (columns s) (rowCount s)
    (question s) (code s) (preview s) (offset s) (limit s) (activeCode s)
    (loading s) (paging s) v (messages s) (showLoadModal s)
    (highlightedCells s) (highlightStack s) (filteredTotalCount s)
    (rawPreview s) (updatedRowIds s) (lastUpdatedColumn s) (undoCount s).
Definition with_messages (v : list ChatTurn.t) (s : State) : State :=
  mkState (s3Path s) (datasetId s) (session s) (columns s) (rowCount s)
    (question s) (code s) (preview s) (offset s) (limit s) (activeCode s)
    (loading s) (paging s) (error s) v (showLoadModal s) (highlightedCells s)
    (highlightStack s) (filteredTotalCount s) (rawPreview s) (updatedRowIds s)
    (lastUpdatedColumn s) (undoCount s).
Definition with_showLoadModal (v : bool) (s : State) : State :=
  mkState (s3Path s) (datasetId s) (session s) (columns s) (rowCount s)
    (question s) (code s) (preview s) (offset s) (limit s) (activeCode s)
    (loading s) (paging s) (error s) (messages s) v (highlightedCells s)
    (highlightStack s) (filteredTotalCount s) (rawPreview s) (updatedRowIds s)
    (lastUpdatedColumn s) (undoCount s).
Definition with_highlightedCells (v : gmap string string) (s : State) : State :=
  mkState (s3Path s) (datasetId s) (session s) (columns s) (rowCount s)
    (question s) (code s) (preview s) (offset s) (limit s) (activeCode s)
    (loading s) (paging s) (error s) (messages s) (showLoadModal s) v
    (highlightStack s) (filteredTotalCount s) (rawPreview s) (updatedRowIds s)
    (lastUpdatedColumn s) (undoCount s).
Definition with_highlightStack (v : list (list string)) (s : State) : State :=
  mkState (s3Path s) (datasetId s) (session s) (columns s) (rowCount s)
    (question s) (code s) (preview s) (offset s) (limit s) (activeCode s)
    (loading s) (paging s) (error s) (messages s) (showLoadModal s)
    (highlightedCells s) v (filteredTotalCount s) (rawPreview s)
    (updatedRowIds s) (lastUpdatedColumn s) (undoCount s).
Definition with_filteredTotalCount (v : Z) (s : State) : State :=
  mkState (s3Path s) (datasetId s) (session s) (columns s) (rowCount s)
    (question s) (code s) (preview s) (offset s) (limit s) (activeCode s)
    (loading s) (paging s) (error s) (messages s) (showLoadModal s)
    (highlightedCells s) (highlightStack s) v (rawPreview s) (updatedRowIds s)
    (lastUpdatedColumn s) (undoCount s).
Definition with_rawPreview (v : list Row) (s : State) : State :=
  mkState (s3Path s) (datasetId s) (session s) (columns s) (rowCount s)
    (question s) (code s) (preview s) (offset s) (limit s) (activeCode s)
    (loading s) (paging s) (error s) (messages s) (showLoadModal s)
    (highlightedCells s) (highlightStack s) (filteredTotalCount s) v
    (updatedRowIds s) (lastUpdatedColumn s) (undoCount s).
Definition with_updatedRowIds (v : gset Z) (s : State) : State :=
  mkState (s3Path s) (datasetId s) (session s) (columns s) (rowCount s)
    (question s) (code s) (preview s) (offset s) (limit s) (activeCode s)
    (loading s) (paging s) (error s) (messages s) (showLoadModal s)
    (highlightedCells s) (highlightStack s) (filteredTotalCount s)
    (rawPreview s) v (lastUpdatedColumn s) (undoCount s).
Definition with_lastUpdatedColumn (v : option string) (s : State) : State :=
  mkState (s3Path s) (datasetId s) (session s) (columns s) (rowCount s)
    (question s) (code s) (preview s) (offset s) (limit s) (activeCode s)
    (loading s) (paging s) (error s) (messages s) (showLoadModal s)
    (highlightedCells s) (highlightStack s) (filteredTotalCount s)
    (rawPreview s) (updatedRowIds s) v (undoCount s).
Definition with_undoCount (v : Z) (s : State) : State :=
  mkState (s3Path s) (datasetId s) (session s) (columns s) (rowCount s)
    (question s) (code s) (preview s) (offset s) (limit s) (activeCode s)
    (loading s) (paging s) (error s) (messages s) (showLoadModal s)
    (highlightedCells s) (highlightStack s) (filteredTotalCount s)
    (rawPreview s) (updatedRowIds s) (lastUpdatedColumn s) v.

Definition initial : State :=
  mkState "s3://training-data-kg/100mb.xlsx" None None [] 0 "" "--" [] 0
    DEFAULT_PAGE_SIZE None false false None [] false ∅ [] 0 [] ∅ None 0.

(** ** Commands *)

Record World := mkWorld {
  ui : State;
  net : list Request;
  stored : option string
}.

Definition Cmd := World → World.

Definition skip : Cmd := λ w, w.
Definition andThen (c1 c2 : Cmd) : Cmd := λ w, c2 (c1 w).
Declare Scope cmd_scope.
Delimit Scope cmd_scope with cmd.
Notation "c1 ;; c2" := (andThen c1 c2)
  (at level 100, c2 at level 200, right associativity) : cmd_scope.
Local Open Scope cmd_scope.

Definition when (b : bool) (c : Cmd) : Cmd := if b then c else skip.

Definition upd (f : State → State) : Cmd :=
  λ w, mkWorld (f (ui w)) (net w) (stored w).

(** [fetch(apiBase + path, ...)]: the request goes out. *)
Definition fetchJson (r : Request) : Cmd :=
  λ w, mkWorld (ui w) (net w ++ [r]) (stored w).

(** [localStorage.setItem(STORAGE_DATASET_ID, id)] and [removeItem]. *)
Definition storage_set (id : string) : Cmd :=
  λ w, mkWorld (ui w) (net w) (Some id).
Definition storage_remove : Cmd :=
  λ w, mkWorld (ui w) (net w) None.

(** [try { const data = await fetchJson(req); k(data) } catch (e) { h(e.message) }] *)
Definition try_fetch {A} (req : Request) (resp : Fetch A)
    (k : A → Cmd) (h : string → Cmd) : Cmd :=
  fetchJson req ;;
  match resp with
  | Ok data => k data
  | Failed msg => h msg
  end.

Definition setDatasetId v := upd (with_datasetId v).
Definition setSession v := upd (with_session v).
Definition setColumns v := upd (with_columns v).
Definition setRowCount v := upd (with_rowCount v).
Definition setQuestion v := upd (with_question v).
Definition setS3Path v := upd (with_s3Path v).
Definition setCode v := upd (with_code v).
Definition setPreview v := upd (with_preview v).
Definition setOffset v := upd (with_offset v).
Definition setLimit v := upd (with_limit v).
Definition setActiveCode v := upd (with_activeCode v).
Definition setLoading v := upd (with_loading v).
Definition setPaging v := upd (with_paging v).
Definition setError v := upd (with_error v).
Definition setMessages v := upd (with_messages v).
Definition setShowLoadModal v := upd (with_showLoadModal v).
Definition setHighlightedCells v := upd (with_highlightedCells v).
Definition setHighlightStack v := upd (with_highlightStack v).
Definition setFilteredTotalCount v := upd (with_filteredTotalCount v).
Definition setRawPreview v := upd (with_rawPreview v).
Definition setUpdatedRowIds v := upd (with_updatedRowIds v).
Definition setLastUpdatedColumn v := upd (with_lastUpdatedColumn v).
Definition setUndoCount v := upd (with_undoCount v).

(** Updater form, [setX((prev) => f(prev))]: reads the pending state. *)
Definition appendMessages (new : list ChatTurn.t) : Cmd :=
  upd (λ s, with_messages (messages s ++ new) s).
Definition updateUpdatedRowIds (f : gset Z → gset Z) : Cmd :=
  upd (λ s, with_updatedRowIds (f (updatedRowIds s)) s).
Definition updateHighlightedCells (f : gmap string string → gmap string string) : Cmd :=
  upd (λ s, with_highlightedCells (f (highlightedCells s)) s).
Definition updateHighlightStack (f : list (list string) → list (list string)) : Cmd :=
  upd (λ s, with_highlightStack (f (highlightStack s)) s).

(** ** Derived values of a render *)

(** [Math.ceil(a / b)] for integers [a] and [b > 0]. *)
Definition ceil_div (a b : Z) : Z := - ((- a) / b).

(** [rowCount || preview.length]. *)
Definition shownTotal (s : State) : Z :=
  if truthy_num (rowCount s) then rowCount s else Z.of_nat (length (preview s)).

(** [Math.max(1, Math.ceil((rowCount || preview.length || 1) / limit))] *)
Definition totalPages (s : State) : Z :=
  Z.max 1 (ceil_div (if truthy_num (shownTotal s) then shownTotal s else 1) (limit s)).

(** [Math.floor(offset / limit) + 1] *)
Definition currentPage (s : State) : Z := offset s / limit s + 1.

(** [disabled] of the Prev and Next buttons. *)
Definition prevDisabled (s : State) : bool := paging s || (offset s =? 0).
Definition nextDisabled (s : State) : bool :=
  paging s || (shownTotal s <=? offset s + limit s).

(** [disabled] of the Undo button. *)
Definition undoDisabled (s : State) : bool :=
  loading s || paging s || (undoCount s =? 0).

(** ** Highlight palette *)

Definition colors : list string :=
  [ "rgba(255, 182, 193, 0.6)"; "rgba(173, 216, 230, 0.6)";
    "rgba(144, 238, 144, 0.6)"; "rgba(255, 255, 224, 0.6)";
    "rgba(230, 230, 250, 0.6)"; "rgba(255, 218, 185, 0.6)";
    "rgba(175, 238, 238, 0.6)"; "rgba(255, 160, 122, 0.6)" ]%string.

(** [colors[Math.floor(Math.random() * colors.length)]]; [draw] is the
    floored product, a number below [colors.length]. *)
Definition getRandomHighlightColor (draw : nat) : string :=
  default "" (colors !! (draw `mod` length colors)%nat).

(** ** Numbers as text *)

(** [Number.MAX_SAFE_INTEGER], 2^53 - 1: up to it, in absolute value, a
    number holds an integer exactly, and an id sent in a response arrives as
    the integer it was. *)
Definition MAX_SAFE_INTEGER : Z := 9007199254740991.

(** [Number.isSafeInteger(n)] for a number that holds an integer. *)
Definition isSafeInteger (n : Z) : bool := Z.abs n <=? MAX_SAFE_INTEGER.

(** From 10^21 on [String] writes a number in exponent form. *)
Definition EXPONENT_FROM : Z := 1000000000000000000000.

(** A numeral without the zeros at its end. *)
Fixpoint drop_trailing_zeros (s : string) : string :=
  match s with
  | EmptyString => EmptyString
  | String c r =>
      match drop_trailing_zeros r with
      | EmptyString => if Ascii.eqb c "0" then EmptyString else String c EmptyString
      | r' => String c r'
      end
  end.

(** The exponent form of a numeral: ["1e+21"], ["1.5e+21"]. *)
Definition exponentForm (digits : string) : string :=
  match digits with
  | EmptyString => EmptyString
  | String c r =>
      String c
        (match drop_trailing_zeros r with
         | EmptyString => EmptyString
         | r' => "." +:+ r'
         end) +:+ "e+" +:+ pretty (Z.of_nat (String.length r))
  end.

(** [String(n)], which a template literal applies, for a number that holds
    the integer [n]: the decimal numeral below 10^21, the exponent form from
    there on.  The digits are those of [n].  They are the ones the source
    prints for every safe integer; a larger integer is in general not a
    number of its own, and the properties of the keys below are stated for
    safe integers. *)
Definition numberToString (n : Z) : string :=
  if Z.abs n <? EXPONENT_FROM then pretty n
  else (if n <? 0 then "-" else "") +:+ exponentForm (pretty (Z.abs n)).

(** The cell key [`${cell.row_id}-${cell.column}`]. *)
Definition cellKey (row_id : Z) (column : string) : string :=
  numberToString row_id +:+ "-" +:+ column.

(** ** [parseInt(key.split("-")[0], 10)] *)

Definition dash : Ascii.ascii := "-"%char.

(** [key.split("-")[0]]: the text before the first dash. *)
Fixpoint before_dash (s : string) : string :=
  match s with
  | EmptyString => EmptyString
  | String c r => if Ascii.eqb c dash then EmptyString else String c (before_dash r)
  end.

Definition digit_of (c : Ascii.ascii) : option Z :=
  let n := Z.of_N (Ascii.N_of_ascii c) in
  if (48 <=? n) && (n <=? 57) then Some (n - 48) else None.

Definition is_space (c : Ascii.ascii) : bool :=
  let n := Ascii.N_of_ascii c in
  (n =? 32)%N || ((9 <=? n)%N && (n <=? 13)%N).

Fixpoint skip_spaces (s : string) : string :=
  match s with
  | String c r => if is_space c then skip_spaces r else s
  | EmptyString => s
  end.

(** The longest prefix of decimal digits, as a number; [None] is NaN. *)
Fixpoint read_digits (s : string) (acc : option Z) : option Z :=
  match s with
  | String c r =>
      match digit_of c with
      | Some d => read_digits r (Some (10 * default 0 acc + d))
      | None => acc
      end
  | EmptyString => acc
  end.

Definition parseInt10 (s : string) : option Z :=
  match skip_spaces s with
  | String "+"%char r => read_digits r None
  | String "-"%char r => Z.opp <$> read_digits r None
  | r => read_digits r None
  end.

(** ** Event handlers *)

(** [fetchPage(newOffset, newLimit?, explicitSession?, codeOverride?)].
    [codeOverride] is [None] when the argument is omitted, [Some None] for
    [null]. *)
Definition fetchPage (snap : State) (newOffset : Z) (newLimit : option Z)
    (explicitSession : option string) (codeOverride : option (option string))
    (resp : Fetch PageResponse.t) : Cmd :=
  let activeSession :=
    if truthy_ostr explicitSession then explicitSession else session snap in
  match str_or_null activeSession with
  | None => setError (Some "Load a dataset first"%string)
  | Some sess =>
      let effectiveLimit := default (limit snap) newLimit in
      setPaging true ;;
      setError None ;;
      (let codeToUse := default (activeCode snap) codeOverride in
       try_fetch (ReqPage sess newOffset effectiveLimit (str_or_null codeToUse)) resp
         (λ data,
            setRawPreview (list_or_empty (PageResponse.rows data)) ;;
            setPreview (stripRowId (list_or_empty (PageResponse.rows data))) ;;
            setRowCount (num_or (PageResponse.total data) (rowCount snap)) ;;
            setOffset newOffset ;;
            match codeOverride with
            | Some c => setActiveCode (str_or_null c)
            | None => skip
            end ;;
            match newLimit with
            | Some l => setLimit l
            | None => skip
            end)
         (λ msg, setError (Some msg))) ;;
      setPaging false
  end.

Definition handleShowAllInTable (snap : State) (code : option string)
    (page : Fetch PageResponse.t) : Cmd :=
  match str_or_null (session snap) with
  | Some _ =>
      setActiveCode code ;;
      fetchPage snap 0 (Some (limit snap)) (session snap) (Some code) page
  | None => skip
  end.

Definition handleShowAllData (snap : State) (page : Fetch PageResponse.t) : Cmd :=
  match str_or_null (session snap) with
  | Some _ =>
      setActiveCode None ;;
      fetchPage snap 0 (Some (limit snap)) (session snap) (Some None) page
  | None => skip
  end.

Definition handleViewUpdatedRows (snap : State) (page : Fetch PageResponse.t) : Cmd :=
  match str_or_null (session snap) with
  | Some _ =>
      setActiveCode None ;;
      fetchPage snap 0 (Some (limit snap)) (session snap) (Some None) page
  | None => skip
  end.

Definition handleClearHighlights : Cmd :=
  setHighlightedCells ∅ ;;
  setUpdatedRowIds ∅ ;;
  setHighlightStack [].

(** [lastOperationKeys.forEach((key) => m.delete(key))] *)
Definition deleteKeys (ks : list string) (m : gmap string string) : gmap string string :=
  foldl (λ acc k, delete k acc) m ks.

(** Row ids rebuilt from the remaining stack. *)
Definition rowIdsOf (stack : list (list string)) : gset Z :=
  foldl (λ acc opKeys,
           foldl (λ acc' key,
                    match parseInt10 (before_dash key) with
                    | Some rowId => {[ rowId ]} ∪ acc'
                    | None => acc'
                    end) acc opKeys) ∅ stack.

(** [currentStack.slice(0, -1)] *)
Definition dropLast {A} (l : list A) : list A := take (length l - 1)%nat l.

Definition handleUndo (snap : State) (resp : Fetch UndoResponse.t)
    (page : Fetch PageResponse.t) : Cmd :=
  match str_or_null (datasetId snap), str_or_null (session snap) with
  | Some did, Some sess =>
      setLoading true ;;
      setError None ;;
      try_fetch (ReqUndo did sess) resp
        (λ data,
           if UndoResponse.success data then
             (let currentStack := highlightStack snap in
              match last currentStack with
              | Some lastOperationKeys =>
                  let newStack := dropLast currentStack in
                  let newHighlightedCells :=
                    deleteKeys lastOperationKeys (highlightedCells snap) in
                  let newRowIds := rowIdsOf newStack in
                  setHighlightStack newStack ;;
                  setHighlightedCells newHighlightedCells ;;
                  setUpdatedRowIds newRowIds
              | None => skip
              end) ;;
             setSession (UndoResponse.session data) ;;
             setColumns (stripColumns (list_or_empty (UndoResponse.columns data))) ;;
             setRowCount (num_or (UndoResponse.row_count data) 0) ;;
             setRawPreview (list_or_empty (UndoResponse.preview data)) ;;
             setPreview (stripRowId (list_or_empty (UndoResponse.preview data))) ;;
             setUndoCount (num_or (UndoResponse.undo_count data) 0) ;;
             appendMessages
               [ChatTurn.plain assistant
                  (str_or (UndoResponse.message data) "Changes reverted successfully.")
                  KText] ;;
             when (truthy_ostr (UndoResponse.session data))
               (fetchPage snap 0 (Some (limit snap)) (UndoResponse.session data)
                  (Some None) page)
           else
             setError (Some (str_or (UndoResponse.message data) "Undo failed")))
        (λ msg, setError (Some msg)) ;;
      setLoading false
  | _, _ => setError (Some "No dataset loaded"%string)
  end.

Definition loadDataset (snap : State) (resp : Fetch LoadResponse.t)
    (page : Fetch PageResponse.t) : Cmd :=
  setLoading true ;;
  setError None ;;
  try_fetch (ReqLoad (s3Path snap)) resp
    (λ data,
       setDatasetId (str_or_null (LoadResponse.dataset_id data)) ;;
       match str_or_null (LoadResponse.dataset_id data) with
       | Some id => storage_set id
       | None => skip
       end ;;
       setSession (LoadResponse.session data) ;;
       setColumns (stripColumns (list_or_empty (LoadResponse.columns data))) ;;
       setRowCount (num_or (LoadResponse.row_count data) 0) ;;
       setRawPreview (list_or_empty (LoadResponse.preview data)) ;;
       setPreview (stripRowId (list_or_empty (LoadResponse.preview data))) ;;
       setCode "--"%string ;;
       setActiveCode None ;;
       setMessages [] ;;
       setOffset 0 ;;
       setLimit DEFAULT_PAGE_SIZE ;;
       when (truthy_ostr (LoadResponse.session data))
         (fetchPage snap 0 (Some DEFAULT_PAGE_SIZE) (LoadResponse.session data)
            (Some None) page))
    (λ msg, setError (Some msg)) ;;
  setLoading false.

Definition openDataset (snap : State) (id : string) (resp : Fetch LoadResponse.t)
    (page : Fetch PageResponse.t) : Cmd :=
  setLoading true ;;
  setError None ;;
  try_fetch (ReqOpen id) resp
    (λ data,
       setDatasetId (if truthy_ostr (LoadResponse.dataset_id data)
                     then LoadResponse.dataset_id data else Some id) ;;
       match str_or_null (LoadResponse.dataset_id data) with
       | Some did => storage_set did
       | None => skip
       end ;;
       setSession (LoadResponse.session data) ;;
       setColumns (stripColumns (list_or_empty (LoadResponse.columns data))) ;;
       setRowCount (num_or (LoadResponse.row_count data) 0) ;;
       setRawPreview (list_or_empty (LoadResponse.preview data)) ;;
       setPreview (stripRowId (list_or_empty (LoadResponse.preview data))) ;;
       setCode "--"%string ;;
       setActiveCode None ;;
       setMessages [] ;;
       setOffset 0 ;;
       setLimit DEFAULT_PAGE_SIZE ;;
       when (truthy_ostr (LoadResponse.session data))
         (fetchPage snap 0 (Some DEFAULT_PAGE_SIZE) (LoadResponse.session data)
            (Some None) page))
    (λ msg, storage_remove ;; setError (Some msg)) ;;
  setLoading false.

(** [data.updated_cells.forEach(...)]: the keys of one operation, in the
    order of the response. *)
Definition operationKeysOf (cells : list UpdatedCell.t) : list string :=
  map (λ cell, cellKey (UpdatedCell.row_id cell) (UpdatedCell.column cell)) cells.

(** [newHighlights.forEach((color, key) => merged.set(key, color))], where
    [newHighlights] maps every key of the operation to its one colour. *)
Definition mergeHighlights (color : string) (ks : list string)
    (prev : gmap string string) : gmap string string :=
  foldl (λ merged key, <[key := color]> merged) prev ks.

Definition mergeRowIds (cells : list UpdatedCell.t) (prev : gset Z) : gset Z :=
  foldl (λ merged cell, {[ UpdatedCell.row_id cell ]} ∪ merged) prev cells.

(** [data.updated_cells && data.updated_cells.length > 0] *)
Definition isUpdateOperation (data : NLExprResponse.t) : bool :=
  match NLExprResponse.updated_cells data with
  | Some (_ :: _) => true
  | _ => false
  end.

Definition runNLQ (snap : State) (draw : nat) (resp : Fetch NLExprResponse.t)
    (page : Fetch PageResponse.t) : Cmd :=
  match str_or_null (session snap) with
  | None => setError (Some "Load a dataset first"%string)
  | Some _ =>
      setLoading true ;;
      setError None ;;
      try_fetch (ReqNLQ (session snap) (question snap)) resp
        (λ data,
           when (truthy_ostr (NLExprResponse.error data))
             (setError (NLExprResponse.error data)) ;;
           setCode (str_or (NLExprResponse.code data) "--") ;;
           setActiveCode (str_or_null (NLExprResponse.code data)) ;;
           (if isUpdateOperation data then
              let cells := list_or_empty (NLExprResponse.updated_cells data) in
              let operationColor := getRandomHighlightColor draw in
              let operationKeys := operationKeysOf cells in
              match cells with
              | cell :: _ => setLastUpdatedColumn (Some (UpdatedCell.column cell))
              | [] => skip
              end ;;
              updateUpdatedRowIds (mergeRowIds cells) ;;
              when (truthy_ostr (session snap))
                (fetchPage snap 0 (Some (limit snap)) (session snap) (Some None) page) ;;
              updateHighlightedCells (mergeHighlights operationColor operationKeys) ;;
              updateHighlightStack (λ prevStack, prevStack ++ [operationKeys])
            else skip) ;;
           (let totalCount := num_or (NLExprResponse.total_count data) 0 in
            setFilteredTotalCount totalCount ;;
            appendMessages [ChatTurn.plain user (question snap) KText] ;;
            if truthy_ostr (NLExprResponse.error data) then
              appendMessages
                [ChatTurn.plain assistant (str_or (NLExprResponse.error data) "") KError]
            else if isUpdateOperation data then
              appendMessages
                [ChatTurn.mk assistant (str_or (NLExprResponse.code data) "")
                   (Some KUpdate) None None None
                   (Some (Z.of_nat (length (list_or_empty (NLExprResponse.updated_cells data)))))] ;;
              setUndoCount (num_or (NLExprResponse.undo_count data) 0)
            else
              let chatPreviewRows :=
                take 10 (stripRowId (list_or_empty (NLExprResponse.preview data))) in
              appendMessages
                [ChatTurn.mk assistant (str_or (NLExprResponse.code data) "")
                   (Some KPreview) (Some chatPreviewRows) (Some totalCount)
                   (str_or_null (NLExprResponse.code data)) None]))
        (λ msg, setError (Some msg)) ;;
      setLoading false
  end.

(** ** The transcript as rendered *)

(** The "Show All" button of the turn [m] at index [idx] of [msgs]:
    [None] when the turn renders no such button, [Some d] when it does, with
    [d] its [disabled] attribute.  The button sits in the branch
    [isPreview && m.previewData], which is tried after [isUpdate] and
    [isCode], and is guarded by
    [m.totalCount !== undefined && m.totalCount > 0]. *)
Definition showAllButton (msgs : list ChatTurn.t) (idx : nat) (m : ChatTurn.t)
    : option bool :=
  match ChatTurn.kind m with
  | Some KPreview =>
      match ChatTurn.previewData m, ChatTurn.totalCount m with
      | Some _, Some n =>
          if 0 <? n
          then Some (negb (Z.of_nat idx =? Z.of_nat (length msgs) - 1))
          else None
      | _, _ => None
      end
  | _ => None
  end.

Definition showAllEnabled (msgs : list ChatTurn.t) (idx : nat) (m : ChatTurn.t) : bool :=
  match showAllButton msgs idx m with
  | Some false => true
  | _ => false
  end.

(** ** User events and the transition function *)

Inductive Event :=
| Mount (open : Fetch LoadResponse.t) (page : Fetch PageResponse.t)
| TypeQuestion (q : string)
| TypeS3Path (p : string)
| ToggleLoadModal (b : bool)
| ClickLoad (load : Fetch LoadResponse.t) (page : Fetch PageResponse.t)
| ClickSend (draw : nat) (nlq : Fetch NLExprResponse.t) (page : Fetch PageResponse.t)
| ClickPrev (page : Fetch PageResponse.t)
| ClickNext (page : Fetch PageResponse.t)
| ClickShowAll (idx : nat) (page : Fetch PageResponse.t)
| ClickShowAllData (page : Fetch PageResponse.t)
| ClickUndo (undo : Fetch UndoResponse.t) (page : Fetch PageResponse.t)
| ViewUpdatedRows (page : Fetch PageResponse.t)
| ClearHighlights.

(** A fresh page in a browser whose [localStorage] slot holds [st]. *)
Definition boot (st : option string) : World := mkWorld initial [] st.

(** One event, handled to completion.  A handler runs as the closure of the
    current render, so its [snap] is the state the event finds.  A click on a
    disabled or absent control does nothing.  [Mount] is a (re)start of the
    page: the state is the initial one and the effect hook reopens the stored
    dataset identity, if any. *)
Definition step (w : World) (e : Event) : World :=
  let s := ui w in
  match e with
  | Mount open page =>
      let w0 := mkWorld initial (net w) (stored w) in
      match str_or_null (stored w) with
      | Some storedId => openDataset initial storedId open page w0
      | None => w0
      end
  | TypeQuestion q => setQuestion q w
  | TypeS3Path p => setS3Path p w
  | ToggleLoadModal b => setShowLoadModal b w
  | ClickLoad load page =>
      if loading s then w
      else (loadDataset s load page ;; setShowLoadModal false) w
  | ClickSend draw nlq page =>
      if loading s then w else runNLQ s draw nlq page w
  | ClickPrev page =>
      if prevDisabled s then w
      else fetchPage s (Z.max 0 (offset s - limit s)) None None None page w
  | ClickNext page =>
      if nextDisabled s then w
      else fetchPage s (offset s + limit s) None None None page w
  | ClickShowAll idx page =>
      match messages s !! idx with
      | Some m =>
          if showAllEnabled (messages s) idx m
          then handleShowAllInTable s (str_or_null (ChatTurn.activeCode m)) page w
          else w
      | None => w
      end
  | ClickShowAllData page =>
      if loading s || paging s then w else handleShowAllData s page w
  | ClickUndo undo page =>
      if undoDisabled s then w else handleUndo s undo page w
  | ViewUpdatedRows page => handleViewUpdatedRows s page w
  | ClearHighlights => handleClearHighlights w
  end.

Definition run (w : World) (es : list Event) : World := foldl step w es.

Inductive reachable : World → Prop :=
| reach_boot st : reachable (boot st)
| reach_step w e : reachable w → reachable (step w e).

(** ** The highlight invariant *)

(** Union of the keys of every operation on the stack. *)
Definition stackKeys (stack : list (list string)) : gset string :=
  ⋃ (list_to_set <$> stack).

Definition highlightsOwned (s : State) : Prop :=
  dom (highlightedCells s) ⊆ stackKeys (highlightStack s).

Definition highlightsExact (s : State) : Prop :=
  dom (highlightedCells s) = stackKeys (highlightStack s).

(** The operation a successful undo would pop shares no key with the
    operations that stay on the stack. *)
Definition topDisjoint (stack : list (list string)) : Prop :=
  match last stack with
  | Some op => list_to_set op ## stackKeys (dropLast stack)
  | None => True
  end.


(** ** Views of the state and how commands move them *)

(** A command [tracks] a view [f] of the state along a preorder [R] when
    the view after the command is [R]-related to the view before.  With
    [R := eq] the command leaves the view alone. *)
Definition tracks {A} (f : State → A) (R : relation A) (c : Cmd) : Prop :=
  ∀ w, R (f (ui w)) (f (ui (c w))).

(** A property of a view that holds again after every command that tracks
    the view along [preserves]. *)
Definition preserves {A} (P : A → Prop) : relation A := λ x y, P x → P y.

(** Either emptied or left alone: what [loadDataset] does to the transcript. *)
Definition resetOrSame {A} : relation (list A) := λ x y, y = [] ∨ y = x.

Definition sameOrFrom {A} (L : list A) : relation A := λ x y, y = x ∨ y ∈ L.

(** The cells no call of [fetchPage] writes. *)
Definition outsidePage (s : State) :=
  (s3Path s, datasetId s, session s, columns s, question s, code s, loading s,
   messages s, showLoadModal s, highlightedCells s, highlightStack s,
   filteredTotalCount s, updatedRowIds s, lastUpdatedColumn s, undoCount s).


Definition hlView (s : State) := (highlightedCells s, highlightStack s).

Definition isSuccessfulUndo (e : Event) : bool :=
  match e with
  | ClickUndo (Ok d) _ => UndoResponse.success d
  | _ => false
  end.

(** The cells an error response leaves at their values: the session, the
    window apart from the overlay code, and the highlights. *)
Definition heldOnError (s : State) :=
  (datasetId s, session s, columns s, rowCount s, offset s, limit s, preview s,
   rawPreview s, highlightedCells s, highlightStack s, updatedRowIds s,
   undoCount s).

(** Every preview turn carries its rows. *)
Definition turnOk (m : ChatTurn.t) : Prop :=
  ChatTurn.kind m = Some KPreview → is_Some (ChatTurn.previewData m).

(** The displayed rows are the retained raw rows without [__row_id]. *)
Definition rowsView (s : State) := (rawPreview s, preview s).
Definition rowsStripped (p : list Row * list Row) : Prop := p.2 = stripRowId p.1.

Definition noRowId (cols : Cols) : Prop := get ROW_ID cols = None.

(** The row lists an event brings from the server for the window. *)
Definition pageRows (p : Fetch PageResponse.t) : list (list Row) :=
  match p with
  | Ok d => [list_or_empty (PageResponse.rows d)]
  | Failed _ => []
  end.

Definition loadRows (r : Fetch LoadResponse.t) : list (list Row) :=
  match r with
  | Ok d => [list_or_empty (LoadResponse.preview d)]
  | Failed _ => []
  end.

Definition undoRows (r : Fetch UndoResponse.t) : list (list Row) :=
  match r with
  | Ok d => [list_or_empty (UndoResponse.preview d)]
  | Failed _ => []
  end.

(** On [Mount] the window also starts from the empty initial one. *)
Definition received (e : Event) : list (list Row) :=
  match e with
  | Mount open page => [] :: loadRows open ++ pageRows page
  | ClickLoad load page => loadRows load ++ pageRows page
  | ClickSend _ _ page | ClickPrev page | ClickNext page | ClickShowAll _ page
  | ClickShowAllData page | ViewUpdatedRows page => pageRows page
  | ClickUndo undo page => undoRows undo ++ pageRows page
  | _ => []
  end.

(** The schemas an event brings from the server, as the client keeps them. *)
Definition loadCols (r : Fetch LoadResponse.t) : list Cols :=
  match r with
  | Ok d => [stripColumns (list_or_empty (LoadResponse.columns d))]
  | Failed _ => []
  end.

Definition undoCols (r : Fetch UndoResponse.t) : list Cols :=
  match r with
  | Ok d => [stripColumns (list_or_empty (UndoResponse.columns d))]
  | Failed _ => []
  end.

Definition receivedCols (e : Event) : list Cols :=
  match e with
  | Mount open _ => [] :: loadCols open
  | ClickLoad load _ => loadCols load
  | ClickUndo undo _ => undoCols undo
  | _ => []
  end.

(** ** Scenarios *)

Definition row (id : Z) (age : Z) : Row :=
  [("__row_id", JNum id); ("name", JStr "n"); ("age", JNum age)]%string.

Definition schema : Cols :=
  [("__row_id", "Int64"); ("name", "String"); ("age", "Int64")]%string.

Definition loaded : LoadResponse.t :=
  LoadResponse.mk (Some "ds1"%string) (Some "tok1"%string) (Some schema)
    (Some 1000) (Some [row 5 30; row 7 40]).

Definition page_of (rows : list Row) (total : option Z) : PageResponse.t :=
  PageResponse.mk (Some rows) total.

Definition cell (id : Z) (old new : string) : UpdatedCell.t :=
  UpdatedCell.mk id "age" (Some old) (Some new).

Definition mutation (cells : list UpdatedCell.t) (undo_count : Z) : NLExprResponse.t :=
  NLExprResponse.mk (Some "df.with_columns(pl.col('age') + 1)"%string) (Some [])
    None (Some cells) (Some undo_count) None.

Definition filter_code : string := "df.filter(pl.col('age') > 30)".

Definition previewed : NLExprResponse.t :=
  NLExprResponse.mk (Some filter_code) (Some [row 7 40]) (Some 37) None None None.

Definition failed_query : NLExprResponse.t :=
  NLExprResponse.mk None None None None None (Some "could not translate"%string).

Definition undone (undo_count : Z) : UndoResponse.t :=
  UndoResponse.mk true (Some "ds1"%string) (Some "tok2"%string) (Some schema)
    (Some 1000) (Some [row 5 30; row 7 40]) (Some "Reverted"%string)
    (Some undo_count).

(** A dataset is loaded and one mutation has touched two cells (scenario B). *)
Definition w_loaded : World :=
  run (boot None) [ClickLoad (Ok loaded) (Ok (page_of [row 5 30; row 7 40] (Some 1000)))].

Definition w_one_op : World :=
  run w_loaded
    [TypeQuestion "add one to age";
     ClickSend 2 (Ok (mutation [cell 5 "30" "31"; cell 7 "40" "41"] 1))
       (Ok (page_of [row 5 31; row 7 41] (Some 1000)))].

(** Two mutations in a row touch the same cell. *)
Definition w_two_ops : World :=
  run w_loaded
    [TypeQuestion "add one to age of row 5";
     ClickSend 2 (Ok (mutation [cell 5 "30" "31"] 1))
       (Ok (page_of [row 5 31; row 7 40] (Some 1000)));
     ClickSend 4 (Ok (mutation [cell 5 "31" "32"] 2))
       (Ok (page_of [row 5 32; row 7 40] (Some 1000)))].

Definition w_undone : World :=
  step w_two_ops
    (ClickUndo (Ok (undone 1)) (Ok (page_of [row 5 31; row 7 40] (Some 1000)))).

Definition w_previewed : World :=
  run w_loaded [TypeQuestion "who is older than 30"; ClickSend 0 (Ok previewed) (Failed "unused")].

(** Scenario D: a preview with [total_count = 37]. *)
Definition preview_turn : ChatTurn.t :=
  ChatTurn.mk assistant filter_code (Some KPreview)
    (Some [[("name", JStr "n"); ("age", JNum 40)]]%string) (Some 37)
    (Some filter_code) None.

(** The second page is shown and a click on "Prev" has just sent its request:
    the state [fetchPage] renders between [setPaging(true)] and the response. *)
Definition w_page2 : World :=
  step w_loaded (ClickNext (Ok (page_of [row 9 50] (Some 1000)))).


(** An answer that carries an error and changed cells at once. *)
Definition failed_mutation : NLExprResponse.t :=
  NLExprResponse.mk None None None (Some [cell 5 "30" "31"]) None
    (Some "partial failure"%string).


(** ** The table as rendered *)

(** What a template literal makes of a parsed JSON value: [String(v)].  An
    array is joined with commas, [null] elements giving the empty string; an
    object is "[object Object]". *)
Fixpoint toStr (v : Json) : string :=
  match v with
  | JNull => "null"
  | JBool b => if b then "true" else "false"
  | JNum n => numberToString n
  | JStr s => s
  | JArr items =>
      String.concat ","
        (List.map (λ x, match x with JNull => ""%string | _ => toStr x end) items)
  | JObj _ => "[object Object]"
  end.

(** [`${x}`] where [x] may be [undefined]. *)
Definition templateStr (x : option Json) : string :=
  match x with
  | Some v => toStr v
  | None => "undefined"
  end.

(** [rawRow?.__row_id] *)
Definition rowIdOf (rawRow : option Row) : option Json := rawRow ≫= get ROW_ID.

(** [`${rowId}-${col}`], the key a cell of the table is looked up with. *)
Definition renderKey (rawRow : option Row) (col : string) : string :=
  templateStr (rowIdOf rawRow) +:+ "-" +:+ col.

(** [highlightedCells.get(cellKey)]: the background of a cell, if any. *)
Definition cellColor (s : State) (rawRow : option Row) (col : string) : option string :=
  highlightedCells s !! renderKey rawRow col.

(** [style={highlightColor ? { backgroundColor: highlightColor } : undefined}] *)
Definition cellStyle (s : State) (rawRow : option Row) (col : string) : option string :=
  str_or_null (cellColor s rawRow col).

(** [Object.keys(preview[0] || {})], the columns of the table. *)
Definition tableColumns (s : State) : list string :=
  keys (default [] (head (preview s))).

(** [Object.keys(preview[0] || {}).some((col) => highlightedCells.has(...))] *)
Definition hasHighlight (s : State) (rawRow : option Row) : bool :=
  existsb (λ col, bool_decide (is_Some (cellColor s rawRow col))) (tableColumns s).

Module RowPair.
Record t := mk {
  row : Row;
  rawRow : option Row;
  idx : nat
}.
End RowPair.

(** [preview.map((row, idx) => ({ row, rawRow: rawPreview[idx], idx }))] *)
Definition rowPairs (s : State) : list RowPair.t :=
  imap (λ idx r, RowPair.mk r (rawPreview s !! idx) idx) (preview s).

(** The comparator handed to [sort]. *)
Definition compareRows (s : State) (a b : RowPair.t) : Z :=
  let aHasHighlight := hasHighlight s (RowPair.rawRow a) in
  let bHasHighlight := hasHighlight s (RowPair.rawRow b) in
  if aHasHighlight && negb bHasHighlight then -1
  else if negb aHasHighlight && bHasHighlight then 1
  else 0.

(** [Array.prototype.sort] with a comparator.  The sort is stable, and for a
    consistent comparator, as [compareRows] is, every stable sort returns the
    same array; it is written here as insertion from the right, an element
    going in front of the first one it does not compare greater than. *)
Fixpoint insertBy {A} (cmp : A → A → Z) (x : A) (l : list A) : list A :=
  match l with
  | [] => [x]
  | y :: l' => if cmp x y <=? 0 then x :: y :: l' else y :: insertBy cmp x l'
  end.

Fixpoint sortBy {A} (cmp : A → A → Z) (l : list A) : list A :=
  match l with
  | [] => []
  | x :: l' => insertBy cmp x (sortBy cmp l')
  end.

(** [[...rowPairs].sort(...)]: the rows of the table body, top to bottom. *)
Definition sortedPairs (s : State) : list RowPair.t :=
  sortBy (compareRows s) (rowPairs s).

(** ** The turns as rendered *)

(** The caption above a turn. *)
Definition turnLabel (m : ChatTurn.t) : string :=
  match ChatTurn.role m with
  | user => "You"
  | assistant =>
      match ChatTurn.kind m with
      | Some KError => "Error"
      | Some KUpdate => "Updated"
      | Some KPreview => "Results"
      | Some KCode => "Generated Polars"
      | _ => "Assistant"
      end
  end.

(** The branch of the markup that renders the body of a turn, with what it
    displays. *)
Inductive TurnBody :=
| BodyUpdate (updatedCount : option Z) (code : string)
| BodyCode (code : string)
| BodyPreview (code : string) (rows : list Row)
| BodyText (text : string).

Definition turnBody (m : ChatTurn.t) : TurnBody :=
  match ChatTurn.kind m with
  | Some KUpdate => BodyUpdate (ChatTurn.updatedCount m) (ChatTurn.text m)
  | Some KCode => BodyCode (ChatTurn.text m)
  | Some KPreview =>
      match ChatTurn.previewData m with
      | Some rows => BodyPreview (ChatTurn.text m) rows
      | None => BodyText (ChatTurn.text m)
      end
  | _ => BodyText (ChatTurn.text m)
  end.

(** The turns the handlers write: a user turn is plain text; an assistant
    turn is text, an error, an update with its count, or a preview with its
    rows and total. *)
Definition turnShape (m : ChatTurn.t) : Prop :=
  match ChatTurn.role m, ChatTurn.kind m with
  | _, Some KText => True
  | assistant, Some KError => True
  | assistant, Some KUpdate => ∃ n, ChatTurn.updatedCount m = Some n ∧ 1 ≤ n
  | assistant, Some KPreview =>
      ∃ rows n, ChatTurn.previewData m = Some rows ∧ (length rows ≤ 10)%nat ∧
                Forall (λ r, get ROW_ID r = None) rows ∧
                ChatTurn.totalCount m = Some n
  | _, _ => False
  end.

(** The events whose handlers ask for a session before they send anything. *)
Definition needsSession (e : Event) : bool :=
  match e with
  | Mount _ _ | ClickLoad _ _ => false
  | _ => true
  end.

(** The session and the window. *)
Definition sessionWindow (s : State) :=
  (datasetId s, session s, columns s, rowCount s, offset s, limit s,
   preview s, rawPreview s, activeCode s, messages s).

(** ** More views of the state *)

(** The paging position. *)
Definition pageView (s : State) := (offset s, limit s).

(** The limit is the default page size and the offset a whole number of
    pages. *)
Definition pageAligned (p : Z * Z) : Prop :=
  p.2 = DEFAULT_PAGE_SIZE ∧ 0 ≤ p.1 ∧ (DEFAULT_PAGE_SIZE | p.1).

(** The rows a load, a reopen or an undo leaves in the table: those of the
    page it fetches afterwards, when the response brought a session and the
    page arrives, else those of the response itself. *)
Definition rowsKept (session : option string) (own : option (list Row))
    (page : Fetch PageResponse.t) : list Row :=
  match page with
  | Ok d =>
      if truthy_ostr session then list_or_empty (PageResponse.rows d)
      else list_or_empty own
  | Failed _ => list_or_empty own
  end.

(** Every updated cell the event brings has a safe integer as its row id. *)
Definition safeIds (e : Event) : bool :=
  match e with
  | ClickSend _ (Ok data) _ =>
      forallb (λ cell, isSafeInteger (UpdatedCell.row_id cell))
        (list_or_empty (NLExprResponse.updated_cells data))
  | _ => true
  end.

(** The updated-row set beside the undo stack. *)
Definition idsView (s : State) := (updatedRowIds s, highlightStack s).

(** The undo stack accounts for the non-negative ids of the updated-row set. *)
Definition idsAgree (p : gset Z * list (list string)) : Prop :=
  ∀ n, n ∈ rowIdsOf p.2 ↔ n ∈ p.1 ∧ 0 ≤ n.

(** All string characters are decimal digits. *)
Fixpoint all_digits (s : string) : bool :=
  match s with
  | EmptyString => true
  | String c r => bool_decide (is_Some (digit_of c)) && all_digits r
  end.

(** The kind of the assistant turn [runNLQ] appends for a response. *)
Definition answerKind (data : NLExprResponse.t) : Kind :=
  if truthy_ostr (NLExprResponse.error data) then KError
  else if isUpdateOperation data then KUpdate
  else KPreview.

(** An undo the server refuses. *)
Definition refused : UndoResponse.t :=
  UndoResponse.mk false None None None None None (Some "Nothing to undo"%string) None.

(** The requests of one [fetchPage]: none without a session, else one. *)
Definition pageRequests (snap : State) (o : Z) (l : option Z) (es : option string)
    (co : option (option string)) : list Request :=
  match str_or_null (if truthy_ostr es then es else session snap) with
  | Some sess =>
      [ReqPage sess o (default (limit snap) l) (str_or_null (default (activeCode snap) co))]
  | None => []
  end.


(** Every colour of a highlight map is an entry of the palette. *)
Definition inPalette (m : gmap string string) : Prop :=
  map_Forall (λ _ c, c ∈ colors) m.

(** Neither busy flag is raised. *)
Definition idle (s : State) : Prop := loading s = false ∧ paging s = false.

(** * Properties *)

#[local] Set Warnings "-clear-no-such-hyp".

(** ** Reasoning about commands *)

Lemma str_or_null_None o : truthy_ostr o = false → str_or_null o = None.
Proof. unfold str_or_null. by intros ->. Qed.

Lemma str_or_null_Some o : truthy_ostr o = true → str_or_null o = o.
Proof. unfold str_or_null. by intros ->. Qed.

Lemma truthy_is_Some o : truthy_ostr o = true → ∃ s, str_or_null o = Some s.
Proof. intros H. rewrite (str_or_null_Some _ H). destruct o; [eauto|done]. Qed.

Section Tracks.
Context {A : Type} (f : State → A) (R : relation A) `{!PreOrder R}.

Lemma tracks_skip : tracks f R skip.
Proof. intros w. reflexivity. Qed.

Lemma tracks_seq c1 c2 : tracks f R c1 → tracks f R c2 → tracks f R (c1 ;; c2).
Proof. intros H1 H2 w. unfold andThen. etrans; [apply H1|apply H2]. Qed.

Lemma tracks_upd h : (∀ s, R (f s) (f (h s))) → tracks f R (upd h).
Proof. intros H w. apply H. Qed.

(** Two writes in a row, judged together. *)
Lemma tracks_upd2 h1 h2 c :
  (∀ s, R (f s) (f (h2 (h1 s)))) → tracks f R c → tracks f R (upd h1 ;; upd h2 ;; c).
Proof. intros H Hc w. unfold andThen. etrans; [|apply Hc]. apply H. Qed.

Lemma tracks_fetchJson r : tracks f R (fetchJson r).
Proof. intros w. reflexivity. Qed.

Lemma tracks_storage_set id : tracks f R (storage_set id).
Proof. intros w. reflexivity. Qed.

Lemma tracks_storage_remove : tracks f R storage_remove.
Proof. intros w. reflexivity. Qed.

Lemma tracks_elim c w : tracks f R c → R (f (ui w)) (f (ui (c w))).
Proof. intros H. apply H. Qed.
End Tracks.

Ltac unfold_setters :=
  cbv [setDatasetId setSession setColumns setRowCount setQuestion setS3Path
       setCode setPreview setOffset setLimit setActiveCode setLoading setPaging
       setError setMessages setShowLoadModal setHighlightedCells
       setHighlightStack setFilteredTotalCount setRawPreview setUpdatedRowIds
       setLastUpdatedColumn setUndoCount appendMessages updateUpdatedRowIds
       updateHighlightedCells updateHighlightStack when try_fetch].

(** Walks through a command, splitting on every branch; [tac] settles the
    single writes. *)
Ltac tracks_with tac :=
  unfold_setters; cbv beta zeta;
  repeat lazymatch goal with
  | |- PreOrder _ => apply _
  | |- tracks _ _ skip => apply tracks_skip
  | |- tracks _ _ (fetchJson _) => apply tracks_fetchJson
  | |- tracks _ _ (storage_set _) => apply tracks_storage_set
  | |- tracks _ _ storage_remove => apply tracks_storage_remove
  | |- tracks _ _ (upd _) => apply tracks_upd; intros ?; tac
  | |- tracks _ _ (match ?x with _ => _ end) => destruct x; cbv beta zeta
  | |- tracks _ _ (_ ;; _) => apply tracks_seq
  | |- tracks _ _ (fetchPage _ _ _ _ _ _) => unfold fetchPage; cbv beta zeta; unfold_setters
  end.

Ltac keeps := tracks_with ltac:(reflexivity).

(** ** What [fetchPage] leaves alone *)

Lemma fetchPage_frame snap o l es co resp : tracks outsidePage eq (fetchPage snap o l es co resp).
Proof. keeps. Qed.

Lemma frame_eq {A} (f : State → A) c w : tracks f eq c → f (ui (c w)) = f (ui w).
Proof. intros H. symmetry. apply H. Qed.

(** Reads the view [f] off the state a straight-line command ends in: the
    commands that leave [f] alone are skipped, a write to [f] is evaluated. *)
Ltac read_write t :=
  eval cbn [ui s3Path datasetId session columns rowCount question code
       preview offset limit activeCode loading paging error messages
       showLoadModal highlightedCells highlightStack filteredTotalCount
       rawPreview updatedRowIds lastUpdatedColumn undoCount
       with_s3Path with_datasetId with_session with_columns with_rowCount
       with_question with_code with_preview with_offset with_limit
       with_activeCode with_loading with_paging with_error with_messages
       with_showLoadModal with_highlightedCells with_highlightStack
       with_filteredTotalCount with_rawPreview with_updatedRowIds
       with_lastUpdatedColumn with_undoCount] in t.

Lemma seq_apply (c1 c2 : Cmd) w : (c1 ;; c2) w = c2 (c1 w).
Proof. reflexivity. Qed.

Ltac run_view f :=
  unfold_setters; cbv beta;
  repeat match goal with
  | |- context [(?c1 ;; ?c2) ?w'] => rewrite (seq_apply c1 c2 w')
  | |- context [f (ui (upd ?h ?w'))] =>
      first
        [ rewrite (frame_eq f (upd h) w') by keeps
        | let v := read_write (f (h (ui w'))) in
          let H := fresh in
          assert (f (ui (upd h w')) = v) as H by reflexivity;
          rewrite H; clear H ]
  | |- context [f (ui (?c ?w'))] =>
      rewrite (frame_eq f c w') by keeps
  end.

(** Closed conjunctions of facts about the scenarios, each by evaluation. *)
Ltac by_computing :=
  cbv zeta;
  repeat lazymatch goal with |- _ ∧ _ => split end;
  vm_compute; done.

(** ** Deleting the keys of an operation *)

Lemma lookup_deleteKeys ks (m : gmap string string) k :
  deleteKeys ks m !! k = if decide (k ∈ ks) then None else m !! k.
Proof.
  unfold deleteKeys. revert m. induction ks as [|k' ks IH]; intros m; simpl.
  - destruct (decide (k ∈ [])) as [H|H]; [by apply elem_of_nil in H|done].
  - rewrite IH. destruct (decide (k ∈ ks)) as [Hin|Hni].
    + rewrite decide_True by (apply elem_of_cons; auto). done.
    + destruct (decide (k = k')) as [->|Hne].
      * rewrite lookup_delete_eq, decide_True by (apply elem_of_cons; auto). done.
      * rewrite lookup_delete_ne by done.
        rewrite decide_False; [done|]. rewrite elem_of_cons. tauto.
Qed.

Lemma dom_deleteKeys ks (m : gmap string string) :
  dom (deleteKeys ks m) = dom m ∖ list_to_set ks.
Proof.
  apply set_eq. intros k. rewrite elem_of_difference, !elem_of_dom, lookup_deleteKeys.
  rewrite elem_of_list_to_set. destruct (decide (k ∈ ks)) as [?|?]; split; try tauto.
  intros [? [=]].
Qed.

Lemma last_dropLast {A} (l : list A) x : last l = Some x → l = dropLast l ++ [x].
Proof.
  intros H. apply last_Some in H as [l' ->]. unfold dropLast.
  rewrite length_app. simpl. replace (length l' + 1 - 1)%nat with (length l') by lia.
  by rewrite take_app_length.
Qed.

Lemma length_dropLast {A} (l : list A) : length (dropLast l) = (length l - 1)%nat.
Proof. unfold dropLast. rewrite length_take. lia. Qed.

(** ** Undo *)

(** C8. [handleUndo] without an established session (no dataset identity
    or no session token, null or empty) only raises the notice "No dataset
    loaded": the request log is the same, so no network call was made, and
    every other cell of the state, the session, the window, the highlight
    map, the undo stack and the transcript included, is unchanged. *)
Theorem handleUndo_without_session (w : World) (resp : Fetch UndoResponse.t)
    (page : Fetch PageResponse.t) :
  truthy_ostr (datasetId (ui w)) = false ∨ truthy_ostr (session (ui w)) = false →
  handleUndo (ui w) resp page w =
    mkWorld (with_error (Some "No dataset loaded"%string) (ui w)) (net w) (stored w).
Proof.
  intros H. unfold handleUndo.
  destruct H as [H|H]; rewrite (str_or_null_None _ H).
  - reflexivity.
  - destruct (str_or_null _); reflexivity.
Qed.

Lemma handleUndo_without_session_witness :
  handleUndo (ui (boot None)) (Ok (undone 0)) (Failed "unused") (boot None) =
    mkWorld (with_error (Some "No dataset loaded"%string) (ui (boot None)))
      (net (boot None)) (stored (boot None)).
Proof. apply (handleUndo_without_session (boot None)). left. reflexivity. Defined.

(** The highlight cells after a successful undo on a non-empty stack. *)
Lemma handleUndo_pop snap data page w did sess op :
  str_or_null (datasetId snap) = Some did →
  str_or_null (session snap) = Some sess →
  UndoResponse.success data = true →
  last (highlightStack snap) = Some op →
  highlightStack (ui (handleUndo snap (Ok data) page w)) = dropLast (highlightStack snap) ∧
  highlightedCells (ui (handleUndo snap (Ok data) page w)) =
    deleteKeys op (highlightedCells snap) ∧
  updatedRowIds (ui (handleUndo snap (Ok data) page w)) =
    rowIdsOf (dropLast (highlightStack snap)).
Proof.
  intros Hd Hs Hok Hlast. unfold handleUndo. rewrite Hd, Hs.
  unfold try_fetch. rewrite Hok, Hlast.
  split; [|split].
  - run_view highlightStack. reflexivity.
  - run_view highlightedCells. reflexivity.
  - run_view updatedRowIds. reflexivity.
Qed.

(** C3. With a session established and a non-empty undo stack, a
    response with [success = true] pops exactly the operation pushed last:
    the stack is the old one without its last entry, one shorter, and the
    highlight map is the old one without the keys of that entry, every
    other key keeping its colour. *)
Theorem handleUndo_success_pops_last (w : World) (data : UndoResponse.t)
    (page : Fetch PageResponse.t) :
  truthy_ostr (datasetId (ui w)) = true →
  truthy_ostr (session (ui w)) = true →
  highlightStack (ui w) ≠ [] →
  UndoResponse.success data = true →
  ∃ op,
    last (highlightStack (ui w)) = Some op ∧
    highlightStack (ui w) =
      highlightStack (ui (handleUndo (ui w) (Ok data) page w)) ++ [op] ∧
    length (highlightStack (ui (handleUndo (ui w) (Ok data) page w))) =
      (length (highlightStack (ui w)) - 1)%nat ∧
    dom (highlightedCells (ui (handleUndo (ui w) (Ok data) page w))) =
      dom (highlightedCells (ui w)) ∖ list_to_set op ∧
    ∀ k, highlightedCells (ui (handleUndo (ui w) (Ok data) page w)) !! k =
           if decide (k ∈ op) then None else highlightedCells (ui w) !! k.
Proof.
  intros Hd Hs Hne Hok.
  destruct (last (highlightStack (ui w))) as [op|] eqn:Hlast;
    [|by apply last_None in Hlast].
  destruct (truthy_is_Some _ Hd) as [did Hd'], (truthy_is_Some _ Hs) as [sess Hs'].
  destruct (handleUndo_pop (ui w) data page w did sess op Hd' Hs' Hok Hlast)
    as (-> & -> & _).
  exists op. split; [done|].
  split; [by apply last_dropLast|].
  split; [apply length_dropLast|].
  split; [apply dom_deleteKeys|]. apply lookup_deleteKeys.
Qed.

Lemma handleUndo_success_pops_last_witness :
  ∃ op,
    last (highlightStack (ui w_one_op)) = Some op ∧
    highlightStack (ui w_one_op) =
      highlightStack (ui (handleUndo (ui w_one_op) (Ok (undone 0))
                            (Failed "offline") w_one_op)) ++ [op] ∧
    length (highlightStack (ui (handleUndo (ui w_one_op) (Ok (undone 0))
                                  (Failed "offline") w_one_op))) =
      (length (highlightStack (ui w_one_op)) - 1)%nat ∧
    dom (highlightedCells (ui (handleUndo (ui w_one_op) (Ok (undone 0))
                                 (Failed "offline") w_one_op))) =
      dom (highlightedCells (ui w_one_op)) ∖ list_to_set op ∧
    ∀ k, highlightedCells (ui (handleUndo (ui w_one_op) (Ok (undone 0))
                                 (Failed "offline") w_one_op)) !! k =
           if decide (k ∈ op) then None else highlightedCells (ui w_one_op) !! k.
Proof.
  apply (handleUndo_success_pops_last w_one_op (undone 0) (Failed "offline")).
  - reflexivity.
  - reflexivity.
  - vm_compute. discriminate.
  - reflexivity.
Defined.

(** Scenario C: the only operation is undone; map and stack are empty and
    the window is fetched again at offset 0 without overlay code. *)
Example scenario_C :
  let w' := step w_one_op
              (ClickUndo (Ok (undone 0)) (Ok (page_of [row 5 30; row 7 40] (Some 1000)))) in
  highlightedCells (ui w') = ∅ ∧ highlightStack (ui w') = [] ∧
  undoCount (ui w') = 0 ∧ offset (ui w') = 0 ∧ activeCode (ui w') = None ∧
  last (net w') = Some (ReqPage "tok2" 0 500 None).
Proof. by_computing. Qed.

(** ** Page fetches *)

(** What a successful [fetchPage] writes. *)
Lemma fetchPage_ok snap newOffset newLimit es co data w sess :
  str_or_null (if truthy_ostr es then es else session snap) = Some sess →
  rawPreview (ui (fetchPage snap newOffset newLimit es co (Ok data) w)) =
    list_or_empty (PageResponse.rows data) ∧
  preview (ui (fetchPage snap newOffset newLimit es co (Ok data) w)) =
    stripRowId (list_or_empty (PageResponse.rows data)) ∧
  rowCount (ui (fetchPage snap newOffset newLimit es co (Ok data) w)) =
    num_or (PageResponse.total data) (rowCount snap) ∧
  offset (ui (fetchPage snap newOffset newLimit es co (Ok data) w)) = newOffset ∧
  net (fetchPage snap newOffset newLimit es co (Ok data) w) =
    net w ++ [ReqPage sess newOffset (default (limit snap) newLimit)
                (str_or_null (default (activeCode snap) co))].
Proof.
  intros Hs. unfold fetchPage. rewrite Hs. cbv zeta. unfold try_fetch.
  repeat split.
  - run_view rawPreview. reflexivity.
  - run_view preview. reflexivity.
  - run_view rowCount. reflexivity.
  - run_view offset. reflexivity.
  - destruct co, newLimit; reflexivity.
Qed.




(** ** Load and open *)







(** ** Reachable states *)

Lemma reachable_run w es : reachable w → reachable (run w es).
Proof.
  revert w. induction es as [|e es IH]; intros w Hw; [done|].
  apply IH. by constructor.
Qed.

#[local] Instance preserves_preorder {A} (P : A → Prop) : PreOrder (preserves P).
Proof. split; [intros x; exact id|intros x y z Hxy Hyz Hx; exact (Hyz (Hxy Hx))]. Qed.

#[local] Instance resetOrSame_preorder {A} : PreOrder (@resetOrSame A).
Proof.
  split; [by right|]. intros x y z [->| ->] [->| ->]; unfold resetOrSame; auto.
Qed.

(** ** The transcript *)

Ltac turns_ok :=
  unfold preserves; cbn; intros ?;
  first [ assumption
        | apply Forall_nil_2
        | apply Forall_app_2; [assumption|];
          repeat constructor; unfold turnOk; cbn; intros; eauto; discriminate ].

Ltac extends :=
  cbn; first [ reflexivity | apply prefix_app_r; reflexivity ].

Ltac reset_or_same :=
  unfold resetOrSame; cbn; first [ by left | by right ].

Lemma step_turnsOk w e :
  Forall turnOk (messages (ui w)) → Forall turnOk (messages (ui (step w e))).
Proof.
  intros H. destruct e; unfold step; cbv zeta;
    repeat lazymatch goal with
    | |- context [match ?x with _ => _ end] => destruct x
    end; try assumption.
  all: lazymatch goal with
       | |- Forall _ (messages (ui (mkWorld initial _ _))) => apply Forall_nil_2
       | |- Forall _ (messages (ui (?c (mkWorld initial ?n ?st)))) =>
           apply (tracks_elim messages (preserves (Forall turnOk)) c
                    (mkWorld initial n st)); [|apply Forall_nil_2]
       | |- Forall _ (messages (ui (?c ?w0))) =>
           apply (tracks_elim messages (preserves (Forall turnOk)) c w0);
             [|assumption]
       end.
  all: unfold loadDataset, openDataset, runNLQ, handleUndo, handleShowAllInTable,
         handleShowAllData, handleViewUpdatedRows, handleClearHighlights;
       tracks_with turns_ok.
Qed.

Lemma reachable_turnsOk w : reachable w → Forall turnOk (messages (ui w)).
Proof.
  induction 1 as [st|w e _ IH]; [apply Forall_nil_2|by apply step_turnsOk].
Qed.

Lemma prefix_elim c w :
  tracks messages prefix c →
  ∃ newer, messages (ui (c w)) = messages (ui w) ++ newer.
Proof. intros Hc. apply (Hc w). Qed.

Lemma resetOrSame_elim c w :
  tracks messages resetOrSame c →
  messages (ui (c w)) = [] ∨ ∃ newer, messages (ui (c w)) = messages (ui w) ++ newer.
Proof.
  intros Hc. destruct (Hc w) as [?|Heq]; [by left|right].
  exists []. by rewrite app_nil_r.
Qed.

Lemma resetOrSame_empty c w :
  tracks messages resetOrSame c → messages (ui w) = [] → messages (ui (c w)) = [].
Proof. intros Hc Hw. destruct (Hc w) as [?|?]; congruence. Qed.

(** One event either empties the transcript or appends to it. *)
Lemma step_appends w e :
  messages (ui (step w e)) = [] ∨
  ∃ newer, messages (ui (step w e)) = messages (ui w) ++ newer.
Proof.
  assert (∃ newer, messages (ui w) = messages (ui w) ++ newer) as Hsame.
  { exists []. by rewrite app_nil_r. }
  destruct e; unfold step; cbv zeta;
    repeat lazymatch goal with
    | |- context [match ?x with _ => _ end] => destruct x
    end; try (right; exact Hsame).
  all: lazymatch goal with
       | |- messages (ui (mkWorld initial _ _)) = [] ∨ _ => left; reflexivity
       | |- messages (ui (?c (mkWorld initial ?n ?st))) = [] ∨ _ =>
           left; apply (resetOrSame_empty c (mkWorld initial n st)); [|reflexivity];
           unfold openDataset; tracks_with reset_or_same
       | |- messages (ui ((loadDataset ?a ?b ?c;; ?d) ?w0)) = [] ∨ _ =>
           apply (resetOrSame_elim (loadDataset a b c;; d) w0);
           unfold loadDataset; tracks_with reset_or_same
       | |- messages (ui (?c ?w0)) = [] ∨ _ =>
           right; apply (prefix_elim c w0);
           unfold runNLQ, handleUndo, handleShowAllInTable, handleShowAllData,
             handleViewUpdatedRows, handleClearHighlights;
           tracks_with extends
       end.
Qed.

(** C9. For a preview turn of the transcript with a positive total count,
    the "Show All" button is rendered, and it is enabled exactly when the
    turn is the last message.  Once anything is appended after the turn the
    button is disabled, whatever is appended; and an event only appends to
    the transcript or, on a load, empties it. *)
Theorem showAll_enabled_only_on_last_turn (w : World) (idx : nat)
    (m : ChatTurn.t) (n : Z) :
  reachable w →
  messages (ui w) !! idx = Some m →
  ChatTurn.kind m = Some KPreview →
  ChatTurn.totalCount m = Some n →
  0 < n →
  (showAllEnabled (messages (ui w)) idx m = true ↔
     idx = (length (messages (ui w)) - 1)%nat) ∧
  (∀ newer, newer ≠ [] →
     showAllButton (messages (ui w) ++ newer) idx m = Some true) ∧
  (∀ e, messages (ui (step w e)) = [] ∨
        ∃ newer, messages (ui (step w e)) = messages (ui w) ++ newer).
Proof.
  intros Hw Hm Hk Hn Hpos.
  assert (is_Some (ChatTurn.previewData m)) as [rows Hrows].
  { pose proof (reachable_turnsOk w Hw) as Hall.
    rewrite Forall_lookup in Hall. by apply (Hall idx m Hm). }
  pose proof (lookup_lt_Some _ _ _ Hm) as Hlt.
  assert (∀ msgs, showAllButton msgs idx m =
            Some (negb (Z.of_nat idx =? Z.of_nat (length msgs) - 1))) as Hbtn.
  { intros msgs. unfold showAllButton. rewrite Hk, Hrows, Hn.
    by destruct (Z.ltb_spec 0 n); [|lia]. }
  split; [|split].
  - unfold showAllEnabled. rewrite Hbtn.
    destruct (Z.eqb_spec (Z.of_nat idx) (Z.of_nat (length (messages (ui w))) - 1));
      simpl; split; intros; try done; lia.
  - intros newer Hne. rewrite Hbtn, length_app.
    destruct newer as [|x newer]; [done|]. simpl.
    destruct (Z.eqb_spec (Z.of_nat idx)
                (Z.of_nat (length (messages (ui w)) + S (length newer)) - 1));
      [lia|done].
  - apply step_appends.
Qed.

Lemma showAll_enabled_only_on_last_turn_witness :
  (showAllEnabled (messages (ui w_previewed)) 1 preview_turn = true ↔
     1%nat = (length (messages (ui w_previewed)) - 1)%nat) ∧
  (∀ newer, newer ≠ [] →
     showAllButton (messages (ui w_previewed) ++ newer) 1 preview_turn = Some true) ∧
  (∀ e, messages (ui (step w_previewed e)) = [] ∨
        ∃ newer, messages (ui (step w_previewed e)) = messages (ui w_previewed) ++ newer).
Proof.
  apply (showAll_enabled_only_on_last_turn w_previewed 1 preview_turn 37).
  - apply reachable_run, reachable_run, reach_boot.
  - reflexivity.
  - reflexivity.
  - reflexivity.
  - lia.
Defined.

Example scenario_D :
  showAllEnabled (messages (ui w_previewed)) 1 preview_turn = true ∧
  showAllEnabled
    (messages (ui (run w_previewed
                     [TypeQuestion "and older than 50";
                      ClickSend 0 (Ok previewed) (Failed "unused")])))
    1 preview_turn = false.
Proof. by_computing. Qed.

(** ** Stripping the row identity *)

Lemma get_rest_without_eq {V} k (o : Obj V) : get k (rest_without k o) = None.
Proof.
  unfold rest_without. induction o as [|[k' v] o IH]; [done|].
  rewrite filter_cons. simpl. destruct (String.eqb_spec k' k) as [->|Hne]; simpl.
  - done.
  - destruct (String.eqb_spec k' k); [done|]. exact IH.
Qed.

Lemma get_rest_without_ne {V} k k' (o : Obj V) :
  k' ≠ k → get k' (rest_without k o) = get k' o.
Proof.
  intros Hne. unfold rest_without. induction o as [|[k0 v] o IH]; [done|].
  rewrite filter_cons. simpl. destruct (String.eqb_spec k0 k) as [->|Hk]; simpl.
  - destruct (String.eqb_spec k k'); [congruence|]. exact IH.
  - destruct (String.eqb_spec k0 k'); [done|]. exact IH.
Qed.

Lemma keys_rest_without {V} k (o : Obj V) :
  keys (rest_without k o) = filter (λ k', k' ≠ k) (keys o).
Proof.
  unfold rest_without, keys. induction o as [|[k0 v] o IH]; [done|].
  cbn [fmap list_fmap]. rewrite !filter_cons. cbn [fst].
  destruct (String.eqb_spec k0 k) as [->|Hk]; simpl.
  - rewrite decide_False by (intros H; by apply H). exact IH.
  - rewrite decide_True by done. by rewrite <- IH.
Qed.

Lemma stripRowId_lookup rows i :
  stripRowId rows !! i = rest_without ROW_ID <$> rows !! i.
Proof. unfold stripRowId. apply list_lookup_fmap. Qed.

Lemma stripRowId_length rows : length (stripRowId rows) = length rows.
Proof. unfold stripRowId. apply length_map. Qed.

Lemma tracks_upd_seq {A} (f : State → A) (R : relation A) `{!PreOrder R} h c :
  (∀ s, R (f s) (f (h s))) → tracks f R c → tracks f R (upd h ;; c).
Proof. intros H Hc. apply tracks_seq; [done|by apply tracks_upd|done]. Qed.

(** As [tracks_with], but two writes in a row may be judged together. *)
Ltac tracks2_with tac :=
  unfold_setters; cbv beta zeta;
  repeat lazymatch goal with
  | |- PreOrder _ => apply _
  | |- tracks _ _ skip => apply tracks_skip
  | |- tracks _ _ (fetchJson _) => apply tracks_fetchJson
  | |- tracks _ _ (storage_set _) => apply tracks_storage_set
  | |- tracks _ _ storage_remove => apply tracks_storage_remove
  | |- tracks _ _ (upd _) => apply tracks_upd; intros ?; tac
  | |- tracks _ _ (match ?x with _ => _ end) => destruct x; cbv beta zeta
  | |- tracks _ _ (upd _ ;; upd _ ;; _) =>
      first [ refine (tracks_upd_seq _ _ _ _ _ _); [intros ?; tac|]
            | refine (tracks_upd2 _ _ _ _ _ _ _); [intros ?; tac|] ]
  | |- tracks _ _ (_ ;; _) => apply tracks_seq
  | |- tracks _ _ (fetchPage _ _ _ _ _ _) => unfold fetchPage; cbv beta zeta; unfold_setters
  end.

Ltac rows_stripped :=
  unfold preserves, rowsStripped, rowsView; cbn; intros ?;
  first [ assumption | reflexivity ].

Ltac no_row_id :=
  unfold preserves; cbn; intros ?;
  first [ assumption | apply get_rest_without_eq ].

Ltac unfold_handlers :=
  unfold loadDataset, openDataset, runNLQ, handleUndo, handleShowAllInTable,
    handleShowAllData, handleViewUpdatedRows, handleClearHighlights.

(** Proves that [step] keeps a property [P] of a view [f], given a tactic for
    the single writes. *)
Ltac step_preserves f P tac :=
  lazymatch goal with
  | |- P (f (ui (mkWorld initial _ _))) => first [reflexivity|done]
  | |- P (f (ui (?c (mkWorld initial ?n ?st)))) =>
      apply (tracks_elim f (preserves P) c (mkWorld initial n st));
        [unfold_handlers; tracks2_with tac|first [reflexivity|done]]
  | |- P (f (ui (?c ?w0))) =>
      apply (tracks_elim f (preserves P) c w0);
        [unfold_handlers; tracks2_with tac|assumption]
  end.

Ltac split_step e :=
  destruct e; unfold step; cbv zeta;
  repeat lazymatch goal with
  | |- context [match ?x with _ => _ end] => destruct x
  end; try assumption.

Lemma step_rowsStripped w e :
  rowsStripped (rowsView (ui w)) → rowsStripped (rowsView (ui (step w e))).
Proof. intros H. split_step e. all: step_preserves rowsView rowsStripped rows_stripped. Qed.

Lemma step_noRowId w e :
  noRowId (columns (ui w)) → noRowId (columns (ui (step w e))).
Proof. intros H. split_step e. all: step_preserves columns noRowId no_row_id. Qed.

Lemma reachable_stripped w :
  reachable w →
  preview (ui w) = stripRowId (rawPreview (ui w)) ∧ get ROW_ID (columns (ui w)) = None.
Proof.
  induction 1 as [st|w e _ [IH1 IH2]]; [done|]. split.
  - by apply (step_rowsStripped w e).
  - by apply (step_noRowId w e).
Qed.

#[local] Instance sameOrFrom_preorder {A} (L : list A) : PreOrder (sameOrFrom L).
Proof.
  split; [by left|]. intros x y z [->|Hy] [->|Hz]; unfold sameOrFrom; auto.
Qed.

Ltac same_or_from :=
  unfold sameOrFrom; cbn;
  first [ by left | right; rewrite ?elem_of_cons; auto 10 ].

Ltac step_same_or_from f e :=
  destruct e; unfold step; cbv zeta;
    repeat lazymatch goal with
    | |- context [match ?x with _ => _ end] => destruct x
    end; try (by left);
  lazymatch goal with
  | |- f (ui (mkWorld initial _ _)) = _ ∨ _ => right; by left
  | |- f (ui (?c (mkWorld initial ?n ?st))) = _ ∨ _ ∈ ?L =>
      right;
      destruct (tracks_elim f (sameOrFrom L) c (mkWorld initial n st))
        as [->|?]; [unfold_handlers; tracks_with same_or_from|by left|done]
  | |- f (ui (?c ?w0)) = _ ∨ _ ∈ ?L =>
      apply (tracks_elim f (sameOrFrom L) c w0);
      unfold_handlers; tracks_with same_or_from
  end.

Lemma step_rawPreview w e :
  rawPreview (ui (step w e)) = rawPreview (ui w) ∨
  rawPreview (ui (step w e)) ∈ received e.
Proof. step_same_or_from rawPreview e. Qed.

Lemma step_columns w e :
  columns (ui (step w e)) = columns (ui w) ∨
  columns (ui (step w e)) ∈ receivedCols e.
Proof. step_same_or_from columns e. Qed.

(** What a load response leaves in the table and in the schema. *)
Lemma loadDataset_stores snap data page w :
  rawPreview (ui (loadDataset snap (Ok data) page w)) =
    rowsKept (LoadResponse.session data) (LoadResponse.preview data) page ∧
  preview (ui (loadDataset snap (Ok data) page w)) =
    stripRowId (rowsKept (LoadResponse.session data) (LoadResponse.preview data) page) ∧
  columns (ui (loadDataset snap (Ok data) page w)) =
    stripColumns (list_or_empty (LoadResponse.columns data)).
Proof.
  unfold loadDataset, try_fetch, rowsKept.
  destruct (truthy_ostr (LoadResponse.session data)) eqn:Ht.
  - destruct (truthy_is_Some _ Ht) as [s Hs]. unfold fetchPage. rewrite Ht, Hs.
    unfold try_fetch. destruct page as [d|msg]; cbv beta iota zeta.
    + split; [|split]; [run_view rawPreview|run_view preview|run_view columns];
        reflexivity.
    + split; [|split]; [run_view rawPreview|run_view preview|run_view columns];
        reflexivity.
  - destruct page as [d|msg]; cbv beta iota zeta;
      (split; [|split]; [run_view rawPreview|run_view preview|run_view columns];
       reflexivity).
Qed.

Lemma openDataset_stores snap id data page w :
  rawPreview (ui (openDataset snap id (Ok data) page w)) =
    rowsKept (LoadResponse.session data) (LoadResponse.preview data) page ∧
  preview (ui (openDataset snap id (Ok data) page w)) =
    stripRowId (rowsKept (LoadResponse.session data) (LoadResponse.preview data) page) ∧
  columns (ui (openDataset snap id (Ok data) page w)) =
    stripColumns (list_or_empty (LoadResponse.columns data)).
Proof.
  unfold openDataset, try_fetch, rowsKept.
  destruct (truthy_ostr (LoadResponse.session data)) eqn:Ht.
  - destruct (truthy_is_Some _ Ht) as [s Hs]. unfold fetchPage. rewrite Ht, Hs.
    unfold try_fetch. destruct page as [d|msg]; cbv beta iota zeta.
    + split; [|split]; [run_view rawPreview|run_view preview|run_view columns];
        reflexivity.
    + split; [|split]; [run_view rawPreview|run_view preview|run_view columns];
        reflexivity.
  - destruct page as [d|msg]; cbv beta iota zeta;
      (split; [|split]; [run_view rawPreview|run_view preview|run_view columns];
       reflexivity).
Qed.

Lemma handleUndo_stores snap data page w did sess :
  str_or_null (datasetId snap) = Some did →
  str_or_null (session snap) = Some sess →
  UndoResponse.success data = true →
  rawPreview (ui (handleUndo snap (Ok data) page w)) =
    rowsKept (UndoResponse.session data) (UndoResponse.preview data) page ∧
  preview (ui (handleUndo snap (Ok data) page w)) =
    stripRowId (rowsKept (UndoResponse.session data) (UndoResponse.preview data) page) ∧
  columns (ui (handleUndo snap (Ok data) page w)) =
    stripColumns (list_or_empty (UndoResponse.columns data)).
Proof.
  intros Hd Hs Hok. unfold handleUndo. rewrite Hd, Hs. unfold try_fetch, rowsKept.
  rewrite Hok.
  destruct (truthy_ostr (UndoResponse.session data)) eqn:Ht.
  - destruct (truthy_is_Some _ Ht) as [s' Hs']. unfold fetchPage. rewrite Ht, Hs'.
    unfold try_fetch. destruct page as [d|msg]; cbv beta iota zeta.
    + split; [|split]; [run_view rawPreview|run_view preview|run_view columns];
        reflexivity.
    + split; [|split]; [run_view rawPreview|run_view preview|run_view columns];
        reflexivity.
  - destruct page as [d|msg]; cbv beta iota zeta;
      (split; [|split]; [run_view rawPreview|run_view preview|run_view columns];
       reflexivity).
Qed.

(** C10. In every reachable state the displayed rows are the rows kept
    in [rawPreview], one for one, each without its [__row_id] key and with
    every other key and value as received and in the same order; the schema
    has no [__row_id] either, and [stripColumns] removes nothing else.  The
    rows kept in [rawPreview] after an event are those it held before or a
    row list the event received, unstripped; the schema after an event is
    the one before or a received schema put through [stripColumns].  And
    what is received is stored: a page that arrives is kept as it came in
    [rawPreview] and shown stripped in [preview]; a load, a reopen and a
    successful undo keep and show, in the same way, the rows of the page
    they fetch afterwards or, when none is fetched or it fails, the rows of
    their own response, and store the schema of the response stripped. *)
Theorem rows_lose_only_row_id (w : World) (e : Event) (i : nat) (r : Row)
    (cols : Cols) :
  reachable w →
  rawPreview (ui w) !! i = Some r →
  length (preview (ui w)) = length (rawPreview (ui w)) ∧
  (∃ r', preview (ui w) !! i = Some r' ∧
         get ROW_ID r' = None ∧
         (∀ k, k ≠ ROW_ID → get k r' = get k r) ∧
         keys r' = filter (λ k, k ≠ ROW_ID) (keys r)) ∧
  get ROW_ID (columns (ui w)) = None ∧
  (get ROW_ID (stripColumns cols) = None ∧
   (∀ k, k ≠ ROW_ID → get k (stripColumns cols) = get k cols) ∧
   keys (stripColumns cols) = filter (λ k, k ≠ ROW_ID) (keys cols)) ∧
  (rawPreview (ui (step w e)) = rawPreview (ui w) ∨
   rawPreview (ui (step w e)) ∈ received e) ∧
  (columns (ui (step w e)) = columns (ui w) ∨
   columns (ui (step w e)) ∈ receivedCols e) ∧
  (∀ snap newOffset newLimit es co data w0 sess,
     str_or_null (if truthy_ostr es then es else session snap) = Some sess →
     rawPreview (ui (fetchPage snap newOffset newLimit es co (Ok data) w0)) =
       list_or_empty (PageResponse.rows data) ∧
     preview (ui (fetchPage snap newOffset newLimit es co (Ok data) w0)) =
       stripRowId (list_or_empty (PageResponse.rows data))) ∧
  (∀ snap data page w0,
     rawPreview (ui (loadDataset snap (Ok data) page w0)) =
       rowsKept (LoadResponse.session data) (LoadResponse.preview data) page ∧
     preview (ui (loadDataset snap (Ok data) page w0)) =
       stripRowId (rowsKept (LoadResponse.session data) (LoadResponse.preview data) page) ∧
     columns (ui (loadDataset snap (Ok data) page w0)) =
       stripColumns (list_or_empty (LoadResponse.columns data))) ∧
  (∀ snap id data page w0,
     rawPreview (ui (openDataset snap id (Ok data) page w0)) =
       rowsKept (LoadResponse.session data) (LoadResponse.preview data) page ∧
     preview (ui (openDataset snap id (Ok data) page w0)) =
       stripRowId (rowsKept (LoadResponse.session data) (LoadResponse.preview data) page) ∧
     columns (ui (openDataset snap id (Ok data) page w0)) =
       stripColumns (list_or_empty (LoadResponse.columns data))) ∧
  (∀ snap data page w0 did sess,
     str_or_null (datasetId snap) = Some did →
     str_or_null (session snap) = Some sess →
     UndoResponse.success data = true →
     rawPreview (ui (handleUndo snap (Ok data) page w0)) =
       rowsKept (UndoResponse.session data) (UndoResponse.preview data) page ∧
     preview (ui (handleUndo snap (Ok data) page w0)) =
       stripRowId (rowsKept (UndoResponse.session data) (UndoResponse.preview data) page) ∧
     columns (ui (handleUndo snap (Ok data) page w0)) =
       stripColumns (list_or_empty (UndoResponse.columns data))).
Proof.
  intros Hw Hr. destruct (reachable_stripped w Hw) as [Hp Hc].
  split; [by rewrite Hp, stripRowId_length|].
  split.
  { exists (rest_without ROW_ID r). rewrite Hp, stripRowId_lookup, Hr.
    split; [done|]. split; [apply get_rest_without_eq|].
    split; [intros k Hk; by apply get_rest_without_ne|apply keys_rest_without]. }
  split; [done|].
  split.
  { unfold stripColumns. split; [apply get_rest_without_eq|].
    split; [intros k Hk; by apply get_rest_without_ne|apply keys_rest_without]. }
  split; [apply step_rawPreview|]. split; [apply step_columns|].
  split.
  { intros snap newOffset newLimit es co data w0 sess Hsess.
    destruct (fetchPage_ok snap newOffset newLimit es co data w0 sess Hsess)
      as (H1 & H2 & _).
    by split. }
  split; [intros; apply loadDataset_stores|].
  split; [intros; apply openDataset_stores|].
  intros snap data page w0 did sess Hd Hs Hok.
  by apply (handleUndo_stores snap data page w0 did sess).
Qed.

Lemma rows_lose_only_row_id_witness :
  length (preview (ui w_loaded)) = length (rawPreview (ui w_loaded)) ∧
  (∃ r', preview (ui w_loaded) !! 0%nat = Some r' ∧
         get ROW_ID r' = None ∧
         (∀ k, k ≠ ROW_ID → get k r' = get k (row 5 30)) ∧
         keys r' = filter (λ k, k ≠ ROW_ID) (keys (row 5 30))) ∧
  get ROW_ID (columns (ui w_loaded)) = None ∧
  (get ROW_ID (stripColumns schema) = None ∧
   (∀ k, k ≠ ROW_ID → get k (stripColumns schema) = get k schema) ∧
   keys (stripColumns schema) = filter (λ k, k ≠ ROW_ID) (keys schema)) ∧
  (rawPreview (ui (step w_loaded (ClickNext (Ok (page_of [row 9 50] (Some 1000)))))) =
     rawPreview (ui w_loaded) ∨
   rawPreview (ui (step w_loaded (ClickNext (Ok (page_of [row 9 50] (Some 1000)))))) ∈
     received (ClickNext (Ok (page_of [row 9 50] (Some 1000))))) ∧
  (columns (ui (step w_loaded (ClickNext (Ok (page_of [row 9 50] (Some 1000)))))) =
     columns (ui w_loaded) ∨
   columns (ui (step w_loaded (ClickNext (Ok (page_of [row 9 50] (Some 1000)))))) ∈
     receivedCols (ClickNext (Ok (page_of [row 9 50] (Some 1000))))) ∧
  (∀ snap newOffset newLimit es co data w0 sess,
     str_or_null (if truthy_ostr es then es else session snap) = Some sess →
     rawPreview (ui (fetchPage snap newOffset newLimit es co (Ok data) w0)) =
       list_or_empty (PageResponse.rows data) ∧
     preview (ui (fetchPage snap newOffset newLimit es co (Ok data) w0)) =
       stripRowId (list_or_empty (PageResponse.rows data))) ∧
  (∀ snap data page w0,
     rawPreview (ui (loadDataset snap (Ok data) page w0)) =
       rowsKept (LoadResponse.session data) (LoadResponse.preview data) page ∧
     preview (ui (loadDataset snap (Ok data) page w0)) =
       stripRowId (rowsKept (LoadResponse.session data) (LoadResponse.preview data) page) ∧
     columns (ui (loadDataset snap (Ok data) page w0)) =
       stripColumns (list_or_empty (LoadResponse.columns data))) ∧
  (∀ snap id data page w0,
     rawPreview (ui (openDataset snap id (Ok data) page w0)) =
       rowsKept (LoadResponse.session data) (LoadResponse.preview data) page ∧
     preview (ui (openDataset snap id (Ok data) page w0)) =
       stripRowId (rowsKept (LoadResponse.session data) (LoadResponse.preview data) page) ∧
     columns (ui (openDataset snap id (Ok data) page w0)) =
       stripColumns (list_or_empty (LoadResponse.columns data))) ∧
  (∀ snap data page w0 did sess,
     str_or_null (datasetId snap) = Some did →
     str_or_null (session snap) = Some sess →
     UndoResponse.success data = true →
     rawPreview (ui (handleUndo snap (Ok data) page w0)) =
       rowsKept (UndoResponse.session data) (UndoResponse.preview data) page ∧
     preview (ui (handleUndo snap (Ok data) page w0)) =
       stripRowId (rowsKept (UndoResponse.session data) (UndoResponse.preview data) page) ∧
     columns (ui (handleUndo snap (Ok data) page w0)) =
       stripColumns (list_or_empty (UndoResponse.columns data))).
Proof.
  apply (rows_lose_only_row_id w_loaded
           (ClickNext (Ok (page_of [row 9 50] (Some 1000)))) 0 (row 5 30) schema).
  - apply reachable_run, reach_boot.
  - reflexivity.
Defined.

Example strip_example :
  stripRowId [row 5 30] = [[("name", JStr "n"); ("age", JNum 30)]]%string ∧
  stripColumns schema = [("name", "String"); ("age", "Int64")]%string.
Proof. by_computing. Qed.

(** ** Highlights and the undo stack *)

Lemma dom_mergeHighlights c ks (m : gmap string string) :
  dom (mergeHighlights c ks m) = dom m ∪ list_to_set ks.
Proof.
  unfold mergeHighlights. revert m. induction ks as [|k ks IH]; intros m; simpl.
  - set_solver.
  - rewrite IH, dom_insert_L. set_solver.
Qed.

Lemma stackKeys_snoc st ks : stackKeys (st ++ [ks]) = stackKeys st ∪ list_to_set ks.
Proof.
  unfold stackKeys. rewrite fmap_app, union_list_app_L. simpl. set_solver.
Qed.

Lemma stackKeys_last st op :
  last st = Some op → stackKeys st = stackKeys (dropLast st) ∪ list_to_set op.
Proof.
  intros H. rewrite (last_dropLast st op H) at 1. apply stackKeys_snoc.
Qed.

Lemma runNLQ_highlights snap draw resp page w :
  hlView (ui (runNLQ snap draw resp page w)) = hlView (ui w) ∨
  ∃ c ks, hlView (ui (runNLQ snap draw resp page w)) =
            (mergeHighlights c ks (highlightedCells (ui w)),
             highlightStack (ui w) ++ [ks]).
Proof.
  unfold runNLQ. destruct (str_or_null (session snap)); [|by left].
  destruct resp as [data|msg]; unfold try_fetch;
    [|left; apply (frame_eq hlView); keeps].
  destruct (isUpdateOperation data) eqn:E; cbv beta iota zeta.
  - right. eexists _, _. unfold hlView. f_equal.
    + run_view highlightedCells. reflexivity.
    + run_view highlightStack. reflexivity.
  - left. apply (frame_eq hlView). keeps.
Qed.

Lemma handleUndo_highlights resp page w :
  hlView (ui (handleUndo (ui w) resp page w)) = hlView (ui w) ∨
  (∃ d, resp = Ok d ∧ UndoResponse.success d = true) ∧
  ∃ op, last (highlightStack (ui w)) = Some op ∧
        hlView (ui (handleUndo (ui w) resp page w)) =
          (deleteKeys op (highlightedCells (ui w)), dropLast (highlightStack (ui w))).
Proof.
  destruct (str_or_null (datasetId (ui w))) as [did|] eqn:Hd;
    [|left; unfold handleUndo; by rewrite Hd].
  destruct (str_or_null (session (ui w))) as [sess|] eqn:Hs;
    [|left; unfold handleUndo; by rewrite Hd, Hs].
  destruct resp as [d|msg];
    [|left; unfold handleUndo; rewrite Hd, Hs; apply (frame_eq hlView); keeps].
  destruct (UndoResponse.success d) eqn:Hok;
    [|left; unfold handleUndo, try_fetch; rewrite Hd, Hs, Hok;
      apply (frame_eq hlView); keeps].
  destruct (last (highlightStack (ui w))) as [op|] eqn:Hlast.
  - right. split; [by exists d|]. exists op. split; [done|].
    destruct (handleUndo_pop (ui w) d page w did sess op Hd Hs Hok Hlast)
      as (H1 & H2 & _).
    unfold hlView. by rewrite H1, H2.
  - left. unfold handleUndo, try_fetch. rewrite Hd, Hs, Hok, Hlast.
    apply (frame_eq hlView). keeps.
Qed.

(** What one event does to the highlight map and the undo stack: nothing,
    clear both, merge and push one operation, or, on a successful undo only,
    delete and pop the last one. *)
Lemma step_highlights w e :
  hlView (ui (step w e)) = hlView (ui w) ∨
  hlView (ui (step w e)) = (∅, []) ∨
  (∃ c ks, hlView (ui (step w e)) =
             (mergeHighlights c ks (highlightedCells (ui w)),
              highlightStack (ui w) ++ [ks])) ∨
  (isSuccessfulUndo e = true ∧
   ∃ op, last (highlightStack (ui w)) = Some op ∧
         hlView (ui (step w e)) =
           (deleteKeys op (highlightedCells (ui w)), dropLast (highlightStack (ui w)))).
Proof.
  destruct e; unfold step; cbv zeta;
    repeat lazymatch goal with
    | |- context [match ?x with _ => _ end] => destruct x
    end; try (by left).
  all: lazymatch goal with
       | |- hlView (ui (mkWorld initial _ _)) = _ ∨ _ => right; by left
       | |- hlView (ui (openDataset ?a ?b ?c ?d (mkWorld initial ?n ?st))) = _ ∨ _ =>
           right; left;
           rewrite (frame_eq hlView (openDataset a b c d) (mkWorld initial n st));
             [reflexivity|unfold openDataset; keeps]
       | |- hlView (ui (runNLQ ?a ?b ?c ?d ?w0)) = _ ∨ _ =>
           destruct (runNLQ_highlights a b c d w0) as [H|H]; [by left|by right; right; left]
       | |- hlView (ui (handleUndo (ui ?w0) ?b ?c ?w0)) = _ ∨ _ =>
           destruct (handleUndo_highlights b c w0) as [H|[[d0 [-> Hd0]] H]];
             [by left|by right; right; right]
       | |- hlView (ui (handleClearHighlights _)) = _ ∨ _ => right; by left
       | |- hlView (ui (?c ?w0)) = _ ∨ _ =>
           left; apply (frame_eq hlView c w0); unfold_handlers; keeps
       end.
Qed.

Lemma reachable_highlightsOwned w : reachable w → highlightsOwned (ui w).
Proof.
  unfold highlightsOwned.
  induction 1 as [st|w e _ IH]; [set_solver|].
  destruct (step_highlights w e) as [H|[H|[(c & ks & H)|(_ & op & Hop & H)]]];
    unfold hlView in H; simplify_eq; rewrite ?H, ?H0.
  - done.
  - set_solver.
  - rewrite dom_mergeHighlights, stackKeys_snoc. set_solver.
  - rewrite dom_deleteKeys. rewrite (stackKeys_last _ _ Hop) in IH. set_solver.
Qed.

Lemma step_highlightsExact w e :
  highlightsExact (ui w) →
  (isSuccessfulUndo e = true → topDisjoint (highlightStack (ui w))) →
  highlightsExact (ui (step w e)).
Proof.
  unfold highlightsExact, topDisjoint. intros IH Hdisj.
  destruct (step_highlights w e) as [H|[H|[(c & ks & H)|(Hu & op & Hop & H)]]];
    unfold hlView in H; simplify_eq; rewrite ?H, ?H0.
  - done.
  - set_solver.
  - rewrite dom_mergeHighlights, stackKeys_snoc. set_solver.
  - specialize (Hdisj Hu). rewrite Hop in Hdisj.
    rewrite dom_deleteKeys, IH, (stackKeys_last _ _ Hop). set_solver.
Qed.

(** C1, as the code has it.  In every reachable state each key of the
    highlight map belongs to an operation on the undo stack.  The key set
    equals the union of the stacked key lists at the start, and every event
    keeps that equality, provided that a successful undo pops an operation
    that shares no key with the operations left on the stack. *)
Theorem highlight_keys_owned_by_stack (w : World) (e : Event) :
  reachable w →
  highlightsOwned (ui w) ∧
  highlightsExact initial ∧
  (highlightsExact (ui w) →
   (isSuccessfulUndo e = true → topDisjoint (highlightStack (ui w))) →
   highlightsExact (ui (step w e))).
Proof.
  intros Hw. split; [by apply reachable_highlightsOwned|].
  split; [unfold highlightsExact; set_solver|]. apply step_highlightsExact.
Qed.

Lemma highlight_keys_owned_by_stack_witness :
  highlightsOwned (ui w_one_op) ∧
  highlightsExact initial ∧
  (highlightsExact (ui w_one_op) →
   (isSuccessfulUndo (ClickUndo (Ok (undone 0)) (Failed "offline")) = true →
    topDisjoint (highlightStack (ui w_one_op))) →
   highlightsExact (ui (step w_one_op (ClickUndo (Ok (undone 0)) (Failed "offline"))))).
Proof.
  apply (highlight_keys_owned_by_stack w_one_op
           (ClickUndo (Ok (undone 0)) (Failed "offline"))).
  apply reachable_run, reachable_run, reach_boot.
Defined.

(** Scenario B: one mutation, two cells, one colour, one stacked operation. *)
Example scenario_B :
  highlightedCells (ui w_one_op) !! "5-age"%string = Some "rgba(144, 238, 144, 0.6)"%string ∧
  highlightedCells (ui w_one_op) !! "7-age"%string = Some "rgba(144, 238, 144, 0.6)"%string ∧
  size (highlightedCells (ui w_one_op)) = 2%nat ∧
  highlightStack (ui w_one_op) = [["5-age"; "7-age"]]%string ∧
  undoCount (ui w_one_op) = 1.
Proof. by_computing. Qed.

(** C1, as stated, fails: two mutations change the same cell and the
    second is undone.  The undo deletes the key of the popped operation from
    the map, while the first operation, still on the stack, lists it. *)
Lemma undo_of_overlapping_operation_breaks_equality :
  reachable w_undone ∧
  highlightStack (ui w_undone) = [["5-age"]]%string ∧
  highlightedCells (ui w_undone) !! "5-age"%string = None ∧
  ¬ highlightsExact (ui w_undone).
Proof.
  split; [apply reach_step, reachable_run, reachable_run, reach_boot|].
  split; [by vm_compute|]. split; [by vm_compute|].
  unfold highlightsExact. intros H. apply (f_equal size) in H.
  vm_compute in H. discriminate.
Qed.

(** ** Transformations: error and preview responses *)

(** C6, as the code has it.  For a response that carries an error and no
    updated cells, [runNLQ] raises the error notice and appends the question
    and an error turn; session, schema, row count, offset, limit, the rows
    shown, the highlight map and the undo stack hold their values, and no
    page is fetched.  The stored filtered total is overwritten with the
    [total_count] of the response, zero when there is none. *)
Theorem runNLQ_error_holds_session_and_rows (w : World) (draw : nat)
    (data : NLExprResponse.t) (page : Fetch PageResponse.t) (err : string) :
  truthy_ostr (session (ui w)) = true →
  NLExprResponse.error data = Some err →
  truthy_str err = true →
  isUpdateOperation data = false →
  error (ui (runNLQ (ui w) draw (Ok data) page w)) = Some err ∧
  messages (ui (runNLQ (ui w) draw (Ok data) page w)) =
    messages (ui w) ++ [ChatTurn.plain user (question (ui w)) KText;
                        ChatTurn.plain assistant err KError] ∧
  heldOnError (ui (runNLQ (ui w) draw (Ok data) page w)) = heldOnError (ui w) ∧
  filteredTotalCount (ui (runNLQ (ui w) draw (Ok data) page w)) =
    num_or (NLExprResponse.total_count data) 0 ∧
  net (runNLQ (ui w) draw (Ok data) page w) =
    net w ++ [ReqNLQ (session (ui w)) (question (ui w))].
Proof.
  intros Hs He Ht Hu.
  assert (truthy_ostr (NLExprResponse.error data) = true) as Hte by by rewrite He.
  destruct (truthy_is_Some _ Hs) as [sess Hsess].
  unfold runNLQ. rewrite Hsess. unfold try_fetch. rewrite Hu, Hte. cbv beta iota zeta.
  split; [|split; [|split; [|split]]].
  - run_view error. by rewrite He.
  - run_view messages. rewrite <- app_assoc. unfold str_or. by rewrite He, Ht.
  - apply (frame_eq heldOnError). keeps.
  - run_view filteredTotalCount. reflexivity.
  - reflexivity.
Qed.

Lemma runNLQ_error_holds_session_and_rows_witness :
  error (ui (runNLQ (ui w_previewed) 0 (Ok failed_query) (Failed "unused") w_previewed)) =
    Some "could not translate"%string ∧
  messages (ui (runNLQ (ui w_previewed) 0 (Ok failed_query) (Failed "unused") w_previewed)) =
    messages (ui w_previewed) ++
      [ChatTurn.plain user (question (ui w_previewed)) KText;
       ChatTurn.plain assistant "could not translate" KError] ∧
  heldOnError (ui (runNLQ (ui w_previewed) 0 (Ok failed_query) (Failed "unused") w_previewed)) =
    heldOnError (ui w_previewed) ∧
  filteredTotalCount
    (ui (runNLQ (ui w_previewed) 0 (Ok failed_query) (Failed "unused") w_previewed)) =
    num_or (NLExprResponse.total_count failed_query) 0 ∧
  net (runNLQ (ui w_previewed) 0 (Ok failed_query) (Failed "unused") w_previewed) =
    net w_previewed ++ [ReqNLQ (session (ui w_previewed)) (question (ui w_previewed))].
Proof.
  apply (runNLQ_error_holds_session_and_rows w_previewed 0 failed_query
           (Failed "unused") "could not translate").
  - reflexivity.
  - reflexivity.
  - reflexivity.
  - reflexivity.
Defined.

(** C6, as stated, fails: the error response arrives after a preview with
    37 matches.  The error is surfaced, and the filtered total of the window
    drops from 37 to 0; the overlay code is overwritten too.  And a response
    that carries an error together with updated cells is handled as a
    mutation: the cell is highlighted and the window is fetched again. *)
Lemma error_response_rewrites_filtered_total :
  let w' := step w_previewed (ClickSend 0 (Ok failed_query) (Failed "unused")) in
  let w'' := step w_previewed
               (ClickSend 0 (Ok failed_mutation) (Ok (page_of [row 5 31] (Some 1)))) in
  error (ui w') = Some "could not translate"%string ∧
  filteredTotalCount (ui w_previewed) = 37 ∧
  filteredTotalCount (ui w') = 0 ∧
  activeCode (ui w_previewed) = Some filter_code ∧
  activeCode (ui w') = None ∧
  NLExprResponse.error failed_mutation = Some "partial failure"%string ∧
  highlightedCells (ui w_previewed) !! "5-age"%string = None ∧
  highlightedCells (ui w'') !! "5-age"%string = Some "rgba(255, 182, 193, 0.6)"%string ∧
  rowCount (ui w_previewed) = 1000 ∧
  rowCount (ui w'') = 1 ∧
  ¬ (filteredTotalCount (ui w') = filteredTotalCount (ui w_previewed) ∧
     activeCode (ui w') = activeCode (ui w_previewed)).
Proof.
  cbv zeta. repeat (split; [by vm_compute|]).
  intros [H _]. revert H. by vm_compute.
Qed.

(** What a preview response (no error, no updated cells) does to the window:
    offset, limit, the rows shown and the row count stay, no page is fetched,
    and the overlay code becomes the code of the response. *)
Lemma runNLQ_preview_window (w : World) (draw : nat) (data : NLExprResponse.t)
    (page : Fetch PageResponse.t) :
  truthy_ostr (session (ui w)) = true →
  truthy_ostr (NLExprResponse.error data) = false →
  isUpdateOperation data = false →
  (offset (ui (runNLQ (ui w) draw (Ok data) page w)),
   limit (ui (runNLQ (ui w) draw (Ok data) page w)),
   preview (ui (runNLQ (ui w) draw (Ok data) page w)),
   rawPreview (ui (runNLQ (ui w) draw (Ok data) page w)),
   rowCount (ui (runNLQ (ui w) draw (Ok data) page w))) =
    (offset (ui w), limit (ui w), preview (ui w), rawPreview (ui w), rowCount (ui w)) ∧
  activeCode (ui (runNLQ (ui w) draw (Ok data) page w)) =
    str_or_null (NLExprResponse.code data) ∧
  net (runNLQ (ui w) draw (Ok data) page w) =
    net w ++ [ReqNLQ (session (ui w)) (question (ui w))].
Proof.
  intros Hs He Hu. destruct (truthy_is_Some _ Hs) as [sess Hsess].
  unfold runNLQ. rewrite Hsess. unfold try_fetch. rewrite Hu, He. cbv beta iota zeta.
  split; [|split].
  - apply (frame_eq (λ s, (offset s, limit s, preview s, rawPreview s, rowCount s))).
    keeps.
  - run_view activeCode. reflexivity.
  - reflexivity.
Qed.

(** C4: the code departs from the claim.  A dataset is loaded, no overlay
    is active.  A preview response arrives: offset, limit, rows and row
    count stay, but the overlay code is now the code of the preview, though
    "Show All" was never clicked; the next click on "Next" sends that code
    with the page request. *)
Theorem preview_response_sets_overlay_code :
  isUpdateOperation previewed = false ∧
  NLExprResponse.error previewed = None ∧
  activeCode (ui w_loaded) = None ∧
  activeCode (ui w_previewed) = Some filter_code ∧
  (offset (ui w_previewed), limit (ui w_previewed), preview (ui w_previewed),
   rowCount (ui w_previewed)) =
    (offset (ui w_loaded), limit (ui w_loaded), preview (ui w_loaded),
     rowCount (ui w_loaded)) ∧
  last (net (step w_previewed (ClickNext (Ok (page_of [row 9 50] (Some 37)))))) =
    Some (ReqPage "tok1" 500 500 (Some filter_code)).
Proof. by_computing. Qed.

(** What the explicit action does: "Show All" on the last preview turn sets
    the overlay code and fetches the window again at offset 0. *)
Example showAll_applies_overlay :
  let w' := step w_previewed (ClickShowAll 1 (Ok (page_of [row 7 40] (Some 37)))) in
  activeCode (ui w') = Some filter_code ∧ offset (ui w') = 0 ∧ rowCount (ui w') = 37 ∧
  last (net w') = Some (ReqPage "tok1" 0 500 (Some filter_code)).
Proof. by_computing. Qed.

(** ** Pagination *)

Lemma ceil_div_le a b p : 0 < b → (ceil_div a b ≤ p ↔ a ≤ p * b).
Proof.
  intros Hb. unfold ceil_div.
  pose proof (Z.div_mod (- a) b ltac:(lia)).
  pose proof (Z.mod_pos_bound (- a) b Hb). nia.
Qed.



Example scenario_A :
  rowCount (ui w_loaded) = 1000 ∧ limit (ui w_loaded) = 500 ∧ offset (ui w_loaded) = 0 ∧
  totalPages (ui w_loaded) = 2 ∧ currentPage (ui w_loaded) = 1 ∧
  prevDisabled (ui w_loaded) = true ∧ nextDisabled (ui w_loaded) = false.
Proof. by_computing. Qed.


(** * Further properties of the handlers *)

Ltac split_conj := repeat lazymatch goal with |- _ ∧ _ => split end.

(** ** Failed requests *)

(** X1.  A page request that fails changes nothing but the notices: the message
    of the failure is shown, the paging flag is lowered, one request went
    out, and the rows, the row count, the offset, the limit and the overlay
    code are those of before, whatever offset, limit or override was asked
    for. *)
Theorem fetchPage_failure_keeps_window (w : World) (newOffset : Z)
    (newLimit : option Z) (es : option string) (co : option (option string))
    (msg sess : string) :
  str_or_null (if truthy_ostr es then es else session (ui w)) = Some sess →
  fetchPage (ui w) newOffset newLimit es co (Failed msg) w =
    mkWorld (with_paging false (with_error (Some msg) (ui w)))
      (net w ++ [ReqPage sess newOffset (default (limit (ui w)) newLimit)
                   (str_or_null (default (activeCode (ui w)) co))])
      (stored w).
Proof. intros Hs. unfold fetchPage. rewrite Hs. reflexivity. Qed.

Lemma fetchPage_failure_keeps_window_witness :
  fetchPage (ui w_loaded) 500 None None None (Failed "offline") w_loaded =
    mkWorld (with_paging false (with_error (Some "offline"%string) (ui w_loaded)))
      (net w_loaded ++ [ReqPage "tok1" 500 (default (limit (ui w_loaded)) None)
                          (str_or_null (default (activeCode (ui w_loaded)) None))])
      (stored w_loaded).
Proof.
  apply (fetchPage_failure_keeps_window w_loaded 500 None None None "offline" "tok1").
  reflexivity.
Defined.

(** X2.  An undo the server refuses ([success = false]) or that fails in
    transit is surfaced as a notice, the server's message or "Undo failed",
    and changes nothing else: session, window, highlight map, undo stack,
    undo count and transcript are those of before, and no page is fetched. *)
Theorem handleUndo_unsuccessful (w : World) (resp : Fetch UndoResponse.t)
    (page : Fetch PageResponse.t) (did sess : string) :
  str_or_null (datasetId (ui w)) = Some did →
  str_or_null (session (ui w)) = Some sess →
  match resp with
  | Ok data => UndoResponse.success data = false
  | Failed _ => True
  end →
  handleUndo (ui w) resp page w =
    mkWorld
      (with_loading false
         (with_error
            (Some match resp with
                  | Ok data => str_or (UndoResponse.message data) "Undo failed"
                  | Failed msg => msg
                  end) (ui w)))
      (net w ++ [ReqUndo did sess]) (stored w).
Proof.
  intros Hd Hs Hr. unfold handleUndo. rewrite Hd, Hs.
  destruct resp as [data|msg]; [|reflexivity].
  unfold try_fetch. simpl in Hr. unfold andThen at 3. unfold andThen at 3.
  rewrite Hr. reflexivity.
Qed.

Lemma handleUndo_unsuccessful_witness :
  handleUndo (ui w_one_op) (Ok refused) (Failed "unused") w_one_op =
    mkWorld
      (with_loading false
         (with_error
            (Some match Ok refused with
                  | Ok data => str_or (UndoResponse.message data) "Undo failed"
                  | Failed msg => msg
                  end) (ui w_one_op)))
      (net w_one_op ++ [ReqUndo "ds1" "tok1"]) (stored w_one_op).
Proof.
  apply (handleUndo_unsuccessful w_one_op (Ok refused) (Failed "unused") "ds1" "tok1");
    reflexivity.
Defined.

(** ** The request log and the durable slot *)

Lemma stored_upd h w : stored (upd h w) = stored w.
Proof. reflexivity. Qed.
Lemma stored_fetchJson r w : stored (fetchJson r w) = stored w.
Proof. reflexivity. Qed.
Lemma stored_skip w : stored (skip w) = stored w.
Proof. reflexivity. Qed.
Lemma net_upd h w : net (upd h w) = net w.
Proof. reflexivity. Qed.
Lemma net_fetchJson r w : net (fetchJson r w) = net w ++ [r].
Proof. reflexivity. Qed.
Lemma net_skip w : net (skip w) = net w.
Proof. reflexivity. Qed.
Lemma net_storage_set id w : net (storage_set id w) = net w.
Proof. reflexivity. Qed.
Lemma net_storage_remove w : net (storage_remove w) = net w.
Proof. reflexivity. Qed.

Lemma fetchPage_stored snap o l es co resp w :
  stored (fetchPage snap o l es co resp w) = stored w.
Proof.
  unfold fetchPage. destruct (str_or_null _); [|reflexivity].
  destruct resp, co, l; reflexivity.
Qed.

Lemma fetchPage_net snap o l es co resp w :
  net (fetchPage snap o l es co resp w) = net w ++ pageRequests snap o l es co.
Proof.
  unfold fetchPage, pageRequests. destruct (str_or_null _); [|by rewrite app_nil_r].
  destruct resp, co, l; reflexivity.
Qed.

(** Reads the durable slot or the request log off the world a straight-line
    command ends in. *)
Ltac run_world :=
  unfold_setters; cbv beta iota;
  repeat first
    [ rewrite seq_apply
    | rewrite stored_upd | rewrite stored_fetchJson | rewrite stored_skip
    | rewrite fetchPage_stored
    | rewrite net_upd | rewrite net_fetchJson | rewrite net_skip
    | rewrite net_storage_set | rewrite net_storage_remove
    | rewrite fetchPage_net ].

(** ** The dataset identity across a restart *)

(** X3.  A successful load that names the dataset keeps the identity in the state
    and in the durable slot; when the page is started again, the first
    request it sends reopens that identity. *)
Theorem load_then_restart_reopens (w : World) (data : LoadResponse.t)
    (page : Fetch PageResponse.t) (id : string)
    (reopen : Fetch LoadResponse.t) (page' : Fetch PageResponse.t) :
  str_or_null (LoadResponse.dataset_id data) = Some id →
  datasetId (ui (loadDataset (ui w) (Ok data) page w)) = Some id ∧
  stored (loadDataset (ui w) (Ok data) page w) = Some id ∧
  ∃ later,
    net (step (loadDataset (ui w) (Ok data) page w) (Mount reopen page')) =
      net (loadDataset (ui w) (Ok data) page w) ++ ReqOpen id :: later.
Proof.
  intros Hid.
  assert (stored (loadDataset (ui w) (Ok data) page w) = Some id) as Hst.
  { unfold loadDataset, try_fetch. rewrite Hid.
    destruct (truthy_ostr (LoadResponse.session data)); run_world; reflexivity. }
  split; [|split; [exact Hst|]].
  - unfold loadDataset, try_fetch. rewrite Hid. run_view datasetId. reflexivity.
  - unfold step. rewrite Hst.
    assert (str_or_null (Some id) = Some id) as ->.
    { unfold str_or_null in Hid |- *.
      destruct (truthy_ostr (LoadResponse.dataset_id data)) eqn:Ht; [|done].
      rewrite Hid in Ht. by rewrite Ht. }
    generalize (net (loadDataset (ui w) (Ok data) page w)). intros sent.
    unfold openDataset, try_fetch. destruct reopen as [d|msg].
    + destruct (truthy_ostr (LoadResponse.session d)),
        (str_or_null (LoadResponse.dataset_id d));
        run_world; cbn [net]; rewrite <- ?app_assoc; by eexists.
    + run_world. cbn [net]. by eexists.
Qed.

Lemma load_then_restart_reopens_witness :
  datasetId (ui (loadDataset (ui (boot None)) (Ok loaded) (Failed "offline") (boot None))) =
    Some "ds1"%string ∧
  stored (loadDataset (ui (boot None)) (Ok loaded) (Failed "offline") (boot None)) =
    Some "ds1"%string ∧
  ∃ later,
    net (step (loadDataset (ui (boot None)) (Ok loaded) (Failed "offline") (boot None))
           (Mount (Failed "gone") (Failed "unused"))) =
      net (loadDataset (ui (boot None)) (Ok loaded) (Failed "offline") (boot None)) ++
        ReqOpen "ds1" :: later.
Proof.
  apply (load_then_restart_reopens (boot None) loaded (Failed "offline") "ds1"
           (Failed "gone") (Failed "unused")).
  reflexivity.
Defined.

(** ** Mutations *)

Lemma lookup_mergeHighlights c ks (m : gmap string string) k :
  mergeHighlights c ks m !! k = if decide (k ∈ ks) then Some c else m !! k.
Proof.
  unfold mergeHighlights. revert m. induction ks as [|k' ks IH]; intros m; simpl.
  - destruct (decide (k ∈ [])) as [H|H]; [by apply elem_of_nil in H|done].
  - rewrite IH. destruct (decide (k ∈ ks)) as [Hin|Hni].
    + rewrite decide_True by (apply elem_of_cons; auto). done.
    + destruct (decide (k = k')) as [->|Hne].
      * rewrite lookup_insert_eq, decide_True by (apply elem_of_cons; auto). done.
      * rewrite lookup_insert_ne by done.
        rewrite decide_False; [done|]. rewrite elem_of_cons. tauto.
Qed.

Lemma elem_of_mergeRowIds cells (prev : gset Z) n :
  n ∈ mergeRowIds cells prev ↔
  n ∈ prev ∨ ∃ cell, cell ∈ cells ∧ UpdatedCell.row_id cell = n.
Proof.
  unfold mergeRowIds. revert prev. induction cells as [|c cells IH]; intros prev; simpl.
  - split; [auto|]. intros [?|(? & H & _)]; [done|by apply elem_of_nil in H].
  - rewrite IH. rewrite elem_of_union, elem_of_singleton. split.
    + intros [[->|?]|(cell & ? & ?)]; [right; exists c|by left|right; exists cell];
        (split; [apply elem_of_cons; auto|done]).
    + intros [?|(cell & [->|?]%elem_of_cons & <-)]; eauto.
Qed.

(** What a response with updated cells writes to the highlight cells. *)
Lemma runNLQ_mutation_cells (w : World) (draw : nat) (data : NLExprResponse.t)
    (page : Fetch PageResponse.t) :
  truthy_ostr (session (ui w)) = true →
  isUpdateOperation data = true →
  highlightedCells (ui (runNLQ (ui w) draw (Ok data) page w)) =
    mergeHighlights (getRandomHighlightColor draw)
      (operationKeysOf (list_or_empty (NLExprResponse.updated_cells data)))
      (highlightedCells (ui w)) ∧
  highlightStack (ui (runNLQ (ui w) draw (Ok data) page w)) =
    highlightStack (ui w) ++
      [operationKeysOf (list_or_empty (NLExprResponse.updated_cells data))] ∧
  updatedRowIds (ui (runNLQ (ui w) draw (Ok data) page w)) =
    mergeRowIds (list_or_empty (NLExprResponse.updated_cells data)) (updatedRowIds (ui w)).
Proof.
  intros Hs Hu. destruct (truthy_is_Some _ Hs) as [sess Hsess].
  unfold runNLQ. rewrite Hsess. unfold try_fetch. rewrite Hu. cbv beta iota zeta.
  split; [|split].
  - run_view highlightedCells. reflexivity.
  - run_view highlightStack. reflexivity.
  - run_view updatedRowIds. reflexivity.
Qed.

(** X4.  A response with updated cells colours every cell it names with the one
    colour drawn for the operation, leaves the colour of every other cell as it
    was, pushes the keys of the operation, in the order of the response, as
    one entry of the undo stack, and adds the row ids of the cells to the set
    of updated rows. *)
Theorem runNLQ_mutation_highlights (w : World) (draw : nat)
    (data : NLExprResponse.t) (page : Fetch PageResponse.t)
    (cells : list UpdatedCell.t) :
  truthy_ostr (session (ui w)) = true →
  NLExprResponse.updated_cells data = Some cells →
  cells ≠ [] →
  (∀ cell, cell ∈ cells →
     highlightedCells (ui (runNLQ (ui w) draw (Ok data) page w))
       !! cellKey (UpdatedCell.row_id cell) (UpdatedCell.column cell) =
     Some (getRandomHighlightColor draw)) ∧
  (∀ k, k ∉ operationKeysOf cells →
     highlightedCells (ui (runNLQ (ui w) draw (Ok data) page w)) !! k =
     highlightedCells (ui w) !! k) ∧
  highlightStack (ui (runNLQ (ui w) draw (Ok data) page w)) =
    highlightStack (ui w) ++ [operationKeysOf cells] ∧
  length (operationKeysOf cells) = length cells ∧
  (∀ n, n ∈ updatedRowIds (ui (runNLQ (ui w) draw (Ok data) page w)) ↔
        n ∈ updatedRowIds (ui w) ∨ ∃ cell, cell ∈ cells ∧ UpdatedCell.row_id cell = n).
Proof.
  intros Hs Hc Hne.
  assert (isUpdateOperation data = true) as Hu.
  { unfold isUpdateOperation. rewrite Hc. by destruct cells. }
  destruct (runNLQ_mutation_cells w draw data page Hs Hu) as (-> & -> & ->).
  rewrite Hc. cbn [list_or_empty default].
  split; [|split; [|split; [|split]]].
  - intros cell Hin. rewrite lookup_mergeHighlights, decide_True; [done|].
    unfold operationKeysOf. apply list_elem_of_fmap. by exists cell.
  - intros k Hk. by rewrite lookup_mergeHighlights, decide_False.
  - done.
  - unfold operationKeysOf. apply length_map.
  - intros n. apply elem_of_mergeRowIds.
Qed.

Lemma runNLQ_mutation_highlights_witness :
  (∀ c, c ∈ [cell 5 "30" "31"; cell 7 "40" "41"] →
     highlightedCells
       (ui (runNLQ (ui w_loaded) 2 (Ok (mutation [cell 5 "30" "31"; cell 7 "40" "41"] 1))
              (Failed "offline") w_loaded))
       !! cellKey (UpdatedCell.row_id c) (UpdatedCell.column c) =
     Some (getRandomHighlightColor 2)) ∧
  (∀ k, k ∉ operationKeysOf [cell 5 "30" "31"; cell 7 "40" "41"] →
     highlightedCells
       (ui (runNLQ (ui w_loaded) 2 (Ok (mutation [cell 5 "30" "31"; cell 7 "40" "41"] 1))
              (Failed "offline") w_loaded)) !! k =
     highlightedCells (ui w_loaded) !! k) ∧
  highlightStack
    (ui (runNLQ (ui w_loaded) 2 (Ok (mutation [cell 5 "30" "31"; cell 7 "40" "41"] 1))
           (Failed "offline") w_loaded)) =
    highlightStack (ui w_loaded) ++ [operationKeysOf [cell 5 "30" "31"; cell 7 "40" "41"]] ∧
  length (operationKeysOf [cell 5 "30" "31"; cell 7 "40" "41"]) =
    length [cell 5 "30" "31"; cell 7 "40" "41"] ∧
  (∀ n, n ∈ updatedRowIds
              (ui (runNLQ (ui w_loaded) 2
                     (Ok (mutation [cell 5 "30" "31"; cell 7 "40" "41"] 1))
                     (Failed "offline") w_loaded)) ↔
        n ∈ updatedRowIds (ui w_loaded) ∨
        ∃ c, c ∈ [cell 5 "30" "31"; cell 7 "40" "41"] ∧ UpdatedCell.row_id c = n).
Proof.
  apply (runNLQ_mutation_highlights w_loaded 2
           (mutation [cell 5 "30" "31"; cell 7 "40" "41"] 1) (Failed "offline")
           [cell 5 "30" "31"; cell 7 "40" "41"]).
  - reflexivity.
  - reflexivity.
  - discriminate.
Defined.

(** X5.  A response with updated cells makes the client fetch the window again,
    first page, no overlay code, right after the transformation request.
    When that page arrives the window stands at offset 0 with the overlay
    cleared and shows the rows of the page. *)
Theorem runNLQ_mutation_refetches (w : World) (draw : nat)
    (data : NLExprResponse.t) (page : Fetch PageResponse.t) (sess : string) :
  str_or_null (session (ui w)) = Some sess →
  isUpdateOperation data = true →
  net (runNLQ (ui w) draw (Ok data) page w) =
    net w ++ [ReqNLQ (session (ui w)) (question (ui w));
              ReqPage sess 0 (limit (ui w)) None] ∧
  (∀ d, page = Ok d →
     offset (ui (runNLQ (ui w) draw (Ok data) page w)) = 0 ∧
     activeCode (ui (runNLQ (ui w) draw (Ok data) page w)) = None ∧
     rawPreview (ui (runNLQ (ui w) draw (Ok data) page w)) =
       list_or_empty (PageResponse.rows d) ∧
     preview (ui (runNLQ (ui w) draw (Ok data) page w)) =
       stripRowId (list_or_empty (PageResponse.rows d)) ∧
     limit (ui (runNLQ (ui w) draw (Ok data) page w)) = limit (ui w)).
Proof.
  intros Hsess Hu.
  assert (truthy_ostr (session (ui w)) = true) as Hs.
  { unfold str_or_null in Hsess. by destruct (truthy_ostr (session (ui w))). }
  assert (pageRequests (ui w) 0 (Some (limit (ui w))) (session (ui w)) (Some None) =
          [ReqPage sess 0 (limit (ui w)) None]) as Hreq.
  { unfold pageRequests. rewrite Hs, Hsess. reflexivity. }
  unfold runNLQ. rewrite Hsess. unfold try_fetch. rewrite Hu, Hs. cbv beta iota zeta.
  split.
  - destruct (truthy_ostr (NLExprResponse.error data)),
      (list_or_empty (NLExprResponse.updated_cells data));
      run_world; rewrite Hreq, <- app_assoc; reflexivity.
  - intros d ->. unfold fetchPage. rewrite Hs, Hsess. unfold try_fetch.
    cbv beta iota zeta. split_conj.
    + run_view offset. reflexivity.
    + run_view activeCode. reflexivity.
    + run_view rawPreview. reflexivity.
    + run_view preview. reflexivity.
    + run_view limit. reflexivity.
Qed.

Lemma runNLQ_mutation_refetches_witness :
  net (runNLQ (ui w_loaded) 2 (Ok (mutation [cell 5 "30" "31"] 1))
         (Ok (page_of [row 5 31] (Some 1000))) w_loaded) =
    net w_loaded ++ [ReqNLQ (session (ui w_loaded)) (question (ui w_loaded));
                     ReqPage "tok1" 0 (limit (ui w_loaded)) None] ∧
  (∀ d, Ok (page_of [row 5 31] (Some 1000)) = Ok d →
     offset (ui (runNLQ (ui w_loaded) 2 (Ok (mutation [cell 5 "30" "31"] 1))
                   (Ok (page_of [row 5 31] (Some 1000))) w_loaded)) = 0 ∧
     activeCode (ui (runNLQ (ui w_loaded) 2 (Ok (mutation [cell 5 "30" "31"] 1))
                       (Ok (page_of [row 5 31] (Some 1000))) w_loaded)) = None ∧
     rawPreview (ui (runNLQ (ui w_loaded) 2 (Ok (mutation [cell 5 "30" "31"] 1))
                       (Ok (page_of [row 5 31] (Some 1000))) w_loaded)) =
       list_or_empty (PageResponse.rows d) ∧
     preview (ui (runNLQ (ui w_loaded) 2 (Ok (mutation [cell 5 "30" "31"] 1))
                    (Ok (page_of [row 5 31] (Some 1000))) w_loaded)) =
       stripRowId (list_or_empty (PageResponse.rows d)) ∧
     limit (ui (runNLQ (ui w_loaded) 2 (Ok (mutation [cell 5 "30" "31"] 1))
                  (Ok (page_of [row 5 31] (Some 1000))) w_loaded)) = limit (ui w_loaded)).
Proof.
  apply (runNLQ_mutation_refetches w_loaded 2 (mutation [cell 5 "30" "31"] 1)
           (Ok (page_of [row 5 31] (Some 1000))) "tok1");
    reflexivity.
Defined.

(** ** The turns a transformation appends *)

(** X6.  A transformation that is answered appends exactly two turns, the
    question and one assistant turn.  The assistant turn is an error turn if
    the response carries an error, whatever else it carries; else an update
    turn counting the updated cells; else a preview turn with at most ten
    rows, stripped of [__row_id], the total count and the code for
    "Show All". *)
Theorem runNLQ_appends_question_and_answer (w : World) (draw : nat)
    (data : NLExprResponse.t) (page : Fetch PageResponse.t) :
  truthy_ostr (session (ui w)) = true →
  ∃ answer,
    messages (ui (runNLQ (ui w) draw (Ok data) page w)) =
      messages (ui w) ++ [ChatTurn.plain user (question (ui w)) KText; answer] ∧
    ChatTurn.role answer = assistant ∧
    ChatTurn.kind answer = Some (answerKind data) ∧
    (answerKind data = KError →
       Some (ChatTurn.text answer) = NLExprResponse.error data) ∧
    (answerKind data = KUpdate →
       ChatTurn.updatedCount answer =
         Some (Z.of_nat (length (list_or_empty (NLExprResponse.updated_cells data))))) ∧
    (answerKind data = KPreview →
       ChatTurn.previewData answer =
         Some (take 10 (stripRowId (list_or_empty (NLExprResponse.preview data)))) ∧
       (∀ rows, ChatTurn.previewData answer = Some rows → (length rows ≤ 10)%nat) ∧
       ChatTurn.totalCount answer = Some (num_or (NLExprResponse.total_count data) 0) ∧
       ChatTurn.activeCode answer = str_or_null (NLExprResponse.code data)).
Proof.
  intros Hs. destruct (truthy_is_Some _ Hs) as [sess Hsess].
  unfold runNLQ, answerKind. rewrite Hsess. unfold try_fetch.
  destruct (truthy_ostr (NLExprResponse.error data)) eqn:He;
    [|destruct (isUpdateOperation data) eqn:Hu]; cbv beta iota zeta;
    eexists; (split; [run_view messages; rewrite <- app_assoc; reflexivity|]);
    cbn [ChatTurn.role ChatTurn.kind ChatTurn.text ChatTurn.updatedCount
         ChatTurn.previewData ChatTurn.totalCount ChatTurn.activeCode ChatTurn.plain];
    repeat split; try done.
  - intros _. unfold str_or. destruct (NLExprResponse.error data) as [e|]; [|done].
    simpl in He. by rewrite He.
  - intros rows [= <-]. rewrite length_take. lia.
Qed.

Lemma runNLQ_appends_question_and_answer_witness :
  ∃ answer,
    messages (ui (runNLQ (ui w_loaded) 0 (Ok previewed) (Failed "unused") w_loaded)) =
      messages (ui w_loaded) ++ [ChatTurn.plain user (question (ui w_loaded)) KText; answer] ∧
    ChatTurn.role answer = assistant ∧
    ChatTurn.kind answer = Some (answerKind previewed) ∧
    (answerKind previewed = KError →
       Some (ChatTurn.text answer) = NLExprResponse.error previewed) ∧
    (answerKind previewed = KUpdate →
       ChatTurn.updatedCount answer =
         Some (Z.of_nat (length (list_or_empty (NLExprResponse.updated_cells previewed))))) ∧
    (answerKind previewed = KPreview →
       ChatTurn.previewData answer =
         Some (take 10 (stripRowId (list_or_empty (NLExprResponse.preview previewed)))) ∧
       (∀ rows, ChatTurn.previewData answer = Some rows → (length rows ≤ 10)%nat) ∧
       ChatTurn.totalCount answer = Some (num_or (NLExprResponse.total_count previewed) 0) ∧
       ChatTurn.activeCode answer = str_or_null (NLExprResponse.code previewed)).
Proof.
  apply (runNLQ_appends_question_and_answer w_loaded 0 previewed (Failed "unused")).
  reflexivity.
Defined.

(** X7.  A transformation request that fails in transit shows the message and
    changes nothing else: no turn is appended, not even the question, and
    the window, the overlay code and the highlights stay. *)
Theorem runNLQ_failure (w : World) (draw : nat) (msg : string)
    (page : Fetch PageResponse.t) :
  truthy_ostr (session (ui w)) = true →
  runNLQ (ui w) draw (Failed msg) page w =
    mkWorld (with_loading false (with_error (Some msg) (ui w)))
      (net w ++ [ReqNLQ (session (ui w)) (question (ui w))]) (stored w).
Proof.
  intros Hs. destruct (truthy_is_Some _ Hs) as [sess Hsess].
  unfold runNLQ. rewrite Hsess. reflexivity.
Qed.

Lemma runNLQ_failure_witness :
  runNLQ (ui w_loaded) 0 (Failed "timeout") (Failed "unused") w_loaded =
    mkWorld (with_loading false (with_error (Some "timeout"%string) (ui w_loaded)))
      (net w_loaded ++ [ReqNLQ (session (ui w_loaded)) (question (ui w_loaded))])
      (stored w_loaded).
Proof. apply (runNLQ_failure w_loaded 0 "timeout" (Failed "unused")). reflexivity. Defined.

(** ** A successful undo *)

(** X8.  A successful undo replaces session token and schema by those of the
    response, takes the undo count from the response (zero if absent),
    keeps the dataset identity, appends one text turn with the server's
    message (or a default), and, if a session token came back, fetches the
    window again at offset 0 without overlay code under the new token.  When
    that page arrives the overlay is cleared and the offset is 0; the row
    count is the page's total, with the count of before the undo as the
    fallback. *)
Theorem handleUndo_success_snapshot (w : World) (data : UndoResponse.t)
    (page : Fetch PageResponse.t) (did sess : string) :
  str_or_null (datasetId (ui w)) = Some did →
  str_or_null (session (ui w)) = Some sess →
  UndoResponse.success data = true →
  session (ui (handleUndo (ui w) (Ok data) page w)) = UndoResponse.session data ∧
  columns (ui (handleUndo (ui w) (Ok data) page w)) =
    stripColumns (list_or_empty (UndoResponse.columns data)) ∧
  undoCount (ui (handleUndo (ui w) (Ok data) page w)) =
    num_or (UndoResponse.undo_count data) 0 ∧
  datasetId (ui (handleUndo (ui w) (Ok data) page w)) = datasetId (ui w) ∧
  messages (ui (handleUndo (ui w) (Ok data) page w)) =
    messages (ui w) ++
      [ChatTurn.plain assistant
         (str_or (UndoResponse.message data) "Changes reverted successfully.") KText] ∧
  net (handleUndo (ui w) (Ok data) page w) =
    net w ++ ReqUndo did sess ::
      match str_or_null (UndoResponse.session data) with
      | Some sess' => [ReqPage sess' 0 (limit (ui w)) None]
      | None => []
      end ∧
  (∀ d, truthy_ostr (UndoResponse.session data) = true → page = Ok d →
     offset (ui (handleUndo (ui w) (Ok data) page w)) = 0 ∧
     activeCode (ui (handleUndo (ui w) (Ok data) page w)) = None ∧
     rawPreview (ui (handleUndo (ui w) (Ok data) page w)) =
       list_or_empty (PageResponse.rows d) ∧
     rowCount (ui (handleUndo (ui w) (Ok data) page w)) =
       num_or (PageResponse.total d) (rowCount (ui w))).
Proof.
  intros Hd Hs Hok. unfold handleUndo. rewrite Hd, Hs. unfold try_fetch.
  rewrite Hok. cbv beta iota zeta.
  split; [|split; [|split; [|split; [|split; [|split]]]]].
  - run_view session. reflexivity.
  - run_view columns. reflexivity.
  - run_view undoCount. reflexivity.
  - run_view datasetId. reflexivity.
  - run_view messages. reflexivity.
  - destruct (last (highlightStack (ui w)));
      (destruct (truthy_ostr (UndoResponse.session data)) eqn:Ht;
       [|rewrite (str_or_null_None _ Ht)]);
      run_world; rewrite <- ?app_assoc; try reflexivity.
    all: unfold pageRequests; rewrite Ht; destruct (str_or_null _); reflexivity.
  - intros d Ht ->. rewrite Ht. destruct (truthy_is_Some _ Ht) as [sess' Hsess'].
    unfold fetchPage. rewrite Ht, Hsess'. unfold try_fetch. cbv beta iota zeta.
    split_conj.
    + run_view offset. reflexivity.
    + run_view activeCode. reflexivity.
    + run_view rawPreview. reflexivity.
    + run_view rowCount. reflexivity.
Qed.

Lemma handleUndo_success_snapshot_witness :
  session (ui (handleUndo (ui w_one_op) (Ok (undone 0)) (Ok (page_of [row 5 30] (Some 1000))) w_one_op)) =
    UndoResponse.session (undone 0) ∧
  columns (ui (handleUndo (ui w_one_op) (Ok (undone 0)) (Ok (page_of [row 5 30] (Some 1000))) w_one_op)) =
    stripColumns (list_or_empty (UndoResponse.columns (undone 0))) ∧
  undoCount (ui (handleUndo (ui w_one_op) (Ok (undone 0)) (Ok (page_of [row 5 30] (Some 1000))) w_one_op)) =
    num_or (UndoResponse.undo_count (undone 0)) 0 ∧
  datasetId (ui (handleUndo (ui w_one_op) (Ok (undone 0)) (Ok (page_of [row 5 30] (Some 1000))) w_one_op)) =
    datasetId (ui w_one_op) ∧
  messages (ui (handleUndo (ui w_one_op) (Ok (undone 0)) (Ok (page_of [row 5 30] (Some 1000))) w_one_op)) =
    messages (ui w_one_op) ++
      [ChatTurn.plain assistant
         (str_or (UndoResponse.message (undone 0)) "Changes reverted successfully.") KText] ∧
  net (handleUndo (ui w_one_op) (Ok (undone 0)) (Ok (page_of [row 5 30] (Some 1000))) w_one_op) =
    net w_one_op ++ ReqUndo "ds1" "tok1" ::
      match str_or_null (UndoResponse.session (undone 0)) with
      | Some sess' => [ReqPage sess' 0 (limit (ui w_one_op)) None]
      | None => []
      end ∧
  (∀ d, truthy_ostr (UndoResponse.session (undone 0)) = true → Ok (page_of [row 5 30] (Some 1000)) = Ok d →
     offset (ui (handleUndo (ui w_one_op) (Ok (undone 0)) (Ok (page_of [row 5 30] (Some 1000))) w_one_op)) = 0 ∧
     activeCode (ui (handleUndo (ui w_one_op) (Ok (undone 0)) (Ok (page_of [row 5 30] (Some 1000))) w_one_op)) = None ∧
     rawPreview (ui (handleUndo (ui w_one_op) (Ok (undone 0)) (Ok (page_of [row 5 30] (Some 1000))) w_one_op)) =
       list_or_empty (PageResponse.rows d) ∧
     rowCount (ui (handleUndo (ui w_one_op) (Ok (undone 0)) (Ok (page_of [row 5 30] (Some 1000))) w_one_op)) =
       num_or (PageResponse.total d) (rowCount (ui w_one_op))).
Proof.
  apply (handleUndo_success_snapshot w_one_op (undone 0) (Ok (page_of [row 5 30] (Some 1000))) "ds1" "tok1");
    reflexivity.
Defined.

(** ** Switching the overlay *)

(** X9.  "Show All" of a preview turn: with a session, the overlay code becomes
    the code of the turn and the window is requested at offset 0 under that
    code with the current limit.  When the page arrives the window shows its
    rows at offset 0.  If the request fails the overlay code stays switched
    while rows, offset and row count are those of before. *)
Theorem handleShowAllInTable_applies_overlay (w : World) (code : option string)
    (page : Fetch PageResponse.t) (sess : string) :
  str_or_null (session (ui w)) = Some sess →
  net (handleShowAllInTable (ui w) code page w) =
    net w ++ [ReqPage sess 0 (limit (ui w)) (str_or_null code)] ∧
  (∀ d, page = Ok d →
     activeCode (ui (handleShowAllInTable (ui w) code page w)) = str_or_null code ∧
     offset (ui (handleShowAllInTable (ui w) code page w)) = 0 ∧
     rawPreview (ui (handleShowAllInTable (ui w) code page w)) =
       list_or_empty (PageResponse.rows d) ∧
     preview (ui (handleShowAllInTable (ui w) code page w)) =
       stripRowId (list_or_empty (PageResponse.rows d))) ∧
  (∀ msg, page = Failed msg →
     activeCode (ui (handleShowAllInTable (ui w) code page w)) = code ∧
     error (ui (handleShowAllInTable (ui w) code page w)) = Some msg ∧
     (offset (ui (handleShowAllInTable (ui w) code page w)),
      rowCount (ui (handleShowAllInTable (ui w) code page w)),
      rawPreview (ui (handleShowAllInTable (ui w) code page w)),
      preview (ui (handleShowAllInTable (ui w) code page w))) =
       (offset (ui w), rowCount (ui w), rawPreview (ui w), preview (ui w))).
Proof.
  intros Hsess.
  assert (truthy_ostr (session (ui w)) = true) as Hs.
  { unfold str_or_null in Hsess. by destruct (truthy_ostr (session (ui w))). }
  unfold handleShowAllInTable. rewrite Hsess. split; [|split].
  - run_world. unfold pageRequests. rewrite Hs, Hsess. reflexivity.
  - intros d ->. unfold fetchPage. rewrite Hs, Hsess. unfold try_fetch.
    cbv beta iota zeta. split_conj.
    + run_view activeCode. reflexivity.
    + run_view offset. reflexivity.
    + run_view rawPreview. reflexivity.
    + run_view preview. reflexivity.
  - intros msg ->. unfold fetchPage. rewrite Hs, Hsess. unfold try_fetch.
    cbv beta iota zeta. split_conj.
    + run_view activeCode. reflexivity.
    + run_view error. reflexivity.
    + apply (frame_eq (λ s, (offset s, rowCount s, rawPreview s, preview s))).
      keeps.
Qed.

Lemma handleShowAllInTable_applies_overlay_witness :
  net (handleShowAllInTable (ui w_previewed) (Some filter_code)
         (Ok (page_of [row 7 40] (Some 37))) w_previewed) =
    net w_previewed ++ [ReqPage "tok1" 0 (limit (ui w_previewed))
                          (str_or_null (Some filter_code))] ∧
  (∀ d, Ok (page_of [row 7 40] (Some 37)) = Ok d →
     activeCode (ui (handleShowAllInTable (ui w_previewed) (Some filter_code)
                       (Ok (page_of [row 7 40] (Some 37))) w_previewed)) =
       str_or_null (Some filter_code) ∧
     offset (ui (handleShowAllInTable (ui w_previewed) (Some filter_code)
                   (Ok (page_of [row 7 40] (Some 37))) w_previewed)) = 0 ∧
     rawPreview (ui (handleShowAllInTable (ui w_previewed) (Some filter_code)
                       (Ok (page_of [row 7 40] (Some 37))) w_previewed)) =
       list_or_empty (PageResponse.rows d) ∧
     preview (ui (handleShowAllInTable (ui w_previewed) (Some filter_code)
                    (Ok (page_of [row 7 40] (Some 37))) w_previewed)) =
       stripRowId (list_or_empty (PageResponse.rows d))) ∧
  (∀ msg, Ok (page_of [row 7 40] (Some 37)) = Failed msg →
     activeCode (ui (handleShowAllInTable (ui w_previewed) (Some filter_code)
                       (Ok (page_of [row 7 40] (Some 37))) w_previewed)) =
       Some filter_code ∧
     error (ui (handleShowAllInTable (ui w_previewed) (Some filter_code)
                  (Ok (page_of [row 7 40] (Some 37))) w_previewed)) = Some msg ∧
     (offset (ui (handleShowAllInTable (ui w_previewed) (Some filter_code)
                    (Ok (page_of [row 7 40] (Some 37))) w_previewed)),
      rowCount (ui (handleShowAllInTable (ui w_previewed) (Some filter_code)
                      (Ok (page_of [row 7 40] (Some 37))) w_previewed)),
      rawPreview (ui (handleShowAllInTable (ui w_previewed) (Some filter_code)
                        (Ok (page_of [row 7 40] (Some 37))) w_previewed)),
      preview (ui (handleShowAllInTable (ui w_previewed) (Some filter_code)
                     (Ok (page_of [row 7 40] (Some 37))) w_previewed))) =
       (offset (ui w_previewed), rowCount (ui w_previewed), rawPreview (ui w_previewed),
        preview (ui w_previewed))).
Proof.
  apply (handleShowAllInTable_applies_overlay w_previewed (Some filter_code)
           (Ok (page_of [row 7 40] (Some 37))) "tok1").
  reflexivity.
Defined.

(** X10.  "Show All Data" and "View Updated Records" drop the overlay: with a
    session both do the same, request the window at offset 0 without code
    under the current limit, and when the page arrives the overlay code is
    null and the offset 0. *)
Theorem overlay_reset_with_session (w : World) (page : Fetch PageResponse.t)
    (sess : string) :
  str_or_null (session (ui w)) = Some sess →
  net (handleShowAllData (ui w) page w) =
    net w ++ [ReqPage sess 0 (limit (ui w)) None] ∧
  handleViewUpdatedRows (ui w) page w = handleShowAllData (ui w) page w ∧
  (∀ d, page = Ok d →
     activeCode (ui (handleShowAllData (ui w) page w)) = None ∧
     offset (ui (handleShowAllData (ui w) page w)) = 0 ∧
     rawPreview (ui (handleShowAllData (ui w) page w)) =
       list_or_empty (PageResponse.rows d)).
Proof.
  intros Hsess.
  assert (truthy_ostr (session (ui w)) = true) as Hs.
  { unfold str_or_null in Hsess. by destruct (truthy_ostr (session (ui w))). }
  split; [|split; [reflexivity|]].
  - unfold handleShowAllData. rewrite Hsess. run_world.
    unfold pageRequests. rewrite Hs, Hsess. reflexivity.
  - intros d ->. unfold handleShowAllData, fetchPage. rewrite Hsess, Hs, Hsess.
    unfold try_fetch. cbv beta iota zeta. split_conj.
    + run_view activeCode. reflexivity.
    + run_view offset. reflexivity.
    + run_view rawPreview. reflexivity.
Qed.

Lemma overlay_reset_with_session_witness :
  net (handleShowAllData (ui w_previewed) (Ok (page_of [row 5 30] (Some 1000))) w_previewed) =
    net w_previewed ++ [ReqPage "tok1" 0 (limit (ui w_previewed)) None] ∧
  handleViewUpdatedRows (ui w_previewed) (Ok (page_of [row 5 30] (Some 1000))) w_previewed =
    handleShowAllData (ui w_previewed) (Ok (page_of [row 5 30] (Some 1000))) w_previewed ∧
  (∀ d, Ok (page_of [row 5 30] (Some 1000)) = Ok d →
     activeCode (ui (handleShowAllData (ui w_previewed)
                       (Ok (page_of [row 5 30] (Some 1000))) w_previewed)) = None ∧
     offset (ui (handleShowAllData (ui w_previewed)
                   (Ok (page_of [row 5 30] (Some 1000))) w_previewed)) = 0 ∧
     rawPreview (ui (handleShowAllData (ui w_previewed)
                       (Ok (page_of [row 5 30] (Some 1000))) w_previewed)) =
       list_or_empty (PageResponse.rows d)).
Proof.
  apply (overlay_reset_with_session w_previewed (Ok (page_of [row 5 30] (Some 1000))) "tok1").
  reflexivity.
Defined.

(** ** Paging *)

(** X11.  No call of [fetchPage], with whatever arguments and whatever answer,
    touches the dataset identity, the session token, the schema, the
    transcript, the highlight map, the undo stack, the undo count, the
    updated-row set, the question or the stored identity: highlights and
    history survive paging and overlay changes. *)
Theorem fetchPage_touches_window_only (w : World) (snap : State) (newOffset : Z)
    (newLimit : option Z) (es : option string) (co : option (option string))
    (resp : Fetch PageResponse.t) :
  outsidePage (ui (fetchPage snap newOffset newLimit es co resp w)) = outsidePage (ui w) ∧
  stored (fetchPage snap newOffset newLimit es co resp w) = stored w.
Proof.
  split; [|apply fetchPage_stored]. apply (frame_eq outsidePage). keeps.
Qed.

(** X12.  "Next" and "Prev", when enabled and a session exists, ask for the window
    one limit further or back (never below 0) under the current overlay
    code and the current limit; overlay code and limit stay as they are,
    and when the page arrives the offset is the requested one. *)
Theorem paging_moves_one_page (w : World) (page : Fetch PageResponse.t)
    (sess : string) :
  str_or_null (session (ui w)) = Some sess →
  (nextDisabled (ui w) = false →
     net (step w (ClickNext page)) =
       net w ++ [ReqPage sess (offset (ui w) + limit (ui w)) (limit (ui w))
                   (str_or_null (activeCode (ui w)))] ∧
     activeCode (ui (step w (ClickNext page))) = activeCode (ui w) ∧
     limit (ui (step w (ClickNext page))) = limit (ui w) ∧
     (∀ d, page = Ok d →
        offset (ui (step w (ClickNext page))) = offset (ui w) + limit (ui w))) ∧
  (prevDisabled (ui w) = false →
     net (step w (ClickPrev page)) =
       net w ++ [ReqPage sess (Z.max 0 (offset (ui w) - limit (ui w))) (limit (ui w))
                   (str_or_null (activeCode (ui w)))] ∧
     activeCode (ui (step w (ClickPrev page))) = activeCode (ui w) ∧
     limit (ui (step w (ClickPrev page))) = limit (ui w) ∧
     (∀ d, page = Ok d →
        offset (ui (step w (ClickPrev page))) = Z.max 0 (offset (ui w) - limit (ui w)))) ∧
  (nextDisabled (ui w) = true → step w (ClickNext page) = w) ∧
  (prevDisabled (ui w) = true → step w (ClickPrev page) = w).
Proof.
  intros Hsess.
  assert (truthy_ostr (session (ui w)) = true) as Hs.
  { unfold str_or_null in Hsess. by destruct (truthy_ostr (session (ui w))). }
  assert (∀ o, pageRequests (ui w) o None None None =
               [ReqPage sess o (limit (ui w)) (str_or_null (activeCode (ui w)))]) as Hreq.
  { intros o. unfold pageRequests. cbn [truthy_ostr]. rewrite Hsess. reflexivity. }
  unfold step. cbv zeta.
  split; [|split; [|split]]; intros ->; try reflexivity.
  - split; [by rewrite fetchPage_net, Hreq|]. split_conj.
    + apply (frame_eq activeCode). keeps.
    + apply (frame_eq limit). keeps.
    + intros d ->. unfold fetchPage. cbn [truthy_ostr]. rewrite Hsess.
      unfold try_fetch. cbv beta iota zeta. run_view offset. reflexivity.
  - split; [by rewrite fetchPage_net, Hreq|]. split_conj.
    + apply (frame_eq activeCode). keeps.
    + apply (frame_eq limit). keeps.
    + intros d ->. unfold fetchPage. cbn [truthy_ostr]. rewrite Hsess.
      unfold try_fetch. cbv beta iota zeta. run_view offset. reflexivity.
Qed.

Lemma paging_moves_one_page_witness :
  (nextDisabled (ui w_loaded) = false →
     net (step w_loaded (ClickNext (Ok (page_of [row 9 50] (Some 1000))))) =
       net w_loaded ++ [ReqPage "tok1" (offset (ui w_loaded) + limit (ui w_loaded))
                          (limit (ui w_loaded)) (str_or_null (activeCode (ui w_loaded)))] ∧
     activeCode (ui (step w_loaded (ClickNext (Ok (page_of [row 9 50] (Some 1000)))))) =
       activeCode (ui w_loaded) ∧
     limit (ui (step w_loaded (ClickNext (Ok (page_of [row 9 50] (Some 1000)))))) =
       limit (ui w_loaded) ∧
     (∀ d, Ok (page_of [row 9 50] (Some 1000)) = Ok d →
        offset (ui (step w_loaded (ClickNext (Ok (page_of [row 9 50] (Some 1000)))))) =
          offset (ui w_loaded) + limit (ui w_loaded))) ∧
  (prevDisabled (ui w_loaded) = false →
     net (step w_loaded (ClickPrev (Ok (page_of [row 9 50] (Some 1000))))) =
       net w_loaded ++ [ReqPage "tok1" (Z.max 0 (offset (ui w_loaded) - limit (ui w_loaded)))
                          (limit (ui w_loaded)) (str_or_null (activeCode (ui w_loaded)))] ∧
     activeCode (ui (step w_loaded (ClickPrev (Ok (page_of [row 9 50] (Some 1000)))))) =
       activeCode (ui w_loaded) ∧
     limit (ui (step w_loaded (ClickPrev (Ok (page_of [row 9 50] (Some 1000)))))) =
       limit (ui w_loaded) ∧
     (∀ d, Ok (page_of [row 9 50] (Some 1000)) = Ok d →
        offset (ui (step w_loaded (ClickPrev (Ok (page_of [row 9 50] (Some 1000)))))) =
          Z.max 0 (offset (ui w_loaded) - limit (ui w_loaded)))) ∧
  (nextDisabled (ui w_loaded) = true →
     step w_loaded (ClickNext (Ok (page_of [row 9 50] (Some 1000)))) = w_loaded) ∧
  (prevDisabled (ui w_loaded) = true →
     step w_loaded (ClickPrev (Ok (page_of [row 9 50] (Some 1000)))) = w_loaded).
Proof.
  apply (paging_moves_one_page w_loaded (Ok (page_of [row 9 50] (Some 1000))) "tok1").
  reflexivity.
Defined.

(** ** What every reachable state satisfies *)

Ltac state_cbn :=
  cbn [fst snd s3Path datasetId session columns rowCount question code
       preview offset limit activeCode loading paging error messages
       showLoadModal highlightedCells highlightStack filteredTotalCount
       rawPreview updatedRowIds lastUpdatedColumn undoCount
       with_s3Path with_datasetId with_session with_columns with_rowCount
       with_question with_code with_preview with_offset with_limit
       with_activeCode with_loading with_paging with_error with_messages
       with_showLoadModal with_highlightedCells with_highlightStack
       with_filteredTotalCount with_rawPreview with_updatedRowIds
       with_lastUpdatedColumn with_undoCount].

Lemma aligned_back d o : 0 < d → (d | o) → (d | Z.max 0 (o - d)).
Proof.
  intros Hd Ho. destruct (Z.max_spec 0 (o - d)) as [[_ ->]|[_ ->]].
  - apply Z.divide_sub_r; [done|apply Z.divide_refl].
  - apply Z.divide_0_r.
Qed.

Ltac aligned :=
  unfold preserves, pageAligned, pageView in *; cbn [fst snd] in *; state_cbn;
  intros (? & ? & ?);
  repeat match goal with H : _ ∧ _ |- _ => destruct H end;
  split_conj;
  first
    [ assumption
    | reflexivity
    | apply Z.divide_0_r
    | match goal with
      | HL : limit ?s = DEFAULT_PAGE_SIZE |- context [limit ?s] => rewrite HL
      end;
      first [ apply aligned_back; [done|assumption]
            | apply Z.divide_add_r; [assumption|apply Z.divide_refl]
            | unfold DEFAULT_PAGE_SIZE; lia ]
    | lia ].

Lemma step_pageAligned w e :
  pageAligned (pageView (ui w)) → pageAligned (pageView (ui (step w e))).
Proof.
  intros H. split_step e.
  all: lazymatch goal with
       | |- pageAligned (pageView (ui (mkWorld initial _ _))) =>
           repeat split; [done|apply Z.divide_0_r]
       | |- pageAligned (pageView (ui (?c (mkWorld initial ?n ?st)))) =>
           apply (tracks_elim pageView (preserves pageAligned) c (mkWorld initial n st));
             [unfold_handlers; tracks2_with aligned
             |repeat split; [done|apply Z.divide_0_r]]
       | |- pageAligned (pageView (ui (?c ?w0))) =>
           apply (tracks_elim pageView (preserves pageAligned) c w0);
             [unfold_handlers; tracks2_with aligned|assumption]
       end.
Qed.

Lemma fetchPage_lowers_paging snap o l es co resp w :
  paging (ui w) = false → paging (ui (fetchPage snap o l es co resp w)) = false.
Proof.
  intros H. unfold fetchPage. destruct (str_or_null _).
  - cbv zeta. unfold try_fetch. run_view paging. reflexivity.
  - run_view paging. exact H.
Qed.

Lemma fetchPage_tracks_paging snap o l es co resp :
  tracks paging (preserves (λ b, b = false)) (fetchPage snap o l es co resp).
Proof. unfold tracks, preserves. intros w H. by apply fetchPage_lowers_paging. Qed.

(** As [tracks_with], with [fetchPage] taken as one step. *)
Ltac tracks_paging :=
  unfold_setters; cbv beta zeta;
  repeat lazymatch goal with
  | |- PreOrder _ => apply _
  | |- tracks _ _ skip => apply tracks_skip
  | |- tracks _ _ (fetchJson _) => apply tracks_fetchJson
  | |- tracks _ _ (storage_set _) => apply tracks_storage_set
  | |- tracks _ _ storage_remove => apply tracks_storage_remove
  | |- tracks _ _ (upd _) => apply tracks_upd; intros ?; exact id
  | |- tracks _ _ (match ?x with _ => _ end) => destruct x; cbv beta zeta
  | |- tracks _ _ (_ ;; _) => apply tracks_seq
  | |- tracks _ _ (fetchPage _ _ _ _ _ _) => apply fetchPage_tracks_paging
  end.

Lemma step_idle w e : idle (ui w) → idle (ui (step w e)).
Proof.
  intros [Hl Hp]. split.
  - destruct e; unfold step; cbv zeta; rewrite ?Hl, ?Hp; cbn [orb];
      repeat lazymatch goal with
      | |- context [match ?x with _ => _ end] => destruct x
      end; try assumption.
    all: lazymatch goal with
         | |- loading (ui (mkWorld initial _ _)) = false => reflexivity
         | |- _ =>
             unfold_handlers;
             repeat lazymatch goal with
             | |- loading (ui ((match ?x with _ => _ end) _)) = _ => destruct x
             end;
             run_view loading; first [reflexivity|assumption]
         end.
  - destruct e; unfold step; cbv zeta; rewrite ?Hl, ?Hp; cbn [orb];
      repeat lazymatch goal with
      | |- context [match ?x with _ => _ end] => destruct x
      end; try assumption.
    all: lazymatch goal with
         | |- paging (ui (mkWorld initial _ _)) = false => reflexivity
         | |- paging (ui (?c (mkWorld initial ?n ?st))) = false =>
             apply (tracks_elim paging (preserves (λ b, b = false)) c
                      (mkWorld initial n st));
               [unfold_handlers; tracks_paging|reflexivity]
         | |- paging (ui (?c ?w0)) = false =>
             apply (tracks_elim paging (preserves (λ b, b = false)) c w0);
               [unfold_handlers; tracks_paging|assumption]
         end.
Qed.

Lemma palette_color draw : getRandomHighlightColor draw ∈ colors.
Proof.
  unfold getRandomHighlightColor.
  assert (draw `mod` length colors < length colors)%nat as Hlt
    by (apply Nat.mod_upper_bound; discriminate).
  destruct (lookup_lt_is_Some_2 colors _ Hlt) as [c Hc]. rewrite Hc.
  by apply list_elem_of_lookup_2 in Hc.
Qed.

Lemma palette_merge c ks m : c ∈ colors → inPalette m → inPalette (mergeHighlights c ks m).
Proof.
  intros Hc Hm k c'. rewrite lookup_mergeHighlights.
  destruct (decide (k ∈ ks)); [by intros [= <-]|apply Hm].
Qed.

Lemma palette_delete ks m : inPalette m → inPalette (deleteKeys ks m).
Proof.
  intros Hm k c'. rewrite lookup_deleteKeys.
  destruct (decide (k ∈ ks)); [done|apply Hm].
Qed.

Ltac palette :=
  unfold preserves; state_cbn; intros ?;
  first [ assumption
        | apply map_Forall_empty
        | apply palette_merge; [apply palette_color|assumption]
        | apply palette_delete; assumption ].

Lemma step_inPalette w e :
  inPalette (highlightedCells (ui w)) → inPalette (highlightedCells (ui (step w e))).
Proof.
  intros H. split_step e.
  all: lazymatch goal with
       | |- inPalette (highlightedCells (ui (mkWorld initial _ _))) =>
           apply map_Forall_empty
       | |- inPalette (highlightedCells (ui (?c (mkWorld initial ?n ?st)))) =>
           apply (tracks_elim highlightedCells (preserves inPalette) c
                    (mkWorld initial n st));
             [unfold_handlers; tracks_with palette|apply map_Forall_empty]
       | |- inPalette (highlightedCells (ui (?c ?w0))) =>
           apply (tracks_elim highlightedCells (preserves inPalette) c w0);
             [unfold_handlers; tracks_with palette|assumption]
       end.
Qed.

Lemma reachable_paging w :
  reachable w → pageAligned (pageView (ui w)) ∧ idle (ui w).
Proof.
  induction 1 as [st|w e _ [IH1 IH2]].
  - split; [repeat split; [done|apply Z.divide_0_r]|done].
  - split; [by apply step_pageAligned|by apply step_idle].
Qed.

(** X13.  In every reachable state the limit is the default page size, the offset
    is a non-negative whole number of pages, and neither busy flag is left
    raised: every handler that raises one lowers it again, on success and
    on failure. *)
Theorem reachable_page_aligned_and_idle (w : World) :
  reachable w →
  limit (ui w) = DEFAULT_PAGE_SIZE ∧
  0 ≤ offset (ui w) ∧
  (DEFAULT_PAGE_SIZE | offset (ui w)) ∧
  loading (ui w) = false ∧
  paging (ui w) = false.
Proof.
  intros Hw. destruct (reachable_paging w Hw) as [(? & ? & ?) [? ?]]. done.
Qed.

Lemma reachable_page_aligned_and_idle_witness :
  limit (ui w_page2) = DEFAULT_PAGE_SIZE ∧
  0 ≤ offset (ui w_page2) ∧
  (DEFAULT_PAGE_SIZE | offset (ui w_page2)) ∧
  loading (ui w_page2) = false ∧
  paging (ui w_page2) = false.
Proof.
  apply (reachable_page_aligned_and_idle w_page2).
  apply reach_step, reachable_run, reach_boot.
Defined.

(** X14.  In every reachable state the page indicator and the paging buttons
    agree: the offset is [(currentPage - 1) * limit], both page numbers are
    at least 1, "Prev" is disabled exactly on page 1 and "Next" exactly when
    the current page is the last one or beyond it. *)
Theorem page_indicator_agrees_with_buttons (w : World) :
  reachable w →
  offset (ui w) = (currentPage (ui w) - 1) * limit (ui w) ∧
  1 ≤ currentPage (ui w) ∧
  1 ≤ totalPages (ui w) ∧
  (prevDisabled (ui w) = true ↔ currentPage (ui w) = 1) ∧
  (nextDisabled (ui w) = true ↔ totalPages (ui w) ≤ currentPage (ui w)).
Proof.
  intros Hw. destruct (reachable_paging w Hw) as [(Hl & Ho & [k Hk]) [_ Hp]].
  unfold pageView in *. cbn [fst snd] in *.
  unfold currentPage, totalPages, prevDisabled, nextDisabled.
  rewrite Hp, Hl, Hk. unfold DEFAULT_PAGE_SIZE in *.
  rewrite Z.div_mul by done. cbn [orb].
  assert (0 ≤ k) by lia.
  split; [lia|]. split; [lia|]. split; [lia|]. split.
  - rewrite Z.eqb_eq. lia.
  - rewrite Z.leb_le.
    set (t := if truthy_num (shownTotal (ui w)) then shownTotal (ui w) else 1).
    pose proof (ceil_div_le t 500 (k + 1) ltac:(lia)) as Hc.
    assert (t ≤ (k + 1) * 500 ↔ shownTotal (ui w) ≤ k * 500 + 500) as Ht.
    { unfold t, truthy_num. destruct (Z.eqb_spec (shownTotal (ui w)) 0); simpl; lia. }
    lia.
Qed.

Lemma page_indicator_agrees_with_buttons_witness :
  offset (ui w_page2) = (currentPage (ui w_page2) - 1) * limit (ui w_page2) ∧
  1 ≤ currentPage (ui w_page2) ∧
  1 ≤ totalPages (ui w_page2) ∧
  (prevDisabled (ui w_page2) = true ↔ currentPage (ui w_page2) = 1) ∧
  (nextDisabled (ui w_page2) = true ↔ totalPages (ui w_page2) ≤ currentPage (ui w_page2)).
Proof.
  apply (page_indicator_agrees_with_buttons w_page2).
  apply reach_step, reachable_run, reach_boot.
Defined.

Lemma colors_truthy c : c ∈ colors → truthy_str c = true.
Proof.
  unfold colors. intros Hc.
  repeat (apply elem_of_cons in Hc as [->|Hc]; [reflexivity|]).
  by apply elem_of_nil in Hc.
Qed.

(** X15.  In every reachable state every colour in the highlight map is one of the
    eight entries of the palette, and so a non-empty string: a cell whose
    key is in the map is rendered with a background. *)
Theorem reachable_colors_from_palette (w : World) (k c : string) :
  reachable w →
  highlightedCells (ui w) !! k = Some c →
  c ∈ colors ∧ truthy_str c = true.
Proof.
  intros Hw Hk.
  assert (inPalette (highlightedCells (ui w))) as Hp.
  { clear Hk. induction Hw as [st|w e _ IH]; [apply map_Forall_empty|by apply step_inPalette]. }
  pose proof (Hp k c Hk) as Hc. split; [exact Hc|by apply colors_truthy].
Qed.

Lemma reachable_colors_from_palette_witness :
  "rgba(144, 238, 144, 0.6)"%string ∈ colors ∧
  truthy_str "rgba(144, 238, 144, 0.6)" = true.
Proof.
  apply (reachable_colors_from_palette w_one_op "5-age" "rgba(144, 238, 144, 0.6)").
  - apply reachable_run, reachable_run, reach_boot.
  - by vm_compute.
Defined.

(** ** The order of the rows in the table *)

Lemma insertBy_front {A} (cmp : A → A → Z) x l :
  (∀ y, y ∈ l → cmp x y ≤ 0) → insertBy cmp x l = x :: l.
Proof.
  intros H. destruct l as [|y l]; [done|]. simpl.
  destruct (Z.leb_spec (cmp x y) 0); [done|].
  specialize (H y ltac:(left)). lia.
Qed.

Lemma insertBy_after {A} (cmp : A → A → Z) x l1 l2 :
  (∀ y, y ∈ l1 → 0 < cmp x y) →
  (∀ y, y ∈ l2 → cmp x y ≤ 0) →
  insertBy cmp x (l1 ++ l2) = l1 ++ x :: l2.
Proof.
  intros H1 H2. induction l1 as [|y l1 IH]; simpl.
  - by apply insertBy_front.
  - destruct (Z.leb_spec (cmp x y) 0) as [Hle|_].
    + specialize (H1 y ltac:(left)). lia.
    + rewrite IH; [done|]. intros z Hz. apply H1. by right.
Qed.

Lemma sortBy_compareRows s l :
  sortBy (compareRows s) l =
    filter (λ p, hasHighlight s (RowPair.rawRow p)) l ++
    filter (λ p, ¬ hasHighlight s (RowPair.rawRow p)) l.
Proof.
  induction l as [|x l IH]; [done|]. simpl. rewrite IH.
  destruct (hasHighlight s (RowPair.rawRow x)) eqn:Hx.
  - rewrite filter_cons_True by (rewrite ?Hx; done).
    rewrite filter_cons_False by (rewrite ?Hx; simpl; tauto).
    apply insertBy_front. intros y _. unfold compareRows. rewrite Hx.
    by destruct (hasHighlight s (RowPair.rawRow y)).
  - rewrite filter_cons_False by (rewrite ?Hx; simpl; tauto).
    rewrite filter_cons_True by (rewrite ?Hx; simpl; tauto).
    apply insertBy_after.
    + intros y [Hy _]%list_elem_of_filter. unfold compareRows. rewrite Hx.
      by destruct (hasHighlight s (RowPair.rawRow y)).
    + intros y [Hy _]%list_elem_of_filter. unfold compareRows. rewrite Hx.
      by destruct (hasHighlight s (RowPair.rawRow y)).
Qed.

Lemma hasHighlight_empty s rawRow :
  highlightedCells s = ∅ → hasHighlight s rawRow = false.
Proof.
  intros He. unfold hasHighlight, cellColor. rewrite He.
  induction (tableColumns s) as [|c cs IH]; [done|]. simpl. rewrite IH.
  rewrite lookup_empty. rewrite bool_decide_eq_false_2; [done|]. by intros [? ?].
Qed.

(** X16.  The table body is a stable partition of the window: the rows that have
    a highlighted cell in one of the displayed columns come first, in the
    order the server sent them, then the others, in that order too; no row
    is lost or repeated, and each keeps its original index.  With an empty
    highlight map the order is the server's. *)
Theorem sortedPairs_stable_partition (s : State) :
  sortedPairs s =
    filter (λ p, hasHighlight s (RowPair.rawRow p)) (rowPairs s) ++
    filter (λ p, ¬ hasHighlight s (RowPair.rawRow p)) (rowPairs s) ∧
  sortedPairs s ≡ₚ rowPairs s ∧
  length (sortedPairs s) = length (preview s) ∧
  (∀ i p, rowPairs s !! i = Some p →
     RowPair.idx p = i ∧ preview s !! i = Some (RowPair.row p) ∧
     RowPair.rawRow p = rawPreview s !! i) ∧
  (highlightedCells s = ∅ → sortedPairs s = rowPairs s).
Proof.
  unfold sortedPairs. rewrite sortBy_compareRows.
  split; [done|]. split; [apply filter_app_complement|]. split; [|split].
  - rewrite (Permutation_length (filter_app_complement _ (rowPairs s))).
    unfold rowPairs. apply length_imap.
  - intros i p. unfold rowPairs. rewrite list_lookup_imap.
    destruct (preview s !! i) as [r|]; [|done]. by intros [= <-].
  - intros He.
    assert (∀ l : list RowPair.t,
      filter (λ p, hasHighlight s (RowPair.rawRow p)) l = [] ∧
      filter (λ p, ¬ hasHighlight s (RowPair.rawRow p)) l = l) as Hf.
    { induction l as [|x l [IH1 IH2]]; [done|].
      pose proof (hasHighlight_empty s (RowPair.rawRow x) He) as Hx.
      rewrite filter_cons_False by (rewrite Hx; simpl; tauto).
      rewrite filter_cons_True by (rewrite Hx; simpl; tauto).
      by rewrite IH1, IH2. }
    destruct (Hf (rowPairs s)) as [-> ->]. done.
Qed.

(** ** Keys of cells: from the response to the table and back to row ids *)

Lemma renderKey_row_id (r : Row) (n : Z) (col : string) :
  get ROW_ID r = Some (JNum n) → renderKey (Some r) col = cellKey n col.
Proof. intros H. unfold renderKey, rowIdOf, cellKey. simpl. by rewrite H. Qed.

(** X17.  After a response with updated cells, every cell it names is coloured in
    the table: in any row whose [__row_id] is the cell's row id, the cell
    under the cell's column is rendered with the colour of the operation as
    its background, and if that column is displayed the row counts as
    highlighted, which puts it in the leading group of the table. *)
Theorem runNLQ_mutation_colors_table (w : World) (draw : nat)
    (data : NLExprResponse.t) (page : Fetch PageResponse.t)
    (cells : list UpdatedCell.t) (c : UpdatedCell.t) (r : Row) :
  truthy_ostr (session (ui w)) = true →
  NLExprResponse.updated_cells data = Some cells →
  c ∈ cells →
  get ROW_ID r = Some (JNum (UpdatedCell.row_id c)) →
  cellStyle (ui (runNLQ (ui w) draw (Ok data) page w)) (Some r) (UpdatedCell.column c) =
    Some (getRandomHighlightColor draw) ∧
  (UpdatedCell.column c ∈ tableColumns (ui (runNLQ (ui w) draw (Ok data) page w)) →
   hasHighlight (ui (runNLQ (ui w) draw (Ok data) page w)) (Some r) = true).
Proof.
  intros Hs Hc Hin Hr.
  assert (isUpdateOperation data = true) as Hu.
  { unfold isUpdateOperation. rewrite Hc. destruct cells; [by apply elem_of_nil in Hin|done]. }
  destruct (runNLQ_mutation_cells w draw data page Hs Hu) as (Hm & _ & _).
  assert (cellColor (ui (runNLQ (ui w) draw (Ok data) page w)) (Some r)
            (UpdatedCell.column c) = Some (getRandomHighlightColor draw)) as Hcol.
  { unfold cellColor. rewrite Hm, (renderKey_row_id r _ _ Hr), lookup_mergeHighlights.
    rewrite decide_True; [done|]. rewrite Hc. unfold operationKeysOf.
    apply list_elem_of_fmap. by exists c. }
  split.
  - unfold cellStyle. rewrite Hcol. apply str_or_null_Some.
    apply colors_truthy, palette_color.
  - intros Hcolumn. unfold hasHighlight.
    apply existsb_exists. exists (UpdatedCell.column c).
    split; [by apply list_elem_of_In|]. rewrite Hcol. by apply bool_decide_eq_true_2.
Qed.

Lemma runNLQ_mutation_colors_table_witness :
  cellStyle
    (ui (runNLQ (ui w_loaded) 2 (Ok (mutation [cell 5 "30" "31"] 1))
           (Ok (page_of [row 5 31] (Some 1000))) w_loaded))
    (Some (row 5 31)) (UpdatedCell.column (cell 5 "30" "31")) =
    Some (getRandomHighlightColor 2) ∧
  (UpdatedCell.column (cell 5 "30" "31") ∈
     tableColumns (ui (runNLQ (ui w_loaded) 2 (Ok (mutation [cell 5 "30" "31"] 1))
                         (Ok (page_of [row 5 31] (Some 1000))) w_loaded)) →
   hasHighlight
     (ui (runNLQ (ui w_loaded) 2 (Ok (mutation [cell 5 "30" "31"] 1))
            (Ok (page_of [row 5 31] (Some 1000))) w_loaded))
     (Some (row 5 31)) = true).
Proof.
  apply (runNLQ_mutation_colors_table w_loaded 2 (mutation [cell 5 "30" "31"] 1)
           (Ok (page_of [row 5 31] (Some 1000))) [cell 5 "30" "31"] (cell 5 "30" "31")
           (row 5 31)).
  - reflexivity.
  - reflexivity.
  - left.
  - reflexivity.
Defined.

(** ** From a cell key back to the row id *)

Lemma string_app_assoc (a b c : string) : (a +:+ b) +:+ c = a +:+ (b +:+ c).
Proof.
  induction a as [|x a IH]; [done|].
  change (String x ((a +:+ b) +:+ c) = String x (a +:+ (b +:+ c))). by rewrite IH.
Qed.

Lemma all_digits_app a b : all_digits (a +:+ b) = all_digits a && all_digits b.
Proof.
  induction a as [|x a IH]; [done|].
  change (bool_decide (is_Some (digit_of x)) && all_digits (a +:+ b) =
          bool_decide (is_Some (digit_of x)) && all_digits a && all_digits b).
  by rewrite IH, andb_assoc.
Qed.

Lemma digit_of_pretty_N_char d :
  (d < 10)%N → digit_of (pretty_N_char d) = Some (Z.of_N d).
Proof.
  intros H.
  assert (d = 0 ∨ d = 1 ∨ d = 2 ∨ d = 3 ∨ d = 4 ∨ d = 5 ∨ d = 6 ∨ d = 7 ∨
          d = 8 ∨ d = 9)%N as Hd by lia.
  repeat destruct Hd as [->|Hd]; try subst d; reflexivity.
Qed.

Lemma digit_not_dash c : is_Some (digit_of c) → Ascii.eqb c dash = false.
Proof.
  intros [d H]. destruct (Ascii.eqb_spec c dash) as [->|]; [|done].
  vm_compute in H. discriminate.
Qed.

Lemma digit_not_space c : is_Some (digit_of c) → is_space c = false.
Proof.
  unfold digit_of, is_space. cbv zeta. intros [d H].
  destruct ((48 <=? Z.of_N (N_of_ascii c)) && (Z.of_N (N_of_ascii c) <=? 57)) eqn:E;
    [|discriminate].
  apply andb_true_iff in E as [E1%Z.leb_le E2%Z.leb_le].
  apply orb_false_iff. split; [apply N.eqb_neq; lia|].
  apply andb_false_iff. right. apply N.leb_gt. lia.
Qed.

Lemma before_dash_digits p t :
  all_digits p = true → before_dash (p +:+ String dash t) = p.
Proof.
  induction p as [|c p IH]; [reflexivity|]. intros Hp.
  change (bool_decide (is_Some (digit_of c)) && all_digits p = true) in Hp.
  apply andb_true_iff in Hp as [Hc Hp]. apply bool_decide_eq_true_1 in Hc.
  change (before_dash (String c p +:+ String dash t)) with
    (if Ascii.eqb c dash then EmptyString
     else String c (before_dash (p +:+ String dash t))).
  by rewrite (digit_not_dash c Hc), IH.
Qed.

Lemma read_digits_snoc p c d t acc :
  all_digits p = true → digit_of c = Some d →
  read_digits (p +:+ String c t) acc =
    read_digits t (Some (10 * default 0 (read_digits p acc) + d)).
Proof.
  intros Hp Hc. revert acc. induction p as [|a p IH]; intros acc.
  - change (read_digits ("" +:+ String c t) acc) with
      (match digit_of c with
       | Some d => read_digits t (Some (10 * default 0 acc + d))
       | None => acc
       end).
    by rewrite Hc.
  - change (bool_decide (is_Some (digit_of a)) && all_digits p = true) in Hp.
    apply andb_true_iff in Hp as [Ha Hp].
    apply bool_decide_eq_true_1 in Ha. destruct Ha as [da Ha].
    change (read_digits (String a p +:+ String c t) acc) with
      (match digit_of a with
       | Some d => read_digits (p +:+ String c t) (Some (10 * default 0 acc + d))
       | None => acc
       end).
    change (read_digits (String a p) acc) with
      (match digit_of a with
       | Some d => read_digits p (Some (10 * default 0 acc + d))
       | None => acc
       end).
    rewrite Ha. by apply IH.
Qed.

Lemma pretty_N_go_app x s : pretty_N_go x s = pretty_N_go x "" +:+ s.
Proof.
  revert s. induction (N.lt_wf_0 x) as [x _ IH]. intros s.
  assert (x = 0 ∨ 0 < x)%N as [->|Hx] by lia; [by rewrite !pretty_N_go_0|].
  rewrite (pretty_N_go_step x s Hx), (pretty_N_go_step x "" Hx).
  assert (x `div` 10 < x)%N as Hlt by (by apply N.div_lt).
  rewrite (IH _ Hlt (String (pretty_N_char (x `mod` 10)) s)).
  rewrite (IH _ Hlt (String (pretty_N_char (x `mod` 10)) "")).
  by rewrite string_app_assoc.
Qed.

(** The decimal numeral of a positive number is a non-empty run of digits
    that reads back as the number. *)
Lemma pretty_N_go_digits x :
  (0 < x)%N →
  all_digits (pretty_N_go x "") = true ∧
  read_digits (pretty_N_go x "") None = Some (Z.of_N x).
Proof.
  induction (N.lt_wf_0 x) as [x _ IH]. intros Hx.
  rewrite pretty_N_go_step, pretty_N_go_app by done.
  assert (x `mod` 10 < 10)%N as Hd by (by apply N.mod_lt).
  pose proof (digit_of_pretty_N_char _ Hd) as Hc.
  pose proof (N.div_mod x 10 ltac:(done)) as Hdm.
  assert (x `div` 10 = 0 ∨ 0 < x `div` 10)%N as [Hq|Hq] by lia.
  - rewrite Hq, pretty_N_go_0. simpl. rewrite Hc. split; [done|]. f_equal. lia.
  - destruct (IH (x `div` 10)%N ltac:(by apply N.div_lt) Hq) as [IH1 IH2]. split.
    + rewrite all_digits_app, IH1. simpl. rewrite Hc. done.
    + rewrite (read_digits_snoc _ _ _ _ _ IH1 Hc), IH2. simpl. f_equal. lia.
Qed.

Lemma parseInt10_digits c r :
  is_Some (digit_of c) → parseInt10 (String c r) = read_digits (String c r) None.
Proof.
  intros H. unfold parseInt10. cbn [skip_spaces]. rewrite (digit_not_space c H).
  destruct H as [d H].
  destruct c as [[] [] [] [] [] [] [] []];
    first [reflexivity | vm_compute in H; discriminate].
Qed.

Lemma numberToString_safe n : isSafeInteger n = true → numberToString n = pretty n.
Proof.
  unfold isSafeInteger, numberToString, MAX_SAFE_INTEGER, EXPONENT_FROM.
  intros H%Z.leb_le. rewrite (proj2 (Z.ltb_lt _ _)); [done|lia].
Qed.

Lemma cellKey_digits (n : Z) (col : string) :
  isSafeInteger n = true →
  before_dash (cellKey n col) = (if 0 <=? n then pretty n else ""%string) ∧
  parseInt10 (before_dash (cellKey n col)) = if 0 <=? n then Some n else None.
Proof.
  intros Hn. unfold cellKey. rewrite (numberToString_safe n Hn). clear Hn.
  destruct n as [|p|p]; [done| |done].
  change (0 <=? Z.pos p) with true. cbv iota.
  assert (pretty (Z.pos p) = pretty_N_go (N.pos p) "") as -> by reflexivity.
  destruct (pretty_N_go_digits (N.pos p) ltac:(done)) as [Hd Hr].
  change ("-" +:+ col) with (String dash col).
  rewrite (before_dash_digits _ _ Hd). split; [done|].
  destruct (pretty_N_go (N.pos p) "") as [|c r]; [done|].
  simpl in Hd. apply andb_true_iff in Hd as [Hc _].
  apply bool_decide_eq_true_1 in Hc. by rewrite (parseInt10_digits c r Hc).
Qed.

(** ** The updated-row set and the undo stack *)

Lemma elem_of_rowIdsOf_keys (op : list string) (acc : gset Z) n :
  n ∈ foldl (λ acc' key,
               match parseInt10 (before_dash key) with
               | Some rowId => {[ rowId ]} ∪ acc'
               | None => acc'
               end) acc op ↔
  n ∈ acc ∨ ∃ key, key ∈ op ∧ parseInt10 (before_dash key) = Some n.
Proof.
  revert acc. induction op as [|k op IH]; intros acc; simpl.
  - split; [auto|]. intros [?|(? & H & _)]; [done|by apply elem_of_nil in H].
  - rewrite IH. split.
    + intros [H|(key & ? & ?)].
      * destruct (parseInt10 (before_dash k)) as [m|] eqn:Hk; [|by left].
        apply elem_of_union in H as [->%elem_of_singleton|?]; [|by left].
        right. exists k. split; [left|done].
      * right. exists key. split; [by right|done].
    + intros [H|(key & [->|?]%elem_of_cons & Hkey)].
      * left. destruct (parseInt10 (before_dash k)); [|done].
        apply elem_of_union. by right.
      * left. rewrite Hkey. apply elem_of_union. left. by apply elem_of_singleton.
      * right. by exists key.
Qed.

Lemma elem_of_rowIdsOf stack n :
  n ∈ rowIdsOf stack ↔
  ∃ op key, op ∈ stack ∧ key ∈ op ∧ parseInt10 (before_dash key) = Some n.
Proof.
  unfold rowIdsOf.
  cut (∀ acc : gset Z,
         n ∈ foldl (λ acc opKeys,
                      foldl (λ acc' key,
                               match parseInt10 (before_dash key) with
                               | Some rowId => {[ rowId ]} ∪ acc'
                               | None => acc'
                               end) acc opKeys) acc stack ↔
         n ∈ acc ∨
         ∃ op key, op ∈ stack ∧ key ∈ op ∧ parseInt10 (before_dash key) = Some n).
  { intros H. rewrite H. split; [intros [?|?]; [set_solver|done]|by right]. }
  induction stack as [|o stack IH]; intros acc; simpl.
  - split; [auto|]. intros [?|(? & ? & H & _)]; [done|by apply elem_of_nil in H].
  - rewrite IH, elem_of_rowIdsOf_keys. split.
    + intros [[?|(key & ? & ?)]|(op & key & ? & ? & ?)].
      * by left.
      * right. exists o, key. split; [left|done].
      * right. exists op, key. split; [by right|done].
    + intros [?|(op & key & [->|?]%elem_of_cons & ? & ?)].
      * left. by left.
      * left. right. by exists key.
      * right. by exists op, key.
Qed.

Lemma elem_of_rowIdsOf_snoc stack cells n :
  forallb (λ cell, isSafeInteger (UpdatedCell.row_id cell)) cells = true →
  n ∈ rowIdsOf (stack ++ [operationKeysOf cells]) ↔
  n ∈ rowIdsOf stack ∨
  (0 ≤ n ∧ ∃ cell, cell ∈ cells ∧ UpdatedCell.row_id cell = n).
Proof.
  intros Hsafe.
  assert (∀ cell, cell ∈ cells → isSafeInteger (UpdatedCell.row_id cell) = true) as Hs.
  { intros cell Hcell. apply (proj1 (forallb_forall _ _) Hsafe).
    by apply list_elem_of_In. }
  rewrite !elem_of_rowIdsOf. split.
  - intros (op & key & [?|Hop%list_elem_of_singleton]%elem_of_app & Hkey & Hp).
    + left. by exists op, key.
    + right. subst op. unfold operationKeysOf in Hkey.
      apply list_elem_of_fmap in Hkey as (cell & -> & Hcell).
      destruct (cellKey_digits (UpdatedCell.row_id cell) (UpdatedCell.column cell)
                  (Hs cell Hcell)) as [_ Hrt].
      rewrite Hrt in Hp.
      destruct (Z.leb_spec 0 (UpdatedCell.row_id cell)); [|done].
      injection Hp as <-. split; [done|]. by exists cell.
  - intros [(op & key & ? & ? & ?)|(Hn & cell & Hcell & <-)].
    + exists op, key. split; [apply elem_of_app; by left|done].
    + exists (operationKeysOf cells),
        (cellKey (UpdatedCell.row_id cell) (UpdatedCell.column cell)).
      split; [apply elem_of_app; right; by apply list_elem_of_singleton|].
      split; [unfold operationKeysOf; apply list_elem_of_fmap; by exists cell|].
      destruct (cellKey_digits (UpdatedCell.row_id cell) (UpdatedCell.column cell)
                  (Hs cell Hcell)) as [_ ->].
      by destruct (Z.leb_spec 0 (UpdatedCell.row_id cell)); [|lia].
Qed.

(** X18.  For a row id that is a safe integer, the key of a cell, taken
    apart the way the undo does it, gives the row id back when the id is not
    negative: the text before the first dash is its decimal numeral.  For a
    negative id that text is empty and no id is read.  So, when the row ids
    of a response's cells are safe integers, the row ids the undo rebuilds
    from a stack to which the keys of the response were pushed are those of
    the stack before and the non-negative row ids of the cells, whatever
    the column names are.  The bound is needed: the key of the id 10^21
    starts with "1e+21" and reads back as 1. *)
Theorem cellKey_parse_round_trip (n : Z) (col : string) (stack : list (list string))
    (cells : list UpdatedCell.t) :
  isSafeInteger n = true →
  forallb (λ cell, isSafeInteger (UpdatedCell.row_id cell)) cells = true →
  before_dash (cellKey n col) = (if 0 <=? n then pretty n else ""%string) ∧
  parseInt10 (before_dash (cellKey n col)) = (if 0 <=? n then Some n else None) ∧
  (∀ m, m ∈ rowIdsOf (stack ++ [operationKeysOf cells]) ↔
        m ∈ rowIdsOf stack ∨
        (0 ≤ m ∧ ∃ cell, cell ∈ cells ∧ UpdatedCell.row_id cell = m)) ∧
  before_dash (cellKey EXPONENT_FROM col) = "1e+21"%string ∧
  parseInt10 (before_dash (cellKey EXPONENT_FROM col)) = Some 1.
Proof.
  intros Hn Hcells. destruct (cellKey_digits n col Hn) as [Hb Hp].
  split; [exact Hb|]. split; [exact Hp|].
  split; [intros m; by apply elem_of_rowIdsOf_snoc|].
  split; reflexivity.
Qed.

Lemma cellKey_parse_round_trip_witness :
  before_dash (cellKey 5 "age") = (if 0 <=? 5 then pretty 5 else ""%string) ∧
  parseInt10 (before_dash (cellKey 5 "age")) = (if 0 <=? 5 then Some 5 else None) ∧
  (∀ m, m ∈ rowIdsOf ([["7-age"%string]] ++ [operationKeysOf [cell 5 "30" "31"; cell (-3) "1" "2"]]) ↔
        m ∈ rowIdsOf [["7-age"%string]] ∨
        (0 ≤ m ∧ ∃ c, c ∈ [cell 5 "30" "31"; cell (-3) "1" "2"] ∧ UpdatedCell.row_id c = m)) ∧
  before_dash (cellKey EXPONENT_FROM "age") = "1e+21"%string ∧
  parseInt10 (before_dash (cellKey EXPONENT_FROM "age")) = Some 1.
Proof.
  apply (cellKey_parse_round_trip 5 "age" [["7-age"%string]]
           [cell 5 "30" "31"; cell (-3) "1" "2"]); reflexivity.
Defined.

Lemma runNLQ_rowIds snap draw resp page w :
  idsView (ui (runNLQ snap draw resp page w)) = idsView (ui w) ∨
  ∃ data, resp = Ok data ∧
    idsView (ui (runNLQ snap draw resp page w)) =
      (mergeRowIds (list_or_empty (NLExprResponse.updated_cells data))
         (updatedRowIds (ui w)),
       highlightStack (ui w) ++
         [operationKeysOf (list_or_empty (NLExprResponse.updated_cells data))]).
Proof.
  unfold runNLQ. destruct (str_or_null (session snap)); [|by left].
  destruct resp as [data|msg]; unfold try_fetch;
    [|left; apply (frame_eq idsView); keeps].
  destruct (isUpdateOperation data) eqn:E; cbv beta iota zeta.
  - right. exists data. split; [done|]. unfold idsView. f_equal.
    + run_view updatedRowIds. reflexivity.
    + run_view highlightStack. reflexivity.
  - left. apply (frame_eq idsView). keeps.
Qed.

Lemma handleUndo_rowIds resp page w :
  idsView (ui (handleUndo (ui w) resp page w)) = idsView (ui w) ∨
  ∃ op, last (highlightStack (ui w)) = Some op ∧
        idsView (ui (handleUndo (ui w) resp page w)) =
          (rowIdsOf (dropLast (highlightStack (ui w))), dropLast (highlightStack (ui w))).
Proof.
  destruct (str_or_null (datasetId (ui w))) as [did|] eqn:Hd;
    [|left; unfold handleUndo; by rewrite Hd].
  destruct (str_or_null (session (ui w))) as [sess|] eqn:Hs;
    [|left; unfold handleUndo; by rewrite Hd, Hs].
  destruct resp as [d|msg];
    [|left; unfold handleUndo; rewrite Hd, Hs; apply (frame_eq idsView); keeps].
  destruct (UndoResponse.success d) eqn:Hok;
    [|left; unfold handleUndo, try_fetch; rewrite Hd, Hs, Hok;
      apply (frame_eq idsView); keeps].
  destruct (last (highlightStack (ui w))) as [op|] eqn:Hlast.
  - right. exists op. split; [done|].
    destruct (handleUndo_pop (ui w) d page w did sess op Hd Hs Hok Hlast)
      as (H1 & _ & H3).
    unfold idsView. by rewrite H1, H3.
  - left. unfold handleUndo, try_fetch. rewrite Hd, Hs, Hok, Hlast.
    apply (frame_eq idsView). keeps.
Qed.

(** What one event does to the updated-row set and the undo stack. *)
Lemma step_rowIds w e :
  safeIds e = true →
  idsView (ui (step w e)) = idsView (ui w) ∨
  idsView (ui (step w e)) = (∅, []) ∨
  (∃ cells, forallb (λ cell, isSafeInteger (UpdatedCell.row_id cell)) cells = true ∧
            idsView (ui (step w e)) =
              (mergeRowIds cells (updatedRowIds (ui w)),
               highlightStack (ui w) ++ [operationKeysOf cells])) ∨
  (∃ op, last (highlightStack (ui w)) = Some op ∧
         idsView (ui (step w e)) =
           (rowIdsOf (dropLast (highlightStack (ui w))), dropLast (highlightStack (ui w)))).
Proof.
  intros Hsafe. destruct e; unfold step; cbv zeta;
    repeat lazymatch goal with
    | |- context [match ?x with _ => _ end] => destruct x
    end; try (by left).
  all: lazymatch goal with
       | |- idsView (ui (mkWorld initial _ _)) = _ ∨ _ => right; by left
       | |- idsView (ui (openDataset ?a ?b ?c ?d (mkWorld initial ?n ?st))) = _ ∨ _ =>
           right; left;
           rewrite (frame_eq idsView (openDataset a b c d) (mkWorld initial n st));
             [reflexivity|unfold openDataset; keeps]
       | |- idsView (ui (runNLQ ?a ?b ?c ?d ?w0)) = _ ∨ _ =>
           destruct (runNLQ_rowIds a b c d w0) as [H|(data & Hdata & H)];
             [by left|];
           right; right; left; subst;
           exists (list_or_empty (NLExprResponse.updated_cells data));
           split; [exact Hsafe|exact H]
       | |- idsView (ui (handleUndo (ui ?w0) ?b ?c ?w0)) = _ ∨ _ =>
           destruct (handleUndo_rowIds b c w0) as [H|H];
             [by left|by right; right; right]
       | |- idsView (ui (handleClearHighlights _)) = _ ∨ _ => right; by left
       | |- idsView (ui (?c ?w0)) = _ ∨ _ =>
           left; apply (frame_eq idsView c w0); unfold_handlers; keeps
       end.
Qed.

Lemma idsAgree_initial : idsAgree (∅, []).
Proof.
  intros n. cbn [fst snd]. rewrite elem_of_rowIdsOf. split.
  - intros (? & ? & H & _). by apply elem_of_nil in H.
  - intros [H _]. by apply elem_of_empty in H.
Qed.

Lemma step_idsAgree w e :
  safeIds e = true → idsAgree (idsView (ui w)) → idsAgree (idsView (ui (step w e))).
Proof.
  intros Hsafe IH.
  destruct (step_rowIds w e Hsafe) as [H|[H|[(cells & Hcells & H)|(op & Hop & H)]]];
    rewrite H; clear H.
  - exact IH.
  - apply idsAgree_initial.
  - unfold idsAgree, idsView in *; cbn [fst snd] in *; intros n.
    rewrite (elem_of_rowIdsOf_snoc _ _ _ Hcells), elem_of_mergeRowIds, IH.
    naive_solver.
  - unfold idsAgree, idsView in *; cbn [fst snd] in *; intros n.
    split; [|tauto]. intros Hn. split; [done|].
    apply (IH n). rewrite elem_of_rowIdsOf in Hn |- *.
    destruct Hn as (o & key & Ho & Hkey).
    exists o, key. split; [|done].
    rewrite (last_dropLast _ _ Hop). apply elem_of_app. by left.
Qed.

Lemma run_idsAgree st es :
  forallb safeIds es = true → idsAgree (idsView (ui (run (boot st) es))).
Proof.
  induction es as [|e es IH] using rev_ind; intros Hsafe.
  - apply idsAgree_initial.
  - rewrite forallb_app in Hsafe. apply andb_true_iff in Hsafe as [Hes He].
    simpl in He. rewrite andb_true_r in He.
    unfold run. rewrite foldl_app. simpl. apply step_idsAgree; [done|].
    by apply IH.
Qed.

(** X19.  After any sequence of events, each handled to completion, that
    starts from a fresh page and in which every updated cell received has a
    safe integer as its row id, the row ids the undo would rebuild from the
    whole stack are the non-negative members of the updated-row set: the
    set follows the stack through mutations, undos and clearing. *)
Theorem reachable_updated_rows_match_stack (st : option string) (es : list Event)
    (n : Z) :
  forallb safeIds es = true →
  (n ∈ rowIdsOf (highlightStack (ui (run (boot st) es))) ↔
   n ∈ updatedRowIds (ui (run (boot st) es)) ∧ 0 ≤ n).
Proof. intros Hsafe. apply (run_idsAgree st es Hsafe n). Qed.

Lemma reachable_updated_rows_match_stack_witness :
  5 ∈ rowIdsOf
        (highlightStack
           (ui (run (boot None)
                  [ClickLoad (Ok loaded) (Ok (page_of [row 5 30; row 7 40] (Some 1000)));
                   ClickSend 2 (Ok (mutation [cell 5 "30" "31"; cell (-3) "1" "2"] 1))
                     (Ok (page_of [row 5 31; row 7 40] (Some 1000)))]))) ↔
  5 ∈ updatedRowIds
        (ui (run (boot None)
               [ClickLoad (Ok loaded) (Ok (page_of [row 5 30; row 7 40] (Some 1000)));
                ClickSend 2 (Ok (mutation [cell 5 "30" "31"; cell (-3) "1" "2"] 1))
                  (Ok (page_of [row 5 31; row 7 40] (Some 1000)))])) ∧ 0 ≤ 5.
Proof.
  apply (reachable_updated_rows_match_stack None
           [ClickLoad (Ok loaded) (Ok (page_of [row 5 30; row 7 40] (Some 1000)));
            ClickSend 2 (Ok (mutation [cell 5 "30" "31"; cell (-3) "1" "2"] 1))
              (Ok (page_of [row 5 31; row 7 40] (Some 1000)))] 5).
  reflexivity.
Defined.

(** ** The shape of the turns *)

(** As [tracks_with], but every branch remembers the case it is in. *)
Ltac tracks_cases_with tac :=
  unfold_setters; cbv beta zeta;
  repeat lazymatch goal with
  | |- PreOrder _ => apply _
  | |- tracks _ _ skip => apply tracks_skip
  | |- tracks _ _ (fetchJson _) => apply tracks_fetchJson
  | |- tracks _ _ (storage_set _) => apply tracks_storage_set
  | |- tracks _ _ storage_remove => apply tracks_storage_remove
  | |- tracks _ _ (upd _) => apply tracks_upd; intros ?; tac
  | |- tracks _ _ (match ?x with _ => _ end) => destruct x eqn:?; cbv beta zeta
  | |- tracks _ _ (_ ;; _) => apply tracks_seq
  | |- tracks _ _ (fetchPage _ _ _ _ _ _) => unfold fetchPage; cbv beta zeta; unfold_setters
  end.

Lemma stripRowId_no_row_id rows : Forall (λ r, get ROW_ID r = None) (stripRowId rows).
Proof.
  unfold stripRowId. apply Forall_forall. intros r Hr.
  apply list_elem_of_fmap in Hr as (r0 & -> & _). apply get_rest_without_eq.
Qed.

Lemma isUpdateOperation_count data :
  isUpdateOperation data = true →
  1 ≤ Z.of_nat (length (list_or_empty (NLExprResponse.updated_cells data))).
Proof.
  unfold isUpdateOperation.
  destruct (NLExprResponse.updated_cells data) as [[|c cells]|]; try discriminate.
  intros _. simpl. lia.
Qed.

Ltac turn_shape :=
  unfold preserves; cbn; intros ?;
  first
    [ assumption
    | apply Forall_nil_2
    | apply Forall_app_2; [assumption|];
      repeat constructor; unfold turnShape; cbn;
      first
        [ exact I
        | eexists; split; [reflexivity|by apply isUpdateOperation_count]
        | eexists _, _; split; [reflexivity|];
          split; [rewrite length_take; lia|];
          split; [apply Forall_take, stripRowId_no_row_id|reflexivity] ] ].

Lemma step_turnShape w e :
  Forall turnShape (messages (ui w)) → Forall turnShape (messages (ui (step w e))).
Proof.
  intros H. destruct e; unfold step; cbv zeta;
    repeat lazymatch goal with
    | |- context [match ?x with _ => _ end] => destruct x
    end; try assumption.
  all: lazymatch goal with
       | |- Forall _ (messages (ui (mkWorld initial _ _))) => apply Forall_nil_2
       | |- Forall _ (messages (ui (?c (mkWorld initial ?n ?st)))) =>
           apply (tracks_elim messages (preserves (Forall turnShape)) c
                    (mkWorld initial n st)); [|apply Forall_nil_2]
       | |- Forall _ (messages (ui (?c ?w0))) =>
           apply (tracks_elim messages (preserves (Forall turnShape)) c w0);
             [|assumption]
       end.
  all: unfold_handlers; tracks_cases_with turn_shape.
Qed.

Lemma reachable_turnShape w : reachable w → Forall turnShape (messages (ui w)).
Proof.
  induction 1 as [st|w e _ IH]; [apply Forall_nil_2|by apply step_turnShape].
Qed.

(** X20.  Every turn of a reachable transcript renders through a live branch of
    the markup.  No turn is a "code" turn, so the caption "Generated Polars"
    and the bare code body never appear.  A user turn is captioned "You"
    and shows its text.  An update turn always carries its count, at least
    one.  A preview turn always carries its rows, at most ten and without
    [__row_id], so it never falls through to the plain-text body. *)
Theorem reachable_transcript_turns (w : World) (m : ChatTurn.t) :
  reachable w →
  m ∈ messages (ui w) →
  turnLabel m ≠ "Generated Polars"%string ∧
  (∀ c, turnBody m ≠ BodyCode c) ∧
  (ChatTurn.role m = user →
     turnLabel m = "You"%string ∧ turnBody m = BodyText (ChatTurn.text m)) ∧
  (ChatTurn.kind m = Some KUpdate →
     ∃ n, turnBody m = BodyUpdate (Some n) (ChatTurn.text m) ∧ 1 ≤ n) ∧
  (ChatTurn.kind m = Some KPreview →
     ∃ rows, turnBody m = BodyPreview (ChatTurn.text m) rows ∧
             (length rows ≤ 10)%nat ∧ ∀ r, r ∈ rows → get ROW_ID r = None).
Proof.
  intros Hw Hm.
  pose proof (proj1 (Forall_forall _ _) (reachable_turnShape w Hw) m Hm) as Hs.
  unfold turnShape, turnLabel, turnBody in *.
  destruct (ChatTurn.role m), (ChatTurn.kind m) as [[]|]; try done;
    split_conj; try done.
  - intros c. by destruct (ChatTurn.previewData m).
  - intros _. destruct Hs as (rows & n & Hd & Hlen & Hrows & _).
    exists rows. rewrite Hd. split; [done|]. split; [done|]. by apply Forall_forall.
  - intros _. destruct Hs as (n & Hc & Hn). exists n. by rewrite Hc.
Qed.

Lemma reachable_transcript_turns_witness :
  turnLabel preview_turn ≠ "Generated Polars"%string ∧
  (∀ c, turnBody preview_turn ≠ BodyCode c) ∧
  (ChatTurn.role preview_turn = user →
     turnLabel preview_turn = "You"%string ∧
     turnBody preview_turn = BodyText (ChatTurn.text preview_turn)) ∧
  (ChatTurn.kind preview_turn = Some KUpdate →
     ∃ n, turnBody preview_turn = BodyUpdate (Some n) (ChatTurn.text preview_turn) ∧ 1 ≤ n) ∧
  (ChatTurn.kind preview_turn = Some KPreview →
     ∃ rows, turnBody preview_turn = BodyPreview (ChatTurn.text preview_turn) rows ∧
             (length rows ≤ 10)%nat ∧ ∀ r, r ∈ rows → get ROW_ID r = None).
Proof.
  apply (reachable_transcript_turns w_previewed preview_turn).
  - apply reachable_run, reachable_run, reach_boot.
  - vm_compute. right. left.
Defined.

(** ** Events without a session *)

(** X21.  While there is no session, no event but a load or a restart sends a
    request, writes the durable slot, or changes the dataset identity, the
    session, the window or the transcript.  "Send", "Prev" and "Next", when
    enabled, raise "Load a dataset first"; "Undo", when enabled, raises
    "No dataset loaded"; the overlay buttons raise nothing. *)
Theorem no_session_no_request (w : World) (e : Event) :
  truthy_ostr (session (ui w)) = false →
  needsSession e = true →
  net (step w e) = net w ∧
  stored (step w e) = stored w ∧
  sessionWindow (ui (step w e)) = sessionWindow (ui w) ∧
  error (ui (step w e)) =
    match e with
    | ClickSend _ _ _ =>
        if loading (ui w) then error (ui w) else Some "Load a dataset first"%string
    | ClickPrev _ =>
        if prevDisabled (ui w) then error (ui w) else Some "Load a dataset first"%string
    | ClickNext _ =>
        if nextDisabled (ui w) then error (ui w) else Some "Load a dataset first"%string
    | ClickUndo _ _ =>
        if undoDisabled (ui w) then error (ui w) else Some "No dataset loaded"%string
    | _ => error (ui w)
    end.
Proof.
  intros Hs He. pose proof (str_or_null_None _ Hs) as Hn.
  destruct e; try discriminate He; unfold step; cbv zeta;
    repeat lazymatch goal with
    | |- context [if ?x then _ else _] => destruct x
    | |- context [match messages _ !! _ with _ => _ end] =>
        destruct (messages (ui w) !! idx)
    end; try done.
  all: unfold runNLQ, handleUndo, handleShowAllInTable, handleShowAllData,
         handleViewUpdatedRows, fetchPage; cbn [truthy_ostr]; rewrite ?Hn;
       try done.
  all: by destruct (str_or_null (datasetId (ui w))).
Qed.

Lemma no_session_no_request_witness :
  net (step (boot None) (ClickSend 0 (Ok previewed) (Failed "unused"))) = net (boot None) ∧
  stored (step (boot None) (ClickSend 0 (Ok previewed) (Failed "unused"))) =
    stored (boot None) ∧
  sessionWindow (ui (step (boot None) (ClickSend 0 (Ok previewed) (Failed "unused")))) =
    sessionWindow (ui (boot None)) ∧
  error (ui (step (boot None) (ClickSend 0 (Ok previewed) (Failed "unused")))) =
    if loading (ui (boot None)) then error (ui (boot None))
    else Some "Load a dataset first"%string.
Proof.
  apply (no_session_no_request (boot None) (ClickSend 0 (Ok previewed) (Failed "unused")));
    reflexivity.
Defined.

(** ** Failed loads and reopens *)

(** X22.  A click on "Load" whose request fails closes the modal all the same,
    shows the message and leaves everything else, the stored identity
    included, as it was. *)
Theorem failed_load_closes_modal (w : World) (msg : string)
    (page : Fetch PageResponse.t) :
  loading (ui w) = false →
  step w (ClickLoad (Failed msg) page) =
    mkWorld
      (with_showLoadModal false (with_loading false (with_error (Some msg) (ui w))))
      (net w ++ [ReqLoad (s3Path (ui w))]) (stored w).
Proof. intros Hl. unfold step. cbv zeta. rewrite Hl. reflexivity. Qed.

Lemma failed_load_closes_modal_witness :
  step w_loaded (ClickLoad (Failed "no such key") (Failed "unused")) =
    mkWorld
      (with_showLoadModal false
         (with_loading false (with_error (Some "no such key"%string) (ui w_loaded))))
      (net w_loaded ++ [ReqLoad (s3Path (ui w_loaded))]) (stored w_loaded).
Proof.
  apply (failed_load_closes_modal w_loaded "no such key" (Failed "unused")).
  reflexivity.
Defined.

(** X23.  A restart that finds a stored identity sends one reopen request; if it
    fails, the page shows the message on an otherwise initial state, the
    identity is purged, and the next restart sends nothing at all. *)
Theorem failed_reopen_is_not_retried (w : World) (id msg : string)
    (page : Fetch PageResponse.t) (reopen : Fetch LoadResponse.t)
    (page' : Fetch PageResponse.t) :
  str_or_null (stored w) = Some id →
  step w (Mount (Failed msg) page) =
    mkWorld (with_loading false (with_error (Some msg) initial))
      (net w ++ [ReqOpen id]) None ∧
  step (step w (Mount (Failed msg) page)) (Mount reopen page') =
    mkWorld initial (net w ++ [ReqOpen id]) None.
Proof.
  intros Hst.
  assert (step w (Mount (Failed msg) page) =
            mkWorld (with_loading false (with_error (Some msg) initial))
              (net w ++ [ReqOpen id]) None) as Hfirst.
  { unfold step. cbv zeta. rewrite Hst. reflexivity. }
  split; [exact Hfirst|]. rewrite Hfirst. reflexivity.
Qed.

Lemma failed_reopen_is_not_retried_witness :
  step (boot (Some "ds1"%string)) (Mount (Failed "gone") (Failed "unused")) =
    mkWorld (with_loading false (with_error (Some "gone"%string) initial))
      (net (boot (Some "ds1"%string)) ++ [ReqOpen "ds1"]) None ∧
  step (step (boot (Some "ds1"%string)) (Mount (Failed "gone") (Failed "unused")))
       (Mount (Ok loaded) (Failed "unused")) =
    mkWorld initial (net (boot (Some "ds1"%string)) ++ [ReqOpen "ds1"]) None.
Proof.
  apply (failed_reopen_is_not_retried (boot (Some "ds1"%string)) "ds1" "gone"
           (Failed "unused") (Ok loaded) (Failed "unused")).
  reflexivity.
Defined.

(** ** The rows of the table and the rows kept for their ids *)

Lemma elem_of_sortedPairs s p : p ∈ sortedPairs s ↔ p ∈ rowPairs s.
Proof.
  unfold sortedPairs. rewrite sortBy_compareRows.
  by rewrite (filter_app_complement _ (rowPairs s)).
Qed.

Lemma tableColumns_stripped s :
  preview s = stripRowId (rawPreview s) → ROW_ID ∉ tableColumns s.
Proof.
  intros Hp. unfold tableColumns. rewrite Hp.
  destruct (rawPreview s) as [|raw rows]; simpl; [apply not_elem_of_nil|].
  rewrite keys_rest_without. rewrite list_elem_of_filter. tauto.
Qed.

(** X24.  In every reachable state each row of the table body is paired with the
    raw row it was made from: the raw row exists, it is the one at the
    original index of the pair, and the displayed row is that raw row
    without [__row_id].  So the id a cell is looked up with is the id of the
    very row that is displayed, never [undefined] for want of a raw row,
    and [__row_id] is no column of the table. *)
Theorem reachable_table_pairs (w : World) (p : RowPair.t) :
  reachable w →
  p ∈ sortedPairs (ui w) →
  (∃ raw, RowPair.rawRow p = Some raw ∧
          rawPreview (ui w) !! RowPair.idx p = Some raw ∧
          RowPair.row p = rest_without ROW_ID raw ∧
          rowIdOf (RowPair.rawRow p) = get ROW_ID raw) ∧
  preview (ui w) !! RowPair.idx p = Some (RowPair.row p) ∧
  ROW_ID ∉ tableColumns (ui w).
Proof.
  intros Hw Hp. destruct (reachable_stripped w Hw) as [Hs _].
  apply elem_of_sortedPairs, list_elem_of_lookup in Hp as [i Hi].
  unfold rowPairs in Hi. rewrite list_lookup_imap in Hi.
  destruct (preview (ui w) !! i) as [r|] eqn:Hr; [|done].
  injection Hi as <-. cbn [RowPair.rawRow RowPair.idx RowPair.row].
  rewrite Hs, stripRowId_lookup in Hr.
  destruct (rawPreview (ui w) !! i) as [raw|] eqn:Hraw; [|done].
  injection Hr as <-.
  split; [by exists raw|]. split; [|by apply tableColumns_stripped].
  by rewrite Hs, stripRowId_lookup, Hraw.
Qed.

Lemma reachable_table_pairs_witness :
  (∃ raw, RowPair.rawRow (RowPair.mk (rest_without ROW_ID (row 5 31)) (Some (row 5 31)) 0) =
            Some raw ∧
          rawPreview (ui w_one_op) !!
            RowPair.idx (RowPair.mk (rest_without ROW_ID (row 5 31)) (Some (row 5 31)) 0) =
            Some raw ∧
          RowPair.row (RowPair.mk (rest_without ROW_ID (row 5 31)) (Some (row 5 31)) 0) =
            rest_without ROW_ID raw ∧
          rowIdOf (RowPair.rawRow
                     (RowPair.mk (rest_without ROW_ID (row 5 31)) (Some (row 5 31)) 0)) =
            get ROW_ID raw) ∧
  preview (ui w_one_op) !!
    RowPair.idx (RowPair.mk (rest_without ROW_ID (row 5 31)) (Some (row 5 31)) 0) =
    Some (RowPair.row (RowPair.mk (rest_without ROW_ID (row 5 31)) (Some (row 5 31)) 0)) ∧
  ROW_ID ∉ tableColumns (ui w_one_op).
Proof.
  apply (reachable_table_pairs w_one_op
           (RowPair.mk (rest_without ROW_ID (row 5 31)) (Some (row 5 31)) 0)).
  - apply reachable_run, reachable_run, reach_boot.
  - vm_compute. left.
Defined.
